(** * Youth Policy Pulse: the bill ingestion, caching and voting logic of app.py

    A shallow embedding of the parts of [src/app.py] that fetch bills from the
    Congress.gov API, normalise and categorise them, cache them in memory and
    in a file, parse bill identifiers, and record votes.

    Conventions.
    - A Python [str] is a [string] whose characters are read as the code
      points 0..255; [py_lower] and [py_strip] follow [str.lower] and
      [str.strip] on that range.
    - A Python value that comes out of [json.load] / [response.json()] is a
      [pyval]; a [dict] is an association list in insertion order.
    - [time.time()] readings and the float timestamps of the cache file are
      the rationals they stand for, and a difference of two of them is the
      exact one.  The code only subtracts a timestamp from a reading and
      compares the result with 1800; for a clock reading from 4096 to 2^52
      (any time from the second hour of 1970 on) the binary64 difference is
      below 1800 exactly when the exact difference is.  What an int does in
      such a subtraction is modelled: it is converted to a float, which
      raises OverflowError from 2^1024 - 2^970 on ([py_num]).
    - Module globals, the clock, the HTTP endpoint and the cache file live in
      a [World]; a Python function is a state-and-exception computation [M].
    - [print] calls are not modelled. *)

From Stdlib Require Import ZArith QArith List String Ascii Bool Arith Lia Lqa.
From Stdlib Require Import DecimalString.
Import ListNotations.

Set Warnings "-register-all".

Open Scope string_scope.
Open Scope list_scope.
Open Scope nat_scope.

(** ** Python strings *)

Module PyStr.

(** [s.startswith(p)] *)
Definition startswith (s p : string) : bool := String.prefix p s.

(** [s[n:]] *)
Fixpoint slice_from (n : nat) (s : string) : string :=
  match n, s with
  | O, _ => s
  | S _, EmptyString => EmptyString
  | S m, String _ r => slice_from m r
  end.

(** [kw in s] for two strings *)
Fixpoint contains (kw s : string) : bool :=
  String.prefix kw s ||
  match s with
  | EmptyString => false
  | String _ r => contains kw r
  end.

(** [s.split(sep)] for a one-character separator: never the empty list *)
Fixpoint split (sep : ascii) (s : string) : list string :=
  match s with
  | EmptyString => [EmptyString]
  | String c r =>
      if Ascii.eqb c sep then EmptyString :: split sep r
      else match split sep r with
           | h :: t => String c h :: t
           | [] => [String c EmptyString]
           end
  end.

(** [str.lower] on code points 0..255: A-Z, and the Latin-1 capitals
    192..214 and 216..222, move up by 32. *)
Definition lower_char (c : ascii) : ascii :=
  let n := nat_of_ascii c in
  if ((65 <=? n) && (n <=? 90)) || ((192 <=? n) && (n <=? 214))
     || ((216 <=? n) && (n <=? 222))
  then ascii_of_nat (n + 32) else c.

Fixpoint lower (s : string) : string :=
  match s with
  | EmptyString => EmptyString
  | String c r => String (lower_char c) (lower r)
  end.

(** [str.isspace] on code points 0..255 *)
Definition is_space (c : ascii) : bool :=
  let n := nat_of_ascii c in
  ((9 <=? n) && (n <=? 13)) || ((28 <=? n) && (n <=? 32))
  || (n =? 133) || (n =? 160).

Fixpoint lstrip (s : string) : string :=
  match s with
  | EmptyString => EmptyString
  | String c r => if is_space c then lstrip r else s
  end.

Fixpoint rstrip (s : string) : string :=
  match s with
  | EmptyString => EmptyString
  | String c r =>
      match rstrip r with
      | EmptyString => if is_space c then EmptyString else String c EmptyString
      | r' => String c r'
      end
  end.

(** [s.strip()] *)
Definition strip (s : string) : string := rstrip (lstrip s).

(** [str(n)] for an [int] *)
Definition of_Z (z : Z) : string := NilEmpty.string_of_int (Z.to_int z).

(** truth value of a string *)
Definition nonempty (s : string) : bool :=
  match s with EmptyString => false | String _ _ => true end.

End PyStr.

(** ** Python values *)

Inductive pyval : Type :=
| PNone
| PBool (b : bool)
| PInt (z : Z)
| PFloat (q : Q)
| PStr (s : string)
| PList (l : list pyval)
| PDict (d : list (string * pyval)).

(** truth value of an object, as [if x:] takes it *)
Definition truthy (v : pyval) : bool :=
  match v with
  | PNone => false
  | PBool b => b
  | PInt z => negb (z =? 0)%Z
  | PFloat q => negb (Qeq_bool q 0)
  | PStr s => PyStr.nonempty s
  | PList l => match l with [] => false | _ => true end
  | PDict d => match d with [] => false | _ => true end
  end.

(** lookup in a dict's items: the entry of the key *)
Fixpoint assoc (k : string) (d : list (string * pyval)) : option pyval :=
  match d with
  | [] => None
  | (k', v) :: r => if String.eqb k k' then Some v else assoc k r
  end.

(** [d[k] = v] on a dict's items: replace in place or append *)
Fixpoint assoc_set (k : string) (v : pyval) (d : list (string * pyval))
  : list (string * pyval) :=
  match d with
  | [] => [(k, v)]
  | (k', v') :: r =>
      if String.eqb k k' then (k, v) :: r else (k', v') :: assoc_set k v r
  end.

(** [v == s] for a string literal [s] *)
Definition py_eq_str (v : pyval) (s : string) : bool :=
  match v with
  | PStr t => String.eqb t s
  | _ => false
  end.

(** ** Bill identifier parsing (bill_detail, get_bill_summary,
       get_detailed_bills_for_page) *)

Module BillId.
Import PyStr.

(** The [if]/[elif] chain of [bill_detail] (lines 2184-2210); the chain of
    [get_bill_summary] (lines 2294-2320) is the same text.  The result is
    [(bill_type, bill_number)]. *)
Definition parse_type_number (bill_identifier : string) : string * string :=
  if startswith bill_identifier "hr" then ("hr", slice_from 2 bill_identifier)
  else if startswith bill_identifier "s" then ("s", slice_from 1 bill_identifier)
  else if startswith bill_identifier "hjres" then ("hjres", slice_from 5 bill_identifier)
  else if startswith bill_identifier "sjres" then ("sjres", slice_from 5 bill_identifier)
  else if startswith bill_identifier "hconres" then ("hconres", slice_from 7 bill_identifier)
  else if startswith bill_identifier "sconres" then ("sconres", slice_from 7 bill_identifier)
  else if startswith bill_identifier "hres" then ("hres", slice_from 4 bill_identifier)
  else if startswith bill_identifier "sres" then ("sres", slice_from 4 bill_identifier)
  else (bill_identifier, "1").

(** The chain of [get_detailed_bills_for_page] (lines 587-595): [None] is the
    branch that keeps the bill as it is and makes no detail call. *)
Definition parse_type_number_page (bill_identifier : string)
  : option (string * string) :=
  if startswith bill_identifier "hr" then Some ("hr", slice_from 2 bill_identifier)
  else if startswith bill_identifier "s" then Some ("s", slice_from 1 bill_identifier)
  else None.

(** What the three callers take from a [bill_id]: [parts = bill_id.split('-')],
    then, when there are two parts or more, the congress [parts[1]] and the
    type and number parsed from [parts[0]]. *)
Definition detail_components (bill_id : string)
  : option (string * (string * string)) :=
  match split "-"%char bill_id with
  | bill_identifier :: congress_number :: _ =>
      Some (congress_number, parse_type_number bill_identifier)
  | _ => None
  end.

Definition detail_components_page (bill_id : string)
  : option (string * option (string * string)) :=
  match split "-"%char bill_id with
  | bill_identifier :: congress_number :: _ =>
      Some (congress_number, parse_type_number_page bill_identifier)
  | _ => None
  end.

(** The multi-letter bill types of the claim. *)
Definition multi_letter_types : list string :=
  ["hjres"; "sjres"; "hconres"; "sconres"; "hres"; "sres"].

End BillId.

(** ** Operations on Python values that can raise

    [None] stands for the exception the operation raises (AttributeError,
    TypeError, KeyError, IndexError). *)

Declare Scope pyopt_scope.
Delimit Scope pyopt_scope with pyopt.

Notation "'let?' x ':=' e 'in' k" :=
  (match e with Some x => k | None => None end)
  (at level 10, x name, e at level 100, k at level 200) : pyopt_scope.

Open Scope pyopt_scope.

(** the entry of a key in a dict's items, or the default *)
Definition field (d : list (string * pyval)) (k : string) (default : pyval)
  : pyval :=
  match assoc k d with
  | Some x => x
  | None => default
  end.

(** [v.get(k, default)]: only a dict has the method *)
Definition py_get (v : pyval) (k : string) (default : pyval) : option pyval :=
  match v with
  | PDict d => Some (field d k default)
  | _ => None
  end.

(** [v.lower()]: only a string has the method *)
Definition py_lower (v : pyval) : option string :=
  match v with
  | PStr s => Some (PyStr.lower s)
  | _ => None
  end.

(** [len(v)] *)
Definition py_len (v : pyval) : option nat :=
  match v with
  | PStr s => Some (String.length s)
  | PList l => Some (List.length l)
  | PDict d => Some (List.length d)
  | _ => None
  end.

(** [v[0]]: the first element of a list, the first character of a string;
    a dict whose keys are strings has no key [0]. *)
Definition py_index0 (v : pyval) : option pyval :=
  match v with
  | PList (x :: _) => Some x
  | PStr (String c _) => Some (PStr (String c EmptyString))
  | _ => None
  end.

(** the characters of a string, each as a string *)
Fixpoint chars (s : string) : list pyval :=
  match s with
  | EmptyString => []
  | String c r => PStr (String c EmptyString) :: chars r
  end.

(** what [for x in v] and [list.extend(v)] run over: the elements of a list,
    the characters of a string, the keys of a dict *)
Definition py_iter (v : pyval) : option (list pyval) :=
  match v with
  | PList l => Some l
  | PStr s => Some (chars s)
  | PDict d => Some (map (fun kv => PStr (fst kv)) d)
  | _ => None
  end.

(** an int is converted to a float before it meets one in arithmetic: from
    this magnitude on (the first that rounds to 2^1024) the conversion raises
    OverflowError *)
Definition FLOAT_OVERFLOW : Z := (2 ^ 1024 - 2 ^ 970)%Z.

Definition float_of_int (z : Z) : option Q :=
  if (Z.abs z <? FLOAT_OVERFLOW)%Z then Some (inject_Z z) else None.

(** the number a value stands for in [time.time() - v]: an int (a bool is
    one) is converted, a float is taken as it is, anything else is a
    TypeError.  Floats are the finite ones, and their arithmetic is that of
    the rationals they stand for. *)
Definition py_num (v : pyval) : option Q :=
  match v with
  | PInt z => float_of_int z
  | PFloat q => Some q
  | PBool b => Some (if b then 1%Q else 0%Q)
  | _ => None
  end.

(** [isinstance(v, dict)] *)
Definition is_dict (v : pyval) : bool :=
  match v with PDict _ => true | _ => false end.

(** [x < y] on clock readings *)
Definition Qltb (x y : Q) : bool := negb (Qle_bool y x).

(** ** The world: clock, HTTP endpoint, cache file, module globals *)

Definition CONGRESS_BASE_URL : string := "https://api.congress.gov/v3".

(** line 360 *)
Definition CACHE_DURATION : Q := 1800%Q.

(** [requests.get(url, headers=headers, params=params)]; the headers always
    carry the API key and are left out. *)
Record Request : Type := mkRequest {
  req_url : string;
  req_params : list (string * pyval)
}.

(** What a request comes back with: [requests.get] raises, or a response
    with a status code whose [.json()] gives a value or raises ([None]). *)
Inductive HttpOutcome : Type :=
| ConnectionError
| Response (status_code : Z) (json : option pyval).

(** What the cache file holds: text that [json.load] rejects, or the JSON
    document of a value. [json.dump] and [json.load] are library code: a
    document is modelled by the value it encodes. *)
Inductive FileContent : Type :=
| NotJson
| JsonDoc (v : pyval).

Record World : Type := mkWorld {
  clock : nat -> Q;                      (* the n-th reading of time.time() *)
  ticks : nat;                           (* readings taken so far *)
  endpoint : nat -> Request -> HttpOutcome;  (* outcome of the n-th request *)
  http_log : list Request;               (* requests issued so far, in order *)
  cache_file : option FileContent;       (* CACHE_FILE, when it exists *)
  disk_writable : bool;                  (* open(.., 'w') and os.remove succeed *)
  api_bills_cache : pyval;               (* lines 356-359 *)
  api_bills_cache_time : option Q;
  processed_bills_cache : pyval;
  processed_bills_cache_time : option Q
}.

Definition tick (w : World) : World :=
  mkWorld (clock w) (S (ticks w)) (endpoint w) (http_log w) (cache_file w)
          (disk_writable w) (api_bills_cache w) (api_bills_cache_time w)
          (processed_bills_cache w) (processed_bills_cache_time w).

Definition log_request (r : Request) (w : World) : World :=
  mkWorld (clock w) (ticks w) (endpoint w) (http_log w ++ [r]) (cache_file w)
          (disk_writable w) (api_bills_cache w) (api_bills_cache_time w)
          (processed_bills_cache w) (processed_bills_cache_time w).

Definition with_cache_file (f : option FileContent) (w : World) : World :=
  mkWorld (clock w) (ticks w) (endpoint w) (http_log w) f
          (disk_writable w) (api_bills_cache w) (api_bills_cache_time w)
          (processed_bills_cache w) (processed_bills_cache_time w).

Definition with_api_cache (v : pyval) (t : option Q) (w : World) : World :=
  mkWorld (clock w) (ticks w) (endpoint w) (http_log w) (cache_file w)
          (disk_writable w) v t
          (processed_bills_cache w) (processed_bills_cache_time w).

Definition with_processed_cache (v : pyval) (w : World) : World :=
  mkWorld (clock w) (ticks w) (endpoint w) (http_log w) (cache_file w)
          (disk_writable w) (api_bills_cache w) (api_bills_cache_time w)
          v (processed_bills_cache_time w).

Definition with_processed_cache_time (t : option Q) (w : World) : World :=
  mkWorld (clock w) (ticks w) (endpoint w) (http_log w) (cache_file w)
          (disk_writable w) (api_bills_cache w) (api_bills_cache_time w)
          (processed_bills_cache w) t.

(** truth value of a cache time: [None] and [0.0] are false *)
Definition time_truthy (t : option Q) : bool :=
  match t with
  | None => false
  | Some q => negb (Qeq_bool q 0)
  end.

(** ** Computations: state and exceptions *)

Inductive outcome (A : Type) : Type :=
| Returned (a : A)
| Raised.
Arguments Returned {A} a.
Arguments Raised {A}.

Definition M (A : Type) : Type := World -> outcome A * World.

Definition ret {A} (a : A) : M A := fun w => (Returned a, w).

Definition raise {A} : M A := fun w => (Raised, w).

Definition bind {A B} (m : M A) (k : A -> M B) : M B :=
  fun w => match m w with
           | (Returned a, w') => k a w'
           | (Raised, w') => (Raised, w')
           end.

(** [try: m  except Exception: h]: what [m] did to the world stays done *)
Definition try_except {A} (m h : M A) : M A :=
  fun w => match m w with
           | (Returned a, w') => (Returned a, w')
           | (Raised, w') => h w'
           end.

(** an operation that can raise, inside a computation *)
Definition lift {A} (o : option A) : M A :=
  match o with
  | Some a => ret a
  | None => raise
  end.

Definition modify (f : World -> World) : M unit := fun w => (Returned tt, f w).

Definition gets {A} (f : World -> A) : M A := fun w => (Returned (f w), w).

Declare Scope py_scope.
Delimit Scope py_scope with py.

Notation "x <- m ;; k" := (bind m (fun x => k))
  (at level 100, m at next level, right associativity) : py_scope.
Notation "m ;;; k" := (bind m (fun _ => k))
  (at level 100, right associativity) : py_scope.

Open Scope py_scope.

(** [time.time()] *)
Definition time_time : M Q :=
  fun w => (Returned (clock w (ticks w)), tick w).

(** [requests.get]: the request is logged, then answered or raised *)
Definition requests_get (r : Request) : M (Z * option pyval) :=
  fun w =>
    match endpoint w (List.length (http_log w)) r with
    | ConnectionError => (Raised, log_request r w)
    | Response s b => (Returned (s, b), log_request r w)
    end.

(** [response.json()] *)
Definition response_json (b : option pyval) : M pyval := lift b.

(** ** Votes (the Vote model, lines 129-147, and api_vote_bill, lines 1843-1888) *)

Module Votes.

(** a row of the vote table; [user_id] is nullable *)
Record Vote : Type := mkVote {
  id : Z;
  bill_id : string;
  ip_address : string;
  vote_type : string;
  created_at : Q;
  user_id : option Z
}.

(** the table, in primary-key order *)
Definition Table : Type := list Vote.

(** [filter_by(bill_id=b, user_id=u)] *)
Definition by_bill_user (b : string) (u : Z) (v : Vote) : bool :=
  String.eqb (bill_id v) b &&
  match user_id v with
  | Some x => (x =? u)%Z
  | None => false
  end.

(** [filter_by(bill_id=b, vote_type=t)] *)
Definition by_bill_type (b t : string) (v : Vote) : bool :=
  String.eqb (bill_id v) b && String.eqb (vote_type v) t.

(** [Vote.query.filter_by(...).first()] *)
Definition first_vote (b : string) (u : Z) (t : Table) : option Vote :=
  find (by_bill_user b u) t.

(** [Vote.query.filter_by(...).count()] *)
Definition count_votes (b ty : string) (t : Table) : nat :=
  List.length (filter (by_bill_type b ty) t).

(** the rows of a (bill, user) pair *)
Definition rows_of (b : string) (u : Z) (t : Table) : list Vote :=
  filter (by_bill_user b u) t.

(** [unique_vote_per_user]: no two rows share a bill and a non-null user *)
Definition unique_vote_per_user (t : Table) : Prop :=
  forall b u, List.length (rows_of b u t) <= 1.

(** assigning to the attributes of the row [first()] gave, then commit *)
Fixpoint update_first (b : string) (u : Z) (ty : string) (now : Q) (t : Table)
  : Table :=
  match t with
  | [] => []
  | v :: r =>
      if by_bill_user b u v
      then mkVote (id v) (bill_id v) (ip_address v) ty now (user_id v) :: r
      else v :: update_first b u ty now r
  end.

(** the next value of the autoincrement key *)
Definition next_id (t : Table) : Z :=
  (fold_right Z.max 0 (map id t) + 1)%Z.

(** [db.session.add(vote)], then commit *)
Definition insert_vote (b ip ty : string) (now : Q) (u : Z) (t : Table) : Table :=
  t ++ [mkVote (next_id t) b ip ty now (Some u)].

(** ['vote_type' in data]: a key of a dict, an element of a list, a
    substring of a string; anything else raises *)
Definition py_in (k : string) (data : pyval) : option bool :=
  match data with
  | PDict d => Some (match assoc k d with Some _ => true | None => false end)
  | PList l => Some (existsb (fun v => py_eq_str v k) l)
  | PStr s => Some (PyStr.contains k s)
  | _ => None
  end.

(** [data['vote_type']]: only a dict can be indexed by a string *)
Definition py_item (k : string) (data : pyval) : option pyval :=
  match data with
  | PDict d => assoc k d
  | _ => None
  end.

(** the two 400 answers: 'Missing vote_type' and 'Invalid vote_type' *)
Inductive Rejection : Type :=
| MissingVoteType
| InvalidVoteType.

Inductive VoteResponse : Type :=
| Ok200 (up_votes down_votes : nat) (user_vote : string)
| Error400 (why : Rejection)
| Error500.

(** the body of the [try]: [None] is an exception, which the handler turns
    into a rollback and a 500 *)
Definition api_vote_bill_body (b : string) (current_user : Z) (client_ip : string)
  (now : Q) (data : pyval) (t : Table) : option (VoteResponse * Table) :=
  if negb (truthy data) then Some (Error400 MissingVoteType, t)
  else
    let? has := py_in "vote_type" data in
    if negb has then Some (Error400 MissingVoteType, t)
    else
      let? chosen := py_item "vote_type" data in
      match chosen with
      | PStr ty =>
          if negb (String.eqb ty "up" || String.eqb ty "down")
          then Some (Error400 InvalidVoteType, t)
          else
            let t' :=
              match first_vote b current_user t with
              | Some _ => update_first b current_user ty now t
              | None => insert_vote b client_ip ty now current_user t
              end in
            Some (Ok200 (count_votes b "up" t') (count_votes b "down" t') ty, t')
      | _ => Some (Error400 InvalidVoteType, t)
      end.

Definition api_vote_bill (b : string) (current_user : Z) (client_ip : string)
  (now : Q) (data : pyval) (t : Table) : VoteResponse * Table :=
  match api_vote_bill_body b current_user client_ip now data t with
  | Some r => r
  | None => (Error500, t)
  end.

(** the JSON body of a well-formed submission *)
Definition submission (ty : string) : pyval := PDict [("vote_type", PStr ty)].

End Votes.

(** ** moderate_comment (lines 922-949) *)

Module Moderation.

Definition inappropriate_words : list string :=
  ["spam"; "scam"; "fake"; "hate"; "violence"; "threat"; "abuse"].

(** [c.isupper()] on code points 0..255 *)
Definition is_upper (c : ascii) : bool :=
  let n := nat_of_ascii c in
  ((65 <=? n) && (n <=? 90)) || ((192 <=? n) && (n <=? 214))
  || ((216 <=? n) && (n <=? 222)).

(** [sum(1 for c in content if c.isupper())] *)
Fixpoint count_upper (s : string) : nat :=
  match s with
  | EmptyString => 0
  | String c r => (if is_upper c then 1 else 0) + count_upper r
  end.

(** the first word of the list that occurs in the text, as the [for] loop
    with its [return] finds it *)
Fixpoint first_found (words : list string) (text : string) : option string :=
  match words with
  | [] => None
  | word :: rest =>
      if PyStr.contains word text then Some word else first_found rest text
  end.

(** [caps_ratio > 0.7], where [caps_ratio] is the count of capitals over the
    length, and 0 for the empty content.  The comparison is made on the
    exact quotient; the float quotient gives the same answer for any
    content shorter than 10^14 characters. *)
Definition excessive_caps (content : string) : bool :=
  match content with
  | EmptyString => false
  | _ => 7 * String.length content <? 10 * count_upper content
  end.

Definition moderate_comment (content : string) : bool * string :=
  let content_lower := PyStr.lower content in
  match first_found inappropriate_words content_lower with
  | Some word =>
      (false, ("Content contains inappropriate language: " ++ word)%string)
  | None =>
      if excessive_caps content
      then (false, "Content contains excessive capitalization")
      else if String.length (PyStr.strip content) <? 10
      then (false, "Comment is too short")
      else if 1000 <? String.length content
      then (false, "Comment is too long")
      else (true, "Comment approved")
  end.

End Moderation.

(** ** The page of bills that index shows (lines 1407-1452, 1489-1490) *)

Module Index.

(** [xs[start:stop]] for a list, with Python's treatment of negative and
    out-of-range bounds *)
Definition slice_bound (len i : Z) : Z :=
  if (i <? 0)%Z then Z.max (i + len) 0 else Z.min i len.

Definition py_slice {A} (xs : list A) (start stop : Z) : list A :=
  let len := Z.of_nat (List.length xs) in
  let a := slice_bound len start in
  let b := slice_bound len stop in
  firstn (Z.to_nat (b - a)) (skipn (Z.to_nat a) xs).

(** lines 1411-1412 *)
Definition valid_per_page (per_page : Z) : Z :=
  if ((per_page =? 10) || (per_page =? 20) || (per_page =? 50))%Z
  then per_page else 10%Z.

(** line 1444; [//] is floor division *)
Definition total_pages (total_bills per_page : Z) : Z :=
  if (0 <? total_bills)%Z then ((total_bills + per_page - 1) / per_page)%Z
  else 1%Z.

(** line 1447 *)
Definition clamp_page (page pages : Z) : Z :=
  if (0 <? pages)%Z then Z.max 1 (Z.min page pages) else 1%Z.

(** what the template gets about the page *)
Record Page (A : Type) : Type := mkPage {
  page_number : Z;
  page_size : Z;
  page_count : Z;
  bill_count : Z;
  page_bills : list A;
  has_prev : bool;
  has_next : bool
}.
Arguments mkPage {A}.
Arguments page_number {A}.
Arguments page_size {A}.
Arguments page_count {A}.
Arguments bill_count {A}.
Arguments page_bills {A}.
Arguments has_prev {A}.
Arguments has_next {A}.

(** [page] and [per_page] are the request's numbers, after [int(...)] *)
Definition paginate {A} (page per_page : Z) (filtered_bills : list A) : Page A :=
  let per_page := valid_per_page per_page in
  let total_bills := Z.of_nat (List.length filtered_bills) in
  let pages := total_pages total_bills per_page in
  let page := clamp_page page pages in
  let start_idx := ((page - 1) * per_page)%Z in
  let end_idx := (start_idx + per_page)%Z in
  mkPage page per_page pages total_bills
         (py_slice filtered_bills start_idx end_idx)
         (1 <? page)%Z (page <? pages)%Z.

(** *** The filters (lines 1428-1440); [None] is an exception, which index
    does not catch *)

(** the test of the topic filter on one bill *)
Definition has_topic (topic_filter : string) (bill : pyval) : option bool :=
  let? topics := py_get bill "topics" (PList []) in
  Votes.py_in topic_filter topics.

(** the test of the chamber filter on one bill *)
Definition in_chamber (chamber_filter : string) (bill : pyval) : option bool :=
  let? chamber_raw := py_get bill "chamber" (PStr EmptyString) in
  let? chamber := py_lower chamber_raw in
  Some (String.eqb chamber (PyStr.lower chamber_filter)).

(** the test of the search filter on one bill: the summary is looked at
    only when the title does not match *)
Definition matches_search (search_lower : string) (bill : pyval) : option bool :=
  let? title_raw := py_get bill "title" (PStr EmptyString) in
  let? title := py_lower title_raw in
  if PyStr.contains search_lower title then Some true
  else
    let? summary_raw := py_get bill "summary" (PStr EmptyString) in
    let? summary := py_lower summary_raw in
    Some (PyStr.contains search_lower summary).

(** a list comprehension [[bill for bill in bills if test(bill)]] *)
Fixpoint comprehension (test : pyval -> option bool) (bills : list pyval)
  : option (list pyval) :=
  match bills with
  | [] => Some []
  | bill :: rest =>
      let? keep := test bill in
      let? kept := comprehension test rest in
      Some (if keep then bill :: kept else kept)
  end.

Definition apply_filters (topic_filter chamber_filter search_query : string)
  (all_bills : list pyval) : option (list pyval) :=
  let? by_topic :=
    if PyStr.nonempty topic_filter
    then comprehension (has_topic topic_filter) all_bills
    else Some all_bills in
  let? by_chamber :=
    if negb (String.eqb chamber_filter "both")
    then comprehension (in_chamber chamber_filter) by_topic
    else Some by_topic in
  if PyStr.nonempty search_query
  then comprehension (matches_search (PyStr.lower search_query)) by_chamber
  else Some by_chamber.

End Index.

(** ** Topic keywords (lines 342-353), in the dict's order *)

Definition TOPIC_KEYWORDS : list (string * list string) :=
  [ ("education",
     ["education"; "school"; "university"; "college"; "student"; "teacher";
      "learning"; "academic"; "campus"; "scholarship"; "degree"; "curriculum";
      "classroom"; "textbook"; "tuition"; "enrollment"]);
    ("student_loans",
     ["student loan"; "student debt"; "federal student aid"; "pell grant";
      "financial aid"; "tuition"; "borrower"; "repayment"; "forgiveness";
      "default"; "interest rate"]);
    ("mental_health",
     ["mental health"; "mental illness"; "psychiatric"; "therapy";
      "counseling"; "depression"; "anxiety"; "suicide prevention";
      "behavioral"; "psychological"; "wellness"; "crisis"; "treatment"]);
    ("youth_voting",
     ["youth voting"; "voting age"; "student voting"; "campus voting";
      "voter registration"; "election access"; "democracy"; "civic";
      "participation"; "franchise"]);
    ("environment",
     ["environment"; "climate"; "green energy"; "renewable"; "carbon";
      "emissions"; "pollution"; "conservation"; "sustainability"; "clean air";
      "water"; "wildlife"; "ecosystem"; "renewable energy"; "solar"; "wind"]);
    ("healthcare",
     ["health"; "healthcare"; "medical"; "hospital"; "doctor"; "nurse";
      "insurance"; "medicare"; "medicaid"; "pharmaceutical"; "drug";
      "prescription"; "treatment"; "patient"]);
    ("economy",
     ["economy"; "economic"; "business"; "job"; "employment"; "unemployment";
      "wage"; "salary"; "income"; "tax"; "budget"; "deficit"; "inflation";
      "recession"]);
    ("technology",
     ["technology"; "tech"; "digital"; "internet"; "cyber"; "data"; "privacy";
      "artificial intelligence"; "ai"; "computer"; "software"; "hardware";
      "innovation"]);
    ("immigration",
     ["immigration"; "immigrant"; "border"; "visa"; "citizenship"; "asylum";
      "refugee"; "deportation"; "naturalization"]);
    ("criminal_justice",
     ["criminal"; "justice"; "police"; "law enforcement"; "prison"; "jail";
      "incarceration"; "rehabilitation"; "reform"; "sentencing"]) ].

(** the placeholder both normalisation paths store as the summary *)
Definition SUMMARY_PLACEHOLDER : string := "Text not available".

(** ** clear_bills_cache (lines 387-394) *)

Definition clear_bills_cache : M unit :=
  modify (fun w =>
            with_processed_cache_time None
              (with_processed_cache PNone (with_api_cache PNone None w))).

(** ** get_detailed_bills_for_page (lines 562-649) *)

Module DetailPage.

(** the updates made to the copy of the bill from a detail response
    (lines 611-631) *)
Definition with_details (bill bill_detail : pyval) : option pyval :=
  match bill with
  | PDict items =>
      let? sponsors := py_get bill_detail "sponsors" PNone in
      let? items1 :=
        if truthy sponsors then
          let? n := py_len sponsors in
          if 0 <? n then
            let? primary_sponsor := py_index0 sponsors in
            let? name := py_get primary_sponsor "fullName"
                           (PStr "Sponsor information not available") in
            Some (assoc_set "sponsor" name items)
          else Some items
        else Some items in
      let? introduced := py_get bill_detail "introducedDate" PNone in
      let items2 :=
        if truthy introduced
        then assoc_set "introduced_date" introduced items1
        else items1 in
      let? latest_action := py_get bill_detail "latestAction" (PDict []) in
      let? text := py_get latest_action "text" PNone in
      let items3 :=
        if truthy text
        then assoc_set "latest_action" text (assoc_set "status" text items2)
        else items2 in
      Some (PDict items3)
  | _ => None
  end.

(** the body of the [try] for one bill (lines 573-637): the bill that is
    appended to the result *)
Definition detail_of (bill : pyval) : M pyval :=
  bill_id <- lift (py_get bill "bill_id" (PStr EmptyString)) ;;
  if negb (truthy bill_id) then ret bill
  else
    match bill_id with
    | PStr id =>
        match PyStr.split "-"%char id with
        | bill_identifier :: congress_number :: _ =>
            match BillId.parse_type_number_page bill_identifier with
            | Some (bill_type, bill_number) =>
                let detail_url :=
                  (CONGRESS_BASE_URL ++ "/bill/" ++ congress_number ++ "/"
                   ++ bill_type ++ "/" ++ bill_number)%string in
                _start <- time_time ;;
                detail_response <- requests_get (mkRequest detail_url []) ;;
                _stop <- time_time ;;
                if (fst detail_response =? 200)%Z then
                  detail_data <- response_json (snd detail_response) ;;
                  bill_detail <- lift (py_get detail_data "bill" (PDict [])) ;;
                  lift (with_details bill bill_detail)
                else ret bill
            | None => ret bill
            end
        | _ => ret bill
        end
    | _ => raise
    end.

(** one turn of the loop: the [try], and the handler, which prints the
    bill's id (and so raises again when the bill is not a dict) and keeps
    the bill as it was *)
Definition detail_step (bill : pyval) : M pyval :=
  try_except (detail_of bill)
    (_id <- lift (py_get bill "bill_id" (PStr "unknown")) ;; ret bill).

Fixpoint get_detailed_bills_for_page (bills_for_page : list pyval)
  : M (list pyval) :=
  match bills_for_page with
  | [] => ret []
  | bill :: rest =>
      detailed <- detail_step bill ;;
      others <- get_detailed_bills_for_page rest ;;
      ret (detailed :: others)
  end.

End DetailPage.

(** ** Sample records and worlds *)

Module Samples.

(** a [repr] for the runs below, none of which formats a float, a list or a
    dict *)
Definition sample_repr : pyval -> string := fun _ => "<object>".

(** a House bill as the list endpoint gives it *)
Definition house_bill : pyval :=
  PDict [("title", PStr "Climate Change Mitigation Act");
         ("type", PStr "HR");
         ("number", PStr "12");
         ("originChamber", PStr "House");
         ("congress", PInt 118);
         ("latestAction", PDict [("text", PStr "Referred to committee")])].

(** a Senate joint resolution *)
Definition senate_joint_resolution : pyval :=
  PDict [("title", PStr "A joint resolution");
         ("type", PStr "SJRES");
         ("number", PStr "5");
         ("originChamber", PStr "Senate");
         ("congress", PInt 118)].

(** the same bill with a null type *)
Definition null_type_bill : pyval :=
  PDict [("title", PStr "Climate Change Mitigation Act");
         ("type", PNone);
         ("number", PStr "12");
         ("originChamber", PStr "House");
         ("congress", PInt 118)].

(** an endpoint that answers every request with one page of one bill *)
Definition one_bill_endpoint (n : nat) (r : Request) : HttpOutcome :=
  Response 200 (Some (PDict [("bills", PList [house_bill])])).

(** a clock that starts at a million seconds and advances by one second a
    reading *)
Definition steady_clock (n : nat) : Q := inject_Z (1000000 + Z.of_nat n).

(** a fresh process: nothing cached, no cache file *)
Definition cold_world : World :=
  mkWorld steady_clock 0 one_bill_endpoint [] None true PNone None PNone None.

(** the raw-bill cache was filled a thousand seconds ago *)
Definition warm_world : World :=
  mkWorld steady_clock 0 one_bill_endpoint [] None true
          (PList [house_bill]) (Some (inject_Z 999000)) PNone None.

(** a processed bill list, as a cache file holds it *)
Definition stale_bills : pyval :=
  PList [PDict [("bill_id", PStr "hr12-118"); ("title", PStr "An old bill")]].

(** a process that starts with a cache file written at second 1000; its
    clock reads 2799, 2800, 4000, and 5000 from then on *)
Definition restart_clock (n : nat) : Q :=
  inject_Z (nth n [2799; 2800; 4000]%Z 5000%Z).

Definition restarted_world : World :=
  mkWorld restart_clock 0 one_bill_endpoint []
          (Some (JsonDoc (PDict [("timestamp", PFloat (inject_Z 1000));
                                 ("bills", stale_bills)])))
          true PNone None PNone None.

(** a world whose file holds an entry written at second 1000, read at the
    given second *)
Definition world_reading_at (now : Z) : World :=
  mkWorld (fun _ => inject_Z now) 0 one_bill_endpoint []
          (Some (JsonDoc (PDict [("timestamp", PFloat (inject_Z 1000));
                                 ("bills", stale_bills)])))
          true PNone None PNone None.

(** an endpoint that cannot be reached, one that answers 500, and one whose
    pages are empty *)
Definition offline_endpoint (n : nat) (r : Request) : HttpOutcome :=
  ConnectionError.

Definition failing_endpoint (n : nat) (r : Request) : HttpOutcome :=
  Response 500 None.

Definition empty_endpoint (n : nat) (r : Request) : HttpOutcome :=
  Response 200 (Some (PDict [("bills", PList [])])).

Definition world_with_endpoint (e : nat -> Request -> HttpOutcome) : World :=
  mkWorld steady_clock 0 e [] None true PNone None PNone None.

(** the processed bills were put in memory a thousand seconds ago *)
Definition memory_warm_world : World :=
  mkWorld steady_clock 0 one_bill_endpoint [] None true
          PNone None stale_bills (Some (inject_Z 999000)).

(** the cache file holds text that is not JSON *)
Definition corrupt_file_world : World :=
  mkWorld steady_clock 0 one_bill_endpoint [] (Some NotJson) true
          PNone None PNone None.

(** two processed bills, as the cache holds them *)
Definition climate_bill : pyval :=
  PDict [("bill_id", PStr "hr12-118");
         ("title", PStr "Climate Change Mitigation Act");
         ("summary", PStr "Text not available");
         ("chamber", PStr "House");
         ("topics", PList [PStr "environment"])].

Definition budget_bill : pyval :=
  PDict [("bill_id", PStr "s7-118");
         ("title", PStr "Budget Control Act");
         ("summary", PStr "Text not available");
         ("chamber", PStr "Senate");
         ("topics", PList [PStr "economy"])].

(** a bill whose title names no topic of the table *)
Definition post_office_bill : list (string * pyval) :=
  [("title", PStr "A bill for naming a post office");
   ("summary", PStr EmptyString)].

(** a vote table with one row, of user 3 on another bill *)
Definition one_vote_table : Votes.Table :=
  [Votes.mkVote 1 "s7-118" "10.0.0.9" "up" 5 (Some 3%Z)].

End Samples.

Section Model.

(** [str(v)] of a float, a list or a dict is Python's [repr]; no property
    below depends on its text, so it is a parameter of the model. *)
Variable py_repr : pyval -> string.

(** [str(v)], as an f-string formats [v] *)
Definition py_str (v : pyval) : string :=
  match v with
  | PStr s => s
  | PNone => "None"
  | PBool true => "True"
  | PBool false => "False"
  | PInt z => PyStr.of_Z z
  | _ => py_repr v
  end.

(** ** categorize_bill (lines 897-920) *)

(** [any(word in text for word in words)]; also the inner [for keyword]
    loop, which stops at the first keyword found *)
Definition any_in (words : list string) (text : string) : bool :=
  existsb (fun word => PyStr.contains word text) words.

(** the [for topic, keywords] loop: each topic with a keyword in the text,
    once, in the dict's order *)
Definition keyword_topics (text : string) : list string :=
  map fst (filter (fun tk => any_in (snd tk) text) TOPIC_KEYWORDS).

(** line 899: the text that is searched; [bill] is the items of the dict
    that is passed in *)
Definition bill_text (bill : list (string * pyval)) : string :=
  let title := field bill "title" (PStr EmptyString) in
  let summary := field bill "summary" (PStr EmptyString) in
  PyStr.lower (py_str title ++ " " ++ py_str summary)%string.

(** lines 900-920, on that text *)
Definition topics_of_text (text : string) : list string :=
  if negb (PyStr.nonempty text) || (String.length (PyStr.strip text) <? 10)
  then []
  else
    let topics := keyword_topics text in
    match topics with
    | [] =>
        if any_in ["act"; "law"; "bill"; "legislation"] text
        then ["general_legislation"]
        else if any_in ["amendment"; "modify"; "change"; "update"] text
        then ["legislative_reform"]
        else []
    | _ => topics
    end.

Definition categorize_bill (bill : list (string * pyval)) : list string :=
  topics_of_text (bill_text bill).

(** ** generate_congress_url (lines 1346-1396) *)

Definition congress_gov_url (congress : pyval) (chamber_format : string)
  (bill_number bill_id : pyval) : string :=
  ("https://www.congress.gov/bill/" ++ py_str congress ++ "th-congress/"
   ++ chamber_format ++ "/" ++ py_str bill_number
   ++ "?q=%7B%22search%22%3A%22" ++ py_str bill_id
   ++ "%22%7D&s=1&r=1")%string.

(** the fallback after the dict branch: a URL from the bill id alone;
    [bill_id.split] raises when the id is not a string *)
Definition govtrack_fallback (bill : pyval) : option string :=
  let? bill_id :=
    match bill with
    | PStr s => Some (PStr s)
    | PDict _ => py_get bill "bill_id" (PStr EmptyString)
    | _ => Some (PStr (py_str bill))
    end in
  match bill_id with
  | PStr s =>
      match PyStr.split "-"%char s with
      | bill_number :: congress :: _ =>
          Some ("https://www.govtrack.us/congress/bills/" ++ congress
                ++ "/hr" ++ bill_number)%string
      | _ => Some ("https://www.govtrack.us/congress/bills/119/" ++ s)%string
      end
  | _ => None
  end.

(** the body of the [try]; [bill_prefix] and [encoded_bill_id] are computed
    and never used, and are left out *)
Definition generate_congress_url_body (bill : pyval) : option string :=
  if is_dict bill then
    let? bill_type_raw := py_get bill "bill_type" (PStr EmptyString) in
    let? bill_type := py_lower bill_type_raw in
    let? bill_number := py_get bill "bill_number" (PStr EmptyString) in
    let? congress := py_get bill "congress" (PStr "119") in
    let? chamber_raw := py_get bill "chamber" (PStr EmptyString) in
    let? chamber := py_lower chamber_raw in
    let? bill_id := py_get bill "bill_id" (PStr EmptyString) in
    if truthy bill_number && truthy bill_id then
      let chamber_format :=
        if String.eqb chamber "house" then "house-bill" else "senate-bill" in
      Some (congress_gov_url congress chamber_format bill_number bill_id)
    else govtrack_fallback bill
  else govtrack_fallback bill.

Definition generate_congress_url (bill : pyval) : string :=
  match generate_congress_url_body bill with
  | Some url => url
  | None =>
      ("https://www.govtrack.us/congress/bills/119/"
       ++ match bill with PStr s => s | _ => "unknown" end)%string
  end.

(** ** Normalisation of a raw bill record *)

(** the status text taken from [latestAction] (lines 755-760, 848-853) *)
Definition latest_action_status (congress_bill : pyval) : option pyval :=
  let? la := py_get congress_bill "latestAction" PNone in
  if truthy la then
    if is_dict la then py_get la "text" (PStr EmptyString)
    else Some la
  else Some (PStr EmptyString).

(** the identifier built from the available fields (lines 769-772, 862-865) *)
Definition make_bill_id (bill_type chamber : string) (bill_number congress_number : pyval)
  : string :=
  if truthy bill_number && PyStr.nonempty bill_type && PyStr.nonempty chamber
  then (bill_type ++ py_str bill_number ++ "-" ++ py_str congress_number)%string
  else ("unknown-" ++ py_str congress_number)%string.

(** chamber in the expected format (lines 775-778, 868-871) *)
Definition display_chamber (chamber : string) : string :=
  if String.eqb chamber "house" then "House"
  else if String.eqb chamber "senate" then "Senate"
  else chamber.

(** the dict both paths build (lines 781-797, 874-890), with the URL added
    after the dict is made *)
Definition make_processed_bill (congress_bill : pyval) (bill_id : string)
  (title introduced_date status : pyval) (chamber : string)
  (sponsor : pyval) (summary_for_topics : string) : option pyval :=
  let topics :=
    categorize_bill [("title", title); ("summary", PStr summary_for_topics)] in
  let? bill_type_field := py_get congress_bill "type" (PStr EmptyString) in
  let? bill_number_field := py_get congress_bill "number" (PStr EmptyString) in
  let? congress_field := py_get congress_bill "congress" (PStr "118") in
  let processed_bill :=
    [ ("bill_id", PStr bill_id);
      ("title", title);
      ("summary", PStr SUMMARY_PLACEHOLDER);
      ("introduced_date", introduced_date);
      ("status", status);
      ("latest_action", status);
      ("chamber", PStr chamber);
      ("sponsor", sponsor);
      ("topics", PList (map PStr topics));
      ("bill_type", bill_type_field);
      ("bill_number", bill_number_field);
      ("congress", congress_field) ] in
  Some (PDict (assoc_set "congress_url"
                 (PStr (generate_congress_url (PDict processed_bill)))
                 processed_bill)).

(** process_congress_bill_lightweight (lines 739-802).  The whole body is
    inside [try: ... except Exception: return None]: the result is [None]
    exactly when a step raises, and the function itself never raises. *)
Definition process_congress_bill_lightweight (congress_bill : pyval)
  : option pyval :=
  let? title := py_get congress_bill "title" (PStr EmptyString) in
  let? introduced_date := py_get congress_bill "introducedDate" (PStr EmptyString) in
  let sponsor := PStr "Click to view sponsor details" in
  let? status := latest_action_status congress_bill in
  let? chamber_raw := py_get congress_bill "originChamber" (PStr EmptyString) in
  let? chamber := py_lower chamber_raw in
  let? bill_number := py_get congress_bill "number" (PStr EmptyString) in
  let? congress_number := py_get congress_bill "congress" (PStr "118") in
  let? bill_type_raw := py_get congress_bill "type" (PStr EmptyString) in
  let? bill_type := py_lower bill_type_raw in
  let bill_id := make_bill_id bill_type chamber bill_number congress_number in
  make_processed_bill congress_bill bill_id title introduced_date status
    (display_chamber chamber) sponsor EmptyString.

(** the inner [try] of process_congress_bill (lines 818-842): the detail
    request for the sponsor.  The result is [(sponsor, introduced_date)]; a
    step that raises leaves both as they were before the [try]. *)
Definition fetch_sponsor (congress_bill introduced_date : pyval)
  : M (pyval * pyval) :=
  bill_number <- lift (py_get congress_bill "number" (PStr EmptyString)) ;;
  bill_type_raw <- lift (py_get congress_bill "type" (PStr EmptyString)) ;;
  bill_type <- lift (py_lower bill_type_raw) ;;
  congress_number <- lift (py_get congress_bill "congress" (PStr "118")) ;;
  if truthy bill_number && PyStr.nonempty bill_type && truthy congress_number
  then
    let detail_url :=
      (CONGRESS_BASE_URL ++ "/bill/" ++ py_str congress_number ++ "/"
       ++ bill_type ++ "/" ++ py_str bill_number)%string in
    detail_response <- requests_get (mkRequest detail_url []) ;;
    if (fst detail_response =? 200)%Z then
      detail_data <- response_json (snd detail_response) ;;
      bill_detail <- lift (py_get detail_data "bill" (PDict [])) ;;
      sponsors <- lift (py_get bill_detail "sponsors" PNone) ;;
      sponsor <-
        (if truthy sponsors then
           n <- lift (py_len sponsors) ;;
           if 0 <? n then
             primary_sponsor <- lift (py_index0 sponsors) ;;
             lift (py_get primary_sponsor "fullName" (PStr EmptyString))
           else ret (PStr EmptyString)
         else ret (PStr EmptyString)) ;;
      introduced_date' <-
        (if negb (truthy introduced_date)
         then lift (py_get bill_detail "introducedDate" (PStr EmptyString))
         else ret introduced_date) ;;
      ret (sponsor, introduced_date')
    else ret (PStr EmptyString, introduced_date)
  else ret (PStr EmptyString, introduced_date).

(** process_congress_bill (lines 804-895): [None] is the [return None] of
    the outer [except] *)
Definition process_congress_bill (congress_bill : pyval) : M (option pyval) :=
  try_except
    (title <- lift (py_get congress_bill "title" (PStr EmptyString)) ;;
     introduced_date0 <-
       lift (py_get congress_bill "introducedDate" (PStr EmptyString)) ;;
     found <- try_except (fetch_sponsor congress_bill introduced_date0)
                         (ret (PStr EmptyString, introduced_date0)) ;;
     let introduced_date := snd found in
     let sponsor :=
       if truthy (fst found) then fst found
       else PStr "Sponsor information not available from Congress.gov API" in
     status <- lift (latest_action_status congress_bill) ;;
     chamber_raw <- lift (py_get congress_bill "originChamber" (PStr EmptyString)) ;;
     chamber <- lift (py_lower chamber_raw) ;;
     bill_number <- lift (py_get congress_bill "number" (PStr EmptyString)) ;;
     congress_number <- lift (py_get congress_bill "congress" (PStr "118")) ;;
     bill_type_raw <- lift (py_get congress_bill "type" (PStr EmptyString)) ;;
     bill_type <- lift (py_lower bill_type_raw) ;;
     let bill_id := make_bill_id bill_type chamber bill_number congress_number in
     processed_bill <-
       lift (make_processed_bill congress_bill bill_id title introduced_date
               status (display_chamber chamber) sponsor SUMMARY_PLACEHOLDER) ;;
     ret (Some processed_bill))
    (ret None).

(** ** fetch_bills_from_api (lines 651-737) *)

(** the House request and the Senate request of the 'both' branch: the same
    URL and the same parameters, with no chamber among them *)
Definition house_request (offset : Z) : Request :=
  mkRequest (CONGRESS_BASE_URL ++ "/bill")%string
            [("limit", PInt 50); ("offset", PInt offset)].

Definition senate_request (offset : Z) : Request :=
  mkRequest (CONGRESS_BASE_URL ++ "/bill")%string
            [("limit", PInt 50); ("offset", PInt offset)].

Definition chamber_request (chamber : string) (offset : Z) : Request :=
  mkRequest (CONGRESS_BASE_URL ++ "/bill")%string
            [("limit", PInt 250); ("offset", PInt offset); ("chamber", PStr chamber)].

(** one chamber's block of the 'both' branch (lines 676-688 and 690-702):
    time, request, time, and on status 200 [bills.extend(data.get('bills', []))] *)
Definition fetch_into (bills : list pyval) (r : Request) : M (list pyval) :=
  _start <- time_time ;;
  response <- requests_get r ;;
  _stop <- time_time ;;
  if (fst response =? 200)%Z then
    data <- response_json (snd response) ;;
    page <- lift (py_get data "bills" (PList [])) ;;
    items <- lift (py_iter page) ;;
    ret (bills ++ items)
  else ret bills.

(** the check that opens the function (lines 657-660): the clock is read
    only when both globals are true *)
Definition cache_is_fresh (cache : pyval) (cache_time : option Q) : M bool :=
  match cache_time with
  | Some t =>
      if truthy cache && time_truthy cache_time then
        now <- time_time ;;
        ret (Qltb (now - t) CACHE_DURATION)
      else ret false
  | None => ret false
  end.

Definition fetch_bills_from_api (chamber : string) (congress : Z) (offset : Z)
  : M pyval :=
  cache <- gets api_bills_cache ;;
  cache_time <- gets api_bills_cache_time ;;
  fresh <- cache_is_fresh cache cache_time ;;
  if fresh then ret cache
  else
    try_except
      (_main_api_start <- time_time ;;
       if String.eqb chamber "both" then
         bills <- fetch_into [] (house_request offset) ;;
         bills <- fetch_into bills (senate_request offset) ;;
         t <- time_time ;;
         modify (with_api_cache (PList bills) (Some t)) ;;;
         _total <- time_time ;;
         ret (PList bills)
       else
         response <- requests_get (chamber_request chamber offset) ;;
         if (fst response =? 200)%Z then
           data <- response_json (snd response) ;;
           bills <- lift (py_get data "bills" (PList [])) ;;
           t <- time_time ;;
           modify (with_api_cache bills (Some t)) ;;;
           ret bills
         else ret (PList []))
      (ret (PList [])).

(** ** The cache file (lines 396-445) *)

Definition json_load (c : FileContent) : option pyval :=
  match c with
  | JsonDoc v => Some v
  | NotJson => None
  end.

(** the handler of load_cache_from_file: remove the file, or let go *)
Definition remove_cache_file (w : World) : World :=
  if disk_writable w then with_cache_file None w else w.

(** [PNone] is the [return None] at the end.  The [try] raises on text that
    is not JSON, on a document that is not a dict, and in
    [time.time() - cache_time] on a timestamp that is not a number or is an
    int too large for a float ([py_num]); the clock is read before the
    subtraction is attempted. *)
Definition load_cache_from_file : M pyval :=
  try_except
    (file <- gets cache_file ;;
     match file with
     | Some content =>
         cache_data <- lift (json_load content) ;;
         cache_time <- lift (py_get cache_data "timestamp" (PInt 0)) ;;
         now <- time_time ;;
         t <- lift (py_num cache_time) ;;
         if Qltb (now - t) CACHE_DURATION
         then lift (py_get cache_data "bills" (PList []))
         else ret PNone
     | None => ret PNone
     end)
    (modify remove_cache_file ;;; ret PNone).

(** the dict save_cache_to_file writes *)
Definition cache_data_of (timestamp : Q) (bills : pyval) : pyval :=
  PDict [("timestamp", PFloat timestamp); ("bills", bills)].

(** the cache directory exists (it is the temp directory or the working
    directory), so [os.makedirs] is not reached; a failed [open] leaves the
    file as it was *)
Definition save_cache_to_file (bills : pyval) : M unit :=
  try_except
    (t <- time_time ;;
     writable <- gets disk_writable ;;
     if writable
     then modify (with_cache_file (Some (JsonDoc (cache_data_of t bills))))
     else raise)
    (ret tt).

(** ** get_processed_bills_cached (lines 514-560) *)

(** truth value of [limit]: [None] and [0] are false *)
Definition limit_truthy (limit : option Z) : bool :=
  match limit with
  | Some z => negb (z =? 0)%Z
  | None => false
  end.

(** [limit and i >= limit] *)
Definition limit_reached (limit : option Z) (i : nat) : bool :=
  match limit with
  | Some z => negb (z =? 0)%Z && (z <=? Z.of_nat i)%Z
  | None => false
  end.

(** the [for i, bill in enumerate(api_bills)] loop, from index [i] on *)
Fixpoint process_from (limit : option Z) (i : nat) (api_bills : list pyval)
  : list pyval :=
  match api_bills with
  | [] => []
  | bill :: rest =>
      if limit_reached limit i then []
      else
        match process_congress_bill_lightweight bill with
        | Some processed_bill =>
            if truthy processed_bill
            then processed_bill :: process_from limit (S i) rest
            else process_from limit (S i) rest
        | None => process_from limit (S i) rest
        end
  end.

Definition get_processed_bills_cached (chamber : string) (congress : Z)
  (limit : option Z) : M pyval :=
  cache <- gets processed_bills_cache ;;
  cache_time <- gets processed_bills_cache_time ;;
  fresh <- cache_is_fresh cache cache_time ;;
  if fresh then ret cache
  else
    file_cache <- load_cache_from_file ;;
    if truthy file_cache then
      modify (with_processed_cache file_cache) ;;;
      t <- time_time ;;
      modify (with_processed_cache_time (Some t)) ;;;
      ret file_cache
    else
      api_bills <- fetch_bills_from_api chamber congress 0 ;;
      if truthy api_bills then
        items <- lift (py_iter api_bills) ;;
        let processed_bills := PList (process_from limit 0 items) in
        (if negb (limit_truthy limit) then
           modify (with_processed_cache processed_bills) ;;;
           t <- time_time ;;
           modify (with_processed_cache_time (Some t)) ;;;
           save_cache_to_file processed_bills
         else ret tt) ;;;
        ret processed_bills
      else ret (PList []).

(** ** get_processed_bills_cached_with_stats (lines 447-512) *)

(** [limit or 10] *)
Definition limit_or_10 (limit : option Z) : pyval :=
  match limit with
  | Some z => if (z =? 0)%Z then PInt 10 else PInt z
  | None => PInt 10
  end.

Definition stats_request (limit : option Z) : Request :=
  mkRequest (CONGRESS_BASE_URL ++ "/bill")%string
            [("limit", limit_or_10 limit); ("offset", PInt 0)].

Definition count_request (chamber : string) : Request :=
  mkRequest (CONGRESS_BASE_URL ++ "/bill")%string
            [("limit", PInt 1); ("chamber", PStr chamber)].

(** [data.get('pagination', {}).get('count', 0)] *)
Definition pagination_count (data : pyval) : option pyval :=
  let? pagination := py_get data "pagination" (PDict []) in
  py_get pagination "count" (PInt 0).

(** the count of one chamber (lines 468-482): 0 unless the answer is 200 *)
Definition chamber_count (response : Z * option pyval) : M pyval :=
  if (fst response =? 200)%Z then
    data <- response_json (snd response) ;;
    lift (pagination_count data)
  else ret (PInt 0).

(** the [for bill in bills] loop (lines 488-491) *)
Fixpoint process_each (bills : list pyval) : list pyval :=
  match bills with
  | [] => []
  | bill :: rest =>
      match process_congress_bill_lightweight bill with
      | Some processed_bill =>
          if truthy processed_bill
          then processed_bill :: process_each rest
          else process_each rest
      | None => process_each rest
      end
  end.

Definition api_stats (total_bills house_bills senate_bills : pyval) : pyval :=
  PDict [("total_bills", total_bills);
         ("house_bills", house_bills);
         ("senate_bills", senate_bills)].

Definition no_stats : pyval := api_stats (PInt 0) (PInt 0) (PInt 0).

(** the result is the pair [(processed_bills, api_stats)]; [chamber] and
    [congress] are not used, and no global is assigned *)
Definition get_processed_bills_cached_with_stats (chamber : string)
  (congress : Z) (limit : option Z) : M (pyval * pyval) :=
  try_except
    (response <- requests_get (stats_request limit) ;;
     if (fst response =? 200)%Z then
       data <- response_json (snd response) ;;
       total_bills <- lift (pagination_count data) ;;
       house_response <- requests_get (count_request "house") ;;
       senate_response <- requests_get (count_request "senate") ;;
       house_bills <- chamber_count house_response ;;
       senate_bills <- chamber_count senate_response ;;
       bills <- lift (py_get data "bills" (PList [])) ;;
       items <- lift (py_iter bills) ;;
       ret (PList (process_each items),
            api_stats total_bills house_bills senate_bills)
     else ret (PList [], no_stats))
    (ret (PList [], no_stats)).

(** ** Notions used in the properties *)

(** the identifier and the topics stored in a processed bill *)
Definition bill_id_of (processed : option pyval) : option string :=
  match processed with
  | Some (PDict b) =>
      match assoc "bill_id" b with
      | Some (PStr s) => Some s
      | _ => None
      end
  | _ => None
  end.

Definition topics_of (processed : pyval) : list pyval :=
  match processed with
  | PDict b =>
      match assoc "topics" b with
      | Some (PList l) => l
      | _ => []
      end
  | _ => []
  end.

(** the identifier the detailed path stores, when it returns a bill *)
Definition detailed_bill_id (congress_bill : pyval) (w : World) : option string :=
  match fst (process_congress_bill congress_bill w) with
  | Returned processed => bill_id_of processed
  | Raised => None
  end.

(** the requests a computation issues from a world *)
Definition requests_issued {A} (m : M A) (w : World) : list Request :=
  skipn (List.length (http_log w)) (http_log (snd (m w))).

(** The result list of one request of the 'both' branch: nothing for a
    status other than 200, the items of the body's [bills] for 200; [None]
    when the request or the reading of its body raises. *)
Definition result_list (o : HttpOutcome) : option (list pyval) :=
  match o with
  | ConnectionError => None
  | Response status body =>
      if (status =? 200)%Z then
        let? data := body in
        let? page := py_get data "bills" (PList []) in
        py_iter page
      else Some []
  end.

(** a cache entry that the opening check of a read accepts: a true value,
    with a true time less than [CACHE_DURATION] before the next clock
    reading *)
Definition entry_live (cache : pyval) (cache_time : option Q) (w : World)
  : Prop :=
  truthy cache = true /\
  exists t, cache_time = Some t /\
            ~ (t == 0)%Q /\
            (clock w (ticks w) - t < CACHE_DURATION)%Q.

Definition api_cache_live (w : World) : Prop :=
  entry_live (api_bills_cache w) (api_bills_cache_time w) w.

Definition memory_cache_live (w : World) : Prop :=
  entry_live (processed_bills_cache w) (processed_bills_cache_time w) w.

(** between two worlds the processed-bills tier is kept: the memory copy and
    its time are the same, and the file is the same or was removed *)
Definition processed_tier_kept (w w' : World) : Prop :=
  processed_bills_cache w' = processed_bills_cache w /\
  processed_bills_cache_time w' = processed_bills_cache_time w /\
  (cache_file w' = cache_file w \/ cache_file w' = None).

(** whether the disk can be written stays as it is *)
Definition same_disk (w w' : World) : Prop :=
  disk_writable w' = disk_writable w.

(** a computation keeps a relation between the world it starts from and
    the world it ends in *)
Definition keeps (R : World -> World -> Prop) {A} (m : M A) : Prop :=
  forall w, R w (snd (m w)).

(** the world in which the file is read: after the check of the memory copy *)
Definition after_memory_check (w : World) : World :=
  snd (cache_is_fresh (processed_bills_cache w) (processed_bills_cache_time w) w).

(** the file read gives nothing to serve: no file, an unreadable or expired
    one, or one whose bills are false *)
Definition file_read_misses (w : World) : Prop :=
  exists v, fst (load_cache_from_file (after_memory_check w)) = Returned v /\
            truthy v = false.

Definition valid_vote_type (ty : string) : Prop := ty = "up" \/ ty = "down".

(** the topics of the keyword table, and the two catch-all tags *)
Definition vocabulary : list string := map fst TOPIC_KEYWORDS.

Definition fallback_tags : list string :=
  ["general_legislation"; "legislative_reform"].

(** a computation adds at most [n] requests to the log, and never removes
    or rewrites one *)
Definition issues_at_most (n : nat) {A} (m : M A) : Prop :=
  forall w, exists rs,
    http_log (snd (m w)) = http_log w ++ rs /\ List.length rs <= n.

(** a computation always returns *)
Definition never_raises {A} (m : M A) : Prop :=
  forall w, exists a, fst (m w) = Returned a.

(** a cache file that [load_cache_from_file] cannot read: not JSON, not a
    dict, or with a timestamp that is not a number or is an int too large
    for a float *)
Definition unreadable (c : FileContent) : bool :=
  match c with
  | NotJson => true
  | JsonDoc (PDict d) =>
      match py_num (field d "timestamp" (PInt 0)) with
      | Some _ => false
      | None => true
      end
  | JsonDoc _ => true
  end.

(** between two worlds the processed-bills tier is the same: the memory
    copy, its time and the file *)
Definition processed_tier_same (w w' : World) : Prop :=
  processed_bills_cache w' = processed_bills_cache w /\
  processed_bills_cache_time w' = processed_bills_cache_time w /\
  cache_file w' = cache_file w.

(** between two worlds the processed-bills tier is not written: the memory
    copy and its time are the same, and the file is the same, unless it
    could not be read and was removed *)
Definition processed_tier_unwritten (w w' : World) : Prop :=
  processed_bills_cache w' = processed_bills_cache w /\
  processed_bills_cache_time w' = processed_bills_cache_time w /\
  (cache_file w' = cache_file w \/
   exists c, cache_file w = Some c /\ unreadable c = true /\
             cache_file w' = None).

(** the cache file after a read: an unreadable file is removed when the
    disk allows it, any other is left as it is *)
Definition file_after_read (w : World) : option FileContent :=
  match cache_file w with
  | Some c => if unreadable c && disk_writable w then None else Some c
  | None => None
  end.

(** two worlds with the same clock, the same readings taken, the same
    endpoint and the same requests issued: they may differ in every cache,
    in the cache file and in the disk *)
Definition same_surroundings (w1 w2 : World) : Prop :=
  clock w1 = clock w2 /\ ticks w1 = ticks w2 /\
  endpoint w1 = endpoint w2 /\ http_log w1 = http_log w2.

(** a computation that does not look at the caches: from worlds with the
    same surroundings it gives the same outcome, in the same surroundings *)
Definition cache_blind {A} (m : M A) : Prop :=
  forall w1 w2, same_surroundings w1 w2 ->
    fst (m w1) = fst (m w2) /\ same_surroundings (snd (m w1)) (snd (m w2)).

(** between two worlds every cache is kept: the raw bills, the processed
    bills, their times and the cache file *)
Definition state_kept (w w' : World) : Prop :=
  api_bills_cache w' = api_bills_cache w /\
  api_bills_cache_time w' = api_bills_cache_time w /\
  processed_bills_cache w' = processed_bills_cache w /\
  processed_bills_cache_time w' = processed_bills_cache_time w /\
  cache_file w' = cache_file w.

(** the keys that a detail response may rewrite in a bill *)
Definition detail_keys : list string :=
  ["sponsor"; "introduced_date"; "status"; "latest_action"].

(** [out] is the bill [bill], a dict, with at most the detail keys
    rewritten *)
Definition enriched (bill out : pyval) : Prop :=
  exists items items',
    bill = PDict items /\ out = PDict items' /\
    forall k, ~ In k detail_keys -> assoc k items' = assoc k items.

(** the pages of a list, first to last, as index cuts them *)
Definition all_pages {A} (per_page : Z) (bills : list A) : list (list A) :=
  map (fun k => Index.page_bills (Index.paginate (Z.of_nat k) per_page bills))
      (seq 1 (Z.to_nat (Index.page_count (Index.paginate 1 per_page bills)))).

(** the answer of a filter test, an exception counting as no *)
Definition test_or_false (o : option bool) : bool :=
  match o with
  | Some b => b
  | None => false
  end.

(** a bill passes the filters that are switched on *)
Definition passes (topic_filter chamber_filter search_query : string)
  (bill : pyval) : bool :=
  (if PyStr.nonempty topic_filter
   then test_or_false (Index.has_topic topic_filter bill) else true)
  && (if negb (String.eqb chamber_filter "both")
      then test_or_false (Index.in_chamber chamber_filter bill) else true)
  && (if PyStr.nonempty search_query
      then test_or_false (Index.matches_search (PyStr.lower search_query) bill)
      else true).

(** what a comment needs to be approved *)
Definition acceptable (content : string) : Prop :=
  (forall word, In word Moderation.inappropriate_words ->
                PyStr.contains word (PyStr.lower content) = false) /\
  10 * Moderation.count_upper content <= 7 * String.length content /\
  10 <= String.length (PyStr.strip content) /\
  String.length content <= 1000.

(** the vote type that a request body carries, when the body is a JSON
    object whose [vote_type] is ['up'] or ['down'] *)
Definition accepted_type (data : pyval) : option string :=
  match data with
  | PDict d =>
      match assoc "vote_type" d with
      | Some (PStr ty) =>
          if String.eqb ty "up" || String.eqb ty "down" then Some ty else None
      | _ => None
      end
  | _ => None
  end.

Definition is_ok (r : Votes.VoteResponse) : bool :=
  match r with
  | Votes.Ok200 _ _ _ => true
  | _ => false
  end.

(** * Properties *)

(** ** Strings *)

Lemma lower_app (a b : string) :
  PyStr.lower (a ++ b) = (PyStr.lower a ++ PyStr.lower b)%string.
Proof.
  induction a as [|c a IH]; simpl; [reflexivity | now rewrite IH].
Qed.

Lemma string_length_app (a b : string) :
  String.length (a ++ b) = String.length a + String.length b.
Proof.
  induction a as [|c a IH]; simpl; [reflexivity | now rewrite IH].
Qed.

Lemma contains_app_r (kw a b : string) :
  PyStr.contains kw b = true -> PyStr.contains kw (a ++ b) = true.
Proof.
  intros Hb. induction a as [|c a IH]; simpl; [exact Hb |].
  rewrite IH. apply orb_true_r.
Qed.

(** Stripping on the left keeps a tail that starts with a visible character. *)
Lemma lstrip_keeps_tail (a : string) (c : ascii) (b : string) :
  PyStr.is_space c = false ->
  exists a', PyStr.lstrip (a ++ String c b) = (a' ++ String c b)%string.
Proof.
  intros Hc. induction a as [|x a IH]; simpl.
  - exists EmptyString. now rewrite Hc.
  - destruct (PyStr.is_space x).
    + exact IH.
    + now exists (String x a).
Qed.

(** Stripping on the right keeps a tail that is already stripped. *)
Lemma rstrip_keeps_tail (a b : string) :
  PyStr.rstrip b = b -> b <> EmptyString ->
  PyStr.rstrip (a ++ b) = (a ++ b)%string.
Proof.
  intros Hb Hne. induction a as [|x a IH]; simpl; [exact Hb |].
  rewrite IH. destruct (a ++ b)%string eqn:E; [| reflexivity].
  destruct a; simpl in E; [contradiction | discriminate].
Qed.

Lemma strip_keeps_tail (a : string) (c : ascii) (b : string) :
  PyStr.is_space c = false ->
  PyStr.rstrip (String c b) = String c b ->
  String.length (String c b) <= String.length (PyStr.strip (a ++ String c b)).
Proof.
  intros Hc Hb. unfold PyStr.strip.
  destruct (lstrip_keeps_tail a c b Hc) as [a' ->].
  rewrite rstrip_keeps_tail by (auto; discriminate).
  rewrite string_length_app. lia.
Qed.

Lemma lower_nonempty (s : string) :
  PyStr.nonempty (PyStr.lower s) = PyStr.nonempty s.
Proof. now destruct s. Qed.

(** ** Clock comparisons *)

Lemma Qltb_lt (x y : Q) : Qltb x y = true <-> (x < y)%Q.
Proof.
  unfold Qltb. rewrite negb_true_iff. split; intros H.
  - apply Qnot_le_lt. intros Hle. apply Qle_bool_iff in Hle. congruence.
  - destruct (Qle_bool y x) eqn:E; [| reflexivity].
    apply Qle_bool_iff in E. exfalso. exact (Qlt_not_le _ _ H E).
Qed.

Lemma Qltb_ge (x y : Q) : Qltb x y = false <-> (y <= x)%Q.
Proof.
  unfold Qltb. rewrite negb_false_iff. apply Qle_bool_iff.
Qed.

(** ** C1: the order of the prefix tests *)

(** The two multi-letter types that no shorter test shadows are selected. *)
Lemma parse_hjres_hconres (digits : string) :
  BillId.parse_type_number ("hjres" ++ digits) = ("hjres", digits) /\
  BillId.parse_type_number ("hconres" ++ digits) = ("hconres", digits).
Proof. split; destruct digits; reflexivity. Qed.

(** The page variant has no branch for any multi-letter type. *)
Lemma parse_page_multi_letter (digits : string) :
  BillId.parse_type_number_page ("hjres" ++ digits) = None /\
  BillId.parse_type_number_page ("hconres" ++ digits) = None /\
  BillId.parse_type_number_page ("hres" ++ digits) = Some ("hr", ("es" ++ digits)%string) /\
  BillId.parse_type_number_page ("sres" ++ digits) = Some ("s", ("res" ++ digits)%string).
Proof. repeat split; destruct digits; reflexivity. Qed.

(** C1 (as the code behaves): an identifier that begins with [sjres],
    [sconres] or [sres] is given the type [s], and one that begins with
    [hres] the type [hr], with the rest of the prefix left in the number:
    the tests for [hr] and [s] come first in the chain, so the branches for
    these four types are never taken. *)
Theorem multi_letter_prefix_shadowed (digits : string) :
  BillId.parse_type_number ("sjres" ++ digits) = ("s", ("jres" ++ digits)%string) /\
  BillId.parse_type_number ("sconres" ++ digits) = ("s", ("conres" ++ digits)%string) /\
  BillId.parse_type_number ("sres" ++ digits) = ("s", ("res" ++ digits)%string) /\
  BillId.parse_type_number ("hres" ++ digits) = ("hr", ("es" ++ digits)%string).
Proof. repeat split; destruct digits; reflexivity. Qed.

(** The same at one identifier, through the split on the dash. *)
Example detail_components_sjres5 :
  BillId.detail_components "sjres5-118" = Some ("118", ("s", "jres5")).
Proof. reflexivity. Qed.

(** The identifier that normalisation gives a Senate joint resolution is
    one that the detail page then parses as an [s] bill. *)
Example normalized_sjres_is_misparsed :
  bill_id_of (process_congress_bill_lightweight Samples.senate_joint_resolution)
  = Some "sjres5-118" /\
  BillId.detail_components "sjres5-118" = Some ("118", ("s", "jres5")).
Proof. split; reflexivity. Qed.

(** ** C8, C10: the topic classifier *)

Lemma keyword_topics_In (topic : string) (keywords : list string) (text : string) :
  In (topic, keywords) TOPIC_KEYWORDS ->
  any_in keywords text = true ->
  In topic (keyword_topics text).
Proof.
  intros Hin Hany. unfold keyword_topics.
  apply (in_map fst _ (topic, keywords)).
  apply filter_In. split; [exact Hin | exact Hany].
Qed.

(** C8: when title, a space and summary, lower-cased and stripped, are
    shorter than 10 characters, the classifier returns no topic. *)
Theorem categorize_bill_short_text (title summary : string) :
  String.length (PyStr.strip (PyStr.lower (title ++ " " ++ summary))) < 10 ->
  categorize_bill [("title", PStr title); ("summary", PStr summary)] = [].
Proof.
  intros Hshort. unfold categorize_bill.
  change (bill_text [("title", PStr title); ("summary", PStr summary)])
    with (PyStr.lower (title ++ " " ++ summary)).
  unfold topics_of_text.
  apply Nat.ltb_lt in Hshort. rewrite Hshort.
  now rewrite orb_true_r.
Qed.

Lemma app_assoc_string (a b c : string) :
  ((a ++ b) ++ c = a ++ (b ++ c))%string.
Proof.
  induction a as [|x a IH]; simpl; [reflexivity | now rewrite IH].
Qed.

(** The text searched by the detailed path: the title, then the lower-cased
    placeholder. *)
Lemma bill_text_placeholder (title : pyval) :
  bill_text [("title", title); ("summary", PStr SUMMARY_PLACEHOLDER)]
  = ((PyStr.lower (py_str title) ++ " ") ++ "text not available")%string.
Proof.
  change (bill_text [("title", title); ("summary", PStr SUMMARY_PLACEHOLDER)])
    with (PyStr.lower (py_str title ++ " Text not available")).
  rewrite lower_app, app_assoc_string. reflexivity.
Qed.

(** The keyword [ai] occurs in the placeholder, inside [available]. *)
Lemma placeholder_contains_ai :
  PyStr.contains "ai" "text not available" = true.
Proof. reflexivity. Qed.

Lemma technology_keywords :
  In ("technology",
      ["technology"; "tech"; "digital"; "internet"; "cyber"; "data"; "privacy";
       "artificial intelligence"; "ai"; "computer"; "software"; "hardware";
       "innovation"]) TOPIC_KEYWORDS.
Proof. unfold TOPIC_KEYWORDS. simpl. tauto. Qed.

(** With the placeholder as summary the classifier always finds
    [technology], whatever the title. *)
Lemma categorize_placeholder_technology (title : pyval) :
  In "technology"
     (categorize_bill [("title", title); ("summary", PStr SUMMARY_PLACEHOLDER)]).
Proof.
  unfold categorize_bill. rewrite bill_text_placeholder.
  set (text := ((PyStr.lower (py_str title) ++ " ") ++ "text not available")%string).
  assert (Hlen : 18 <= String.length (PyStr.strip text)).
  { apply (strip_keeps_tail _ "t"%char "ext not available"); reflexivity. }
  assert (Htech : In "technology" (keyword_topics text)).
  { eapply keyword_topics_In; [apply technology_keywords |].
    unfold any_in. apply existsb_exists. exists "ai". split.
    - simpl. tauto.
    - apply contains_app_r. exact placeholder_contains_ai. }
  unfold topics_of_text.
  assert (Hne : PyStr.nonempty text = true).
  { unfold text. destruct (PyStr.lower (py_str title)); reflexivity. }
  rewrite Hne. simpl negb. simpl orb.
  destruct (String.length (PyStr.strip text) <? 10) eqn:E.
  - apply Nat.ltb_lt in E. lia.
  - destruct (keyword_topics text) as [|t0 ts]; [destruct Htech | exact Htech].
Qed.

(** ** Computations *)

Lemma bind_returned {A B} (m : M A) (k : A -> M B) (w w' : World) (b : B) :
  bind m k w = (Returned b, w') ->
  exists a w1, m w = (Returned a, w1) /\ k a w1 = (Returned b, w').
Proof.
  unfold bind. destruct (m w) as [[a|] w1]; intros H.
  - now exists a, w1.
  - discriminate.
Qed.

Lemma lift_returned {A} (o : option A) (w w' : World) (a : A) :
  lift o w = (Returned a, w') -> o = Some a /\ w' = w.
Proof.
  destruct o; simpl; unfold ret, raise; intros H; inversion H; auto.
Qed.

Lemma try_except_returned {A} (m h : M A) (w w' : World) (a : A) :
  try_except m h w = (Returned a, w') ->
  m w = (Returned a, w') \/ exists w1, m w = (Raised, w1) /\ h w1 = (Returned a, w').
Proof.
  unfold try_except. destruct (m w) as [[x|] w1]; intros H.
  - left. exact H.
  - right. now exists w1.
Qed.

Lemma bind_step {A B} (m : M A) (k : A -> M B) (w w1 : World) (a : A) :
  m w = (Returned a, w1) -> bind m k w = k a w1.
Proof. unfold bind. now intros ->. Qed.

Lemma bind_raised {A B} (m : M A) (k : A -> M B) (w w1 : World) :
  m w = (Raised, w1) -> bind m k w = (Raised, w1).
Proof. unfold bind. now intros ->. Qed.

(** A run that returns is the pair of its value and its final world. *)
Lemma run_pair {A} (m : M A) (w : World) (a : A) :
  fst (m w) = Returned a -> m w = (Returned a, snd (m w)).
Proof. destruct (m w) as [o w']. simpl. now intros ->. Qed.

(** A [try] whose handler returns a value never raises. *)
Lemma try_except_ret_total {A} (m : M A) (a : A) (w : World) :
  exists b w', try_except m (ret a) w = (Returned b, w').
Proof.
  unfold try_except, ret. destruct (m w) as [[x|] w1]; eauto.
Qed.

(** ** C7, C10: normalisation *)

Lemma make_processed_bill_fields congress_bill bill_id title introduced_date
      status chamber sponsor summary processed :
  make_processed_bill congress_bill bill_id title introduced_date status
    chamber sponsor summary = Some processed ->
  bill_id_of (Some processed) = Some bill_id /\
  topics_of processed
  = map PStr (categorize_bill [("title", title); ("summary", PStr summary)]).
Proof.
  unfold make_processed_bill.
  destruct (py_get congress_bill "type" _); [| discriminate].
  destruct (py_get congress_bill "number" _); [| discriminate].
  destruct (py_get congress_bill "congress" _); [| discriminate].
  intros H. inversion H. split; reflexivity.
Qed.

Lemma make_processed_bill_dict d bill_id title introduced_date
      status chamber sponsor summary :
  exists processed,
    make_processed_bill (PDict d) bill_id title introduced_date status
      chamber sponsor summary = Some processed.
Proof. unfold make_processed_bill. simpl py_get. eauto. Qed.

(** C10: a bill that the detailed path returns carries the topic
    [technology]: the path classifies the title together with the
    placeholder summary, and [ai] is a substring of [available]. *)
Theorem detailed_path_tags_technology (congress_bill processed : pyval)
        (w w' : World) :
  process_congress_bill congress_bill w = (Returned (Some processed), w') ->
  In (PStr "technology") (topics_of processed).
Proof.
  unfold process_congress_bill. intros H.
  apply try_except_returned in H. destruct H as [H | [w1 [_ H]]];
    [| unfold ret in H; inversion H].
  repeat (apply bind_returned in H; destruct H as [? [? [? H]]]).
  unfold ret in H. inversion H; subst.
  match goal with
  | Hm : lift (make_processed_bill _ _ _ _ _ _ _ _) _ = _ |- _ =>
      apply lift_returned in Hm; destruct Hm as [Hm _];
      apply make_processed_bill_fields in Hm; destruct Hm as [_ Ht]
  end.
  rewrite Ht. apply in_map. apply categorize_placeholder_technology.
Qed.

Lemma latest_action_status_dict (d : list (string * pyval)) :
  exists status, latest_action_status (PDict d) = Some status.
Proof.
  unfold latest_action_status. simpl py_get.
  destruct (field d "latestAction" PNone); simpl;
    repeat match goal with
           | |- context [if ?c then _ else _] => destruct c
           end; eauto.
Qed.

Section WellTypedRecord.

Variable d : list (string * pyval).
Variables ty ch : string.
Hypothesis type_is_str : field d "type" (PStr EmptyString) = PStr ty.
Hypothesis chamber_is_str : field d "originChamber" (PStr EmptyString) = PStr ch.

Let number := field d "number" (PStr EmptyString).
Let congress := field d "congress" (PStr "118").

Lemma lightweight_bill_id :
  bill_id_of (process_congress_bill_lightweight (PDict d))
  = Some (make_bill_id (PyStr.lower ty) (PyStr.lower ch) number congress).
Proof.
  unfold process_congress_bill_lightweight.
  destruct (latest_action_status_dict d) as [status Hs]. rewrite Hs.
  simpl py_get. rewrite type_is_str, chamber_is_str. cbn [py_lower].
  match goal with
  | |- bill_id_of (make_processed_bill _ ?i ?t ?dt ?s ?c ?sp ?sm) = _ =>
      destruct (make_processed_bill_dict d i t dt s c sp sm) as [p Hp];
      rewrite Hp; apply (make_processed_bill_fields _ _ _ _ _ _ _ _ _ Hp)
  end.
Qed.

Lemma detailed_bill_id_eq (w : World) :
  detailed_bill_id (PDict d) w
  = Some (make_bill_id (PyStr.lower ty) (PyStr.lower ch) number congress).
Proof.
  unfold detailed_bill_id, process_congress_bill.
  unfold try_except at 1. simpl py_get. cbn [lift bind ret].
  match goal with
  | |- context [try_except ?m (ret ?a)] =>
      destruct (try_except_ret_total m a w) as [found [w1 E]];
      rewrite (bind_step _ _ _ _ _ E)
  end.
  destruct (latest_action_status_dict d) as [status Hs]. rewrite Hs.
  rewrite type_is_str, chamber_is_str. cbn [lift bind ret py_lower].
  match goal with
  | |- context [make_processed_bill _ ?i ?t ?dt ?s ?c ?sp ?sm] =>
      destruct (make_processed_bill_dict d i t dt s c sp sm) as [p Hp];
      rewrite Hp; cbn [lift bind ret fst];
      apply (make_processed_bill_fields _ _ _ _ _ _ _ _ _ Hp)
  end.
Qed.

End WellTypedRecord.

(** C7 (amended): for a raw record that is a dict whose [type] and
    [originChamber], when present, are strings, both normalisation paths
    return a bill and never raise.  Its identifier is [unknown-{congress}]
    when the number is missing or false, or the type or the chamber is
    missing or empty, and otherwise the lower-cased type, the number, a dash
    and the congress; the congress is the record's, [118] when missing. *)
Theorem normalized_bill_id (d : list (string * pyval)) (ty ch : string)
        (w : World) :
  field d "type" (PStr EmptyString) = PStr ty ->
  field d "originChamber" (PStr EmptyString) = PStr ch ->
  let number := field d "number" (PStr EmptyString) in
  let congress := field d "congress" (PStr "118") in
  (truthy number = false \/ ty = EmptyString \/ ch = EmptyString ->
   bill_id_of (process_congress_bill_lightweight (PDict d))
   = Some ("unknown-" ++ py_str congress)%string /\
   detailed_bill_id (PDict d) w
   = Some ("unknown-" ++ py_str congress)%string) /\
  (truthy number = true /\ ty <> EmptyString /\ ch <> EmptyString ->
   bill_id_of (process_congress_bill_lightweight (PDict d))
   = Some (PyStr.lower ty ++ py_str number ++ "-" ++ py_str congress)%string /\
   detailed_bill_id (PDict d) w
   = Some (PyStr.lower ty ++ py_str number ++ "-" ++ py_str congress)%string).
Proof.
  intros Hty Hch number congress.
  rewrite (lightweight_bill_id d ty ch Hty Hch).
  rewrite (detailed_bill_id_eq d ty ch Hty Hch w).
  fold number congress. unfold make_bill_id. rewrite !lower_nonempty.
  split.
  - intros [Hn | [-> | ->]].
    + rewrite Hn. now split.
    + rewrite andb_false_r. now split.
    + rewrite andb_false_r. now split.
  - intros [Hn [Ht Hc]]. rewrite Hn.
    destruct ty; [contradiction |]. destruct ch; [contradiction |].
    now split.
Qed.

(** A record whose [type] or [originChamber] is present and is not a string
    (null, a number) is skipped by the lightweight path: the result is
    [None]. *)
Lemma ill_typed_record_skipped (d : list (string * pyval)) :
  py_lower (field d "type" (PStr EmptyString)) = None \/
  py_lower (field d "originChamber" (PStr EmptyString)) = None ->
  process_congress_bill_lightweight (PDict d) = None.
Proof.
  intros H. unfold process_congress_bill_lightweight.
  destruct (latest_action_status_dict d) as [status Hs]. rewrite Hs.
  cbn [py_get].
  destruct (py_lower (field d "originChamber" (PStr EmptyString)));
    [| reflexivity].
  destruct H as [H | H]; [| discriminate].
  now rewrite H.
Qed.

(** ** C2: fetch_bills_from_api *)

Lemma time_truthy_Some (t : Q) :
  time_truthy (Some t) = true <-> ~ (t == 0)%Q.
Proof.
  simpl. rewrite negb_true_iff. split.
  - intros H Heq. apply Qeq_bool_iff in Heq. congruence.
  - intros H. destruct (Qeq_bool t 0) eqn:E; [| reflexivity].
    apply Qeq_bool_iff in E. contradiction.
Qed.

(** The opening check answers [true] exactly on a live entry; it reads the
    clock at most once and touches nothing else. *)
Lemma cache_is_fresh_spec (cache : pyval) (cache_time : option Q) (w : World) :
  exists b w1,
    cache_is_fresh cache cache_time w = (Returned b, w1) /\
    (b = true <-> entry_live cache cache_time w) /\
    (w1 = w \/ w1 = tick w).
Proof.
  unfold cache_is_fresh, entry_live.
  destruct cache_time as [t|].
  - destruct (truthy cache) eqn:Ec; cbn [andb time_truthy].
    + destruct (negb (Qeq_bool t 0)) eqn:Ez.
      * exists (Qltb (clock w (ticks w) - t) CACHE_DURATION), (tick w).
        split; [reflexivity |]. split; [| now right].
        rewrite Qltb_lt. split.
        -- intros H. split; [reflexivity |]. exists t.
           split; [reflexivity |]. split; [| exact H].
           apply time_truthy_Some. exact Ez.
        -- intros [_ [t' [Ht' [_ H]]]]. now inversion Ht'; subst.
      * exists false, w. split; [reflexivity |]. split; [| now left].
        split; [discriminate |].
        intros [_ [t' [Ht' [Hnz _]]]]. inversion Ht'; subst.
        apply time_truthy_Some in Hnz. simpl in Hnz. congruence.
    + exists false, w. split; [reflexivity |]. split; [| now left].
      split; [discriminate |]. intros [H _]. discriminate.
  - exists false, w. split; [reflexivity |]. split; [| now left].
    split; [discriminate |]. intros [_ [t [Ht _]]]. discriminate.
Qed.

(** One block of the 'both' branch, when its request is answered and read. *)
Lemma fetch_into_answered (bills items : list pyval) (r : Request) (w : World) :
  result_list (endpoint w (List.length (http_log w)) r) = Some items ->
  exists w',
    fetch_into bills r w = (Returned (bills ++ items), w') /\
    http_log w' = http_log w ++ [r] /\
    endpoint w' = endpoint w.
Proof.
  intros H. unfold fetch_into, time_time, requests_get, bind. cbn [tick http_log endpoint].
  destruct (endpoint w (List.length (http_log w)) r) as [|status body];
    [discriminate |].
  cbn [fst snd log_request tick http_log endpoint]. simpl in H.
  destruct (status =? 200)%Z.
  - destruct body as [data|]; [| discriminate].
    cbn [response_json lift ret].
    destruct (py_get data "bills" (PList [])) as [page|]; [| discriminate].
    cbn [lift ret].
    rewrite H. cbn [lift ret]. eexists. split; [reflexivity |]. now split.
  - inversion H; subst. rewrite app_nil_r.
    eexists. split; [reflexivity |]. now split.
Qed.

Lemma not_true_false (b : bool) (P : Prop) : (b = true <-> P) -> ~ P -> b = false.
Proof. destruct b; intuition. Qed.

(** The 'both' branch after a miss, from any world [w1]: two requests, and
    the two result lists in call order. *)
Lemma fetch_both_body (w1 : World) (offset : Z) (house senate : list pyval) :
  result_list (endpoint w1 (List.length (http_log w1)) (house_request offset))
  = Some house ->
  result_list (endpoint w1 (S (List.length (http_log w1))) (senate_request offset))
  = Some senate ->
  exists w2,
    (bills <- fetch_into [] (house_request offset) ;;
     bills <- fetch_into bills (senate_request offset) ;;
     t <- time_time ;;
     modify (with_api_cache (PList bills) (Some t)) ;;;
     _total <- time_time ;;
     ret (PList bills)) (tick w1)
    = (Returned (PList (house ++ senate)), w2) /\
    http_log w2 = http_log w1 ++ [house_request offset; senate_request offset].
Proof.
  intros Hh Hs.
  destruct (fetch_into_answered [] house (house_request offset) (tick w1) Hh)
    as [wa [Ea [La Pa]]].
  rewrite (bind_step _ _ _ _ _ Ea).
  assert (Hs' : result_list
                  (endpoint wa (List.length (http_log wa)) (senate_request offset))
                = Some senate).
  { rewrite Pa, La. cbn [tick http_log endpoint].
    rewrite List.length_app. simpl List.length. rewrite Nat.add_1_r. exact Hs. }
  destruct (fetch_into_answered ([] ++ house) senate (senate_request offset) wa Hs')
    as [wb [Eb [Lb Pb]]].
  rewrite (bind_step _ _ _ _ _ Eb).
  eexists. split; [reflexivity |].
  cbn [tick with_api_cache http_log]. rewrite Lb, La. cbn [tick http_log].
  now rewrite <- app_assoc.
Qed.

(** C2 (amended): with chamber 'both', when the raw-bill cache is not live
    and both requests are answered and read, the fetch issues exactly two
    requests, one after the other, and returns the first request's result
    list followed by the second's. *)
Theorem fetch_both_on_cache_miss (w : World) (congress offset : Z)
        (house senate : list pyval) :
  ~ api_cache_live w ->
  result_list (endpoint w (List.length (http_log w)) (house_request offset))
  = Some house ->
  result_list (endpoint w (S (List.length (http_log w))) (senate_request offset))
  = Some senate ->
  fst (fetch_bills_from_api "both" congress offset w)
  = Returned (PList (house ++ senate)) /\
  requests_issued (fetch_bills_from_api "both" congress offset) w
  = [house_request offset; senate_request offset].
Proof.
  intros Hmiss Hh Hs. unfold requests_issued.
  unfold fetch_bills_from_api. cbn [gets bind].
  destruct (cache_is_fresh_spec (api_bills_cache w) (api_bills_cache_time w) w)
    as [b [w1 [E [Hb Hw]]]].
  rewrite (bind_step _ _ _ _ _ E). rewrite (not_true_false b _ Hb Hmiss).
  assert (Hlog : http_log w1 = http_log w /\ endpoint w1 = endpoint w)
    by (destruct Hw as [-> | ->]; now split).
  destruct Hlog as [Hl He].
  rewrite <- Hl, <- He in Hh, Hs.
  destruct (fetch_both_body w1 offset house senate Hh Hs) as [w2 [E2 L2]].
  unfold try_except. rewrite String.eqb_refl.
  rewrite (bind_step time_time _ w1 (tick w1) _ eq_refl).
  rewrite E2. cbn [fst snd]. split; [reflexivity |].
  rewrite L2, Hl. rewrite skipn_app, skipn_all, Nat.sub_diag. reflexivity.
Qed.

(** The two requests of the 'both' branch cannot be told apart. *)
Lemma house_and_senate_requests_equal (offset : Z) :
  house_request offset = senate_request offset.
Proof. reflexivity. Qed.

(** On a live cache the fetch returns the cached value and issues no
    request, whatever the chamber. *)
Lemma fetch_on_live_cache (w : World) (chamber : string) (congress offset : Z) :
  api_cache_live w ->
  fst (fetch_bills_from_api chamber congress offset w)
  = Returned (api_bills_cache w) /\
  requests_issued (fetch_bills_from_api chamber congress offset) w = [].
Proof.
  intros Hlive. unfold requests_issued, fetch_bills_from_api. cbn [gets bind].
  destruct (cache_is_fresh_spec (api_bills_cache w) (api_bills_cache_time w) w)
    as [b [w1 [E [Hb Hw]]]].
  rewrite (bind_step _ _ _ _ _ E). apply Hb in Hlive. subst b.
  cbn [ret fst snd].
  split; [reflexivity |].
  destruct Hw as [-> | ->]; cbn [tick http_log]; apply skipn_all.
Qed.

(** ** C4, C9: the cache file *)

Lemma cache_data_timestamp (T : Q) (bills : pyval) :
  py_get (cache_data_of T bills) "timestamp" (PInt 0) = Some (PFloat T).
Proof. reflexivity. Qed.

Lemma cache_data_bills (T : Q) (bills : pyval) :
  py_get (cache_data_of T bills) "bills" (PList []) = Some bills.
Proof. reflexivity. Qed.

(** Reading a file that holds an entry written at [T]: the clock is read
    once, and the bills come back exactly when the reading is less than
    [CACHE_DURATION] after [T]. *)
Lemma load_written_entry (w : World) (T : Q) (bills : pyval) :
  cache_file w = Some (JsonDoc (cache_data_of T bills)) ->
  load_cache_from_file w
  = (Returned (if Qltb (clock w (ticks w) - T) CACHE_DURATION
               then bills else PNone),
     tick w).
Proof.
  intros Hf. unfold load_cache_from_file, try_except.
  cbn [gets bind]. rewrite Hf. cbn [json_load lift ret bind].
  rewrite cache_data_timestamp. cbn [lift ret bind time_time py_num].
  destruct (Qltb (clock w (ticks w) - T) CACHE_DURATION).
  - rewrite cache_data_bills. reflexivity.
  - reflexivity.
Qed.

(** Writing on a writable disk: the file holds the bills under the clock
    reading of the write. *)
Lemma save_writes_entry (w : World) (bills : pyval) :
  disk_writable w = true ->
  cache_file (snd (save_cache_to_file bills w))
  = Some (JsonDoc (cache_data_of (clock w (ticks w)) bills)).
Proof.
  intros Hw. unfold save_cache_to_file, try_except.
  cbn [time_time bind gets tick disk_writable]. rewrite Hw. reflexivity.
Qed.

(** When the write fails the file is left as it was, and nothing is raised. *)
Lemma save_failure_is_silent (w : World) (bills : pyval) :
  disk_writable w = false ->
  fst (save_cache_to_file bills w) = Returned tt /\
  cache_file (snd (save_cache_to_file bills w)) = cache_file w.
Proof.
  intros Hw. unfold save_cache_to_file, try_except.
  cbn [time_time bind gets tick disk_writable]. rewrite Hw. now split.
Qed.

(** C4: the time-to-live is 1800 seconds; an entry written with timestamp
    [T] is returned by a read at [T + 1799] and is a miss for a read at
    [T + 1801]. *)
Theorem ttl_boundary (early late : World) (T : Q) (bills : pyval) :
  cache_file early = Some (JsonDoc (cache_data_of T bills)) ->
  cache_file late = Some (JsonDoc (cache_data_of T bills)) ->
  (clock early (ticks early) == T + 1799)%Q ->
  (clock late (ticks late) == T + 1801)%Q ->
  CACHE_DURATION = 1800%Q /\
  fst (load_cache_from_file early) = Returned bills /\
  fst (load_cache_from_file late) = Returned PNone.
Proof.
  intros Hearly Hlate Hnow Hthen.
  rewrite (load_written_entry early T bills Hearly).
  rewrite (load_written_entry late T bills Hlate). cbn [fst].
  split; [reflexivity |]. split.
  - assert (H : Qltb (clock early (ticks early) - T) CACHE_DURATION = true).
    { apply Qltb_lt. unfold CACHE_DURATION. lra. }
    now rewrite H.
  - assert (H : Qltb (clock late (ticks late) - T) CACHE_DURATION = false).
    { apply Qltb_ge. unfold CACHE_DURATION. lra. }
    now rewrite H.
Qed.

(** C9: after a write of [bills] that succeeds, a read of the file as the
    write left it, at a clock reading less than [CACHE_DURATION] after the
    write's, returns [bills] unchanged. *)
Theorem cache_file_round_trip (w w2 : World) (bills : pyval) :
  disk_writable w = true ->
  cache_file w2 = cache_file (snd (save_cache_to_file bills w)) ->
  (clock w2 (ticks w2) - clock w (ticks w) < CACHE_DURATION)%Q ->
  fst (load_cache_from_file w2) = Returned bills.
Proof.
  intros Hw Hfile Hage.
  rewrite (save_writes_entry w bills Hw) in Hfile.
  rewrite (load_written_entry w2 _ bills Hfile). cbn [fst].
  apply Qltb_lt in Hage. now rewrite Hage.
Qed.

(** ** C5: what a read leaves alone, and what it writes *)

(** *** Frames: relations between worlds that every step of a fetch keeps *)

Section Frames.

Variable R : World -> World -> Prop.
Hypothesis R_refl : forall w, R w w.
Hypothesis R_trans : forall w1 w2 w3, R w1 w2 -> R w2 w3 -> R w1 w3.
Hypothesis R_tick : forall w, R w (tick w).
Hypothesis R_log : forall r w, R w (log_request r w).
Hypothesis R_api : forall v t w, R w (with_api_cache v t w).
Hypothesis R_remove : forall w, R w (remove_cache_file w).

Lemma keeps_ret {A} (a : A) : keeps R (ret a).
Proof. intros w. apply R_refl. Qed.

Lemma keeps_raise {A} : keeps R (@raise A).
Proof. intros w. apply R_refl. Qed.

Lemma keeps_lift {A} (o : option A) : keeps R (lift o).
Proof. destruct o; [apply keeps_ret | apply keeps_raise]. Qed.

Lemma keeps_gets {A} (f : World -> A) : keeps R (gets f).
Proof. intros w. apply R_refl. Qed.

Lemma keeps_bind {A B} (m : M A) (k : A -> M B) :
  keeps R m -> (forall a, keeps R (k a)) -> keeps R (bind m k).
Proof.
  intros Hm Hk w. unfold bind. specialize (Hm w).
  destruct (m w) as [[a|] w1]; cbn [snd] in *.
  - eapply R_trans; [exact Hm | apply Hk].
  - exact Hm.
Qed.

Lemma keeps_try {A} (m h : M A) :
  keeps R m -> keeps R h -> keeps R (try_except m h).
Proof.
  intros Hm Hh w. unfold try_except. specialize (Hm w).
  destruct (m w) as [[a|] w1]; cbn [snd] in *.
  - exact Hm.
  - eapply R_trans; [exact Hm | apply Hh].
Qed.

Lemma keeps_time : keeps R time_time.
Proof. intros w. apply R_tick. Qed.

Lemma keeps_requests_get (r : Request) : keeps R (requests_get r).
Proof.
  intros w. unfold requests_get.
  destruct (endpoint w (List.length (http_log w)) r); apply R_log.
Qed.

Lemma keeps_with_api_cache (v : pyval) (t : option Q) :
  keeps R (modify (with_api_cache v t)).
Proof. intros w. apply R_api. Qed.

Lemma keeps_if {A} (b : bool) (m1 m2 : M A) :
  keeps R m1 -> keeps R m2 -> keeps R (if b then m1 else m2).
Proof. now destruct b. Qed.

Create HintDb keeps.

#[local] Hint Resolve keeps_ret keeps_raise keeps_lift keeps_gets keeps_time
  keeps_requests_get keeps_with_api_cache : keeps.

Ltac keeps :=
  repeat first
    [ progress auto with keeps
    | apply keeps_bind; [| intros ?]
    | apply keeps_try
    | apply keeps_if ].

Lemma keeps_cache_is_fresh (cache : pyval) (cache_time : option Q) :
  keeps R (cache_is_fresh cache cache_time).
Proof. unfold cache_is_fresh. destruct cache_time; keeps. Qed.

Lemma keeps_fetch_into (bills : list pyval) (r : Request) :
  keeps R (fetch_into bills r).
Proof. unfold fetch_into. keeps. Qed.

Lemma keeps_fetch_bills_from_api (chamber : string) (congress offset : Z) :
  keeps R (fetch_bills_from_api chamber congress offset).
Proof.
  unfold fetch_bills_from_api.
  pose proof keeps_cache_is_fresh. pose proof keeps_fetch_into.
  keeps.
Qed.

Lemma keeps_load_cache_from_file : keeps R load_cache_from_file.
Proof.
  unfold load_cache_from_file. apply keeps_try.
  - apply keeps_bind; [keeps | intros [c|]; keeps].
  - apply keeps_bind; [| intros ?; keeps].
    intros w. apply R_remove.
Qed.

(** the rest of a limited read once memory and file have missed: the fetch
    and the loop, and no write *)
Lemma keeps_limited_fetch (chamber : string) (congress : Z) (limit : option Z) :
  keeps R
    (api_bills <- fetch_bills_from_api chamber congress 0 ;;
     if truthy api_bills then
       items <- lift (py_iter api_bills) ;;
       let processed_bills := PList (process_from limit 0 items) in
       ret tt ;;;
       ret processed_bills
     else ret (PList [])).
Proof. pose proof keeps_fetch_bills_from_api. keeps. Qed.

End Frames.

(** *** The processed-bills tier as a frame *)

Lemma kept_refl (w : World) : processed_tier_kept w w.
Proof. unfold processed_tier_kept. auto. Qed.

Lemma kept_trans (w1 w2 w3 : World) :
  processed_tier_kept w1 w2 -> processed_tier_kept w2 w3 ->
  processed_tier_kept w1 w3.
Proof.
  unfold processed_tier_kept. intros [A1 [B1 C1]] [A2 [B2 C2]].
  repeat split; try congruence.
  destruct C2 as [C2 | C2]; [| now right].
  destruct C1 as [C1 | C1]; [left | right]; congruence.
Qed.

Lemma kept_tick (w : World) : processed_tier_kept w (tick w).
Proof. unfold processed_tier_kept. cbn. auto. Qed.

Lemma kept_log (r : Request) (w : World) : processed_tier_kept w (log_request r w).
Proof. unfold processed_tier_kept. cbn. auto. Qed.

Lemma kept_api (v : pyval) (t : option Q) (w : World) :
  processed_tier_kept w (with_api_cache v t w).
Proof. unfold processed_tier_kept. cbn. auto. Qed.

Lemma kept_remove (w : World) : processed_tier_kept w (remove_cache_file w).
Proof.
  unfold processed_tier_kept, remove_cache_file.
  destruct (disk_writable w); cbn; auto.
Qed.

Ltac kept_frame :=
  first [ exact kept_refl | exact kept_trans | exact kept_tick
        | exact kept_log | exact kept_api | exact kept_remove ].

(** The raw fetch never touches the processed-bills tier. *)
Lemma fetch_keeps_processed_tier (chamber : string) (congress offset : Z) :
  keeps processed_tier_kept (fetch_bills_from_api chamber congress offset).
Proof.
  apply keeps_fetch_bills_from_api; kept_frame.
Qed.

(** Reading the file leaves the memory copy alone; the file itself is kept
    or, when it cannot be read, removed. *)
Lemma load_keeps_processed_tier : keeps processed_tier_kept load_cache_from_file.
Proof.
  apply keeps_load_cache_from_file; kept_frame.
Qed.

(** *** The disk as a frame: no step changes whether it can be written *)

Lemma same_disk_fetch (chamber : string) (congress offset : Z) :
  keeps same_disk (fetch_bills_from_api chamber congress offset).
Proof.
  apply keeps_fetch_bills_from_api; unfold same_disk; cbn; congruence.
Qed.

Lemma same_disk_load : keeps same_disk load_cache_from_file.
Proof.
  apply keeps_load_cache_from_file; unfold same_disk, remove_cache_file; cbn;
    try congruence.
  intros w. destruct (disk_writable w) eqn:E; cbn; congruence.
Qed.

Lemma same_disk_check (cache : pyval) (cache_time : option Q) :
  keeps same_disk (cache_is_fresh cache cache_time).
Proof.
  apply keeps_cache_is_fresh; unfold same_disk; cbn; congruence.
Qed.

(** The two misses that lead a read to the fetch. *)
Lemma read_reaches_fetch (w : World) (chamber : string) (congress : Z)
      (limit : option Z) :
  ~ memory_cache_live w ->
  file_read_misses w ->
  exists k,
    get_processed_bills_cached chamber congress limit w
    = k (snd (load_cache_from_file (after_memory_check w))) /\
    k = (api_bills <- fetch_bills_from_api chamber congress 0 ;;
         if truthy api_bills then
           items <- lift (py_iter api_bills) ;;
           let processed_bills := PList (process_from limit 0 items) in
           (if negb (limit_truthy limit) then
              modify (with_processed_cache processed_bills) ;;;
              t <- time_time ;;
              modify (with_processed_cache_time (Some t)) ;;;
              save_cache_to_file processed_bills
            else ret tt) ;;;
           ret processed_bills
         else ret (PList [])).
Proof.
  intros Hmem [v [Hv Hfalse]]. eexists. split; [| reflexivity].
  unfold get_processed_bills_cached. cbn [gets bind].
  unfold after_memory_check in *.
  destruct (cache_is_fresh_spec (processed_bills_cache w)
              (processed_bills_cache_time w) w) as [b [w1 [E [Hb _]]]].
  rewrite E in *. cbn [snd] in *.
  rewrite (bind_step _ _ _ _ _ E).
  rewrite (not_true_false b _ Hb Hmem).
  destruct (load_cache_from_file w1) as [[v'|] w2] eqn:El;
    cbn [fst snd] in *; [| discriminate].
  inversion Hv; subst v'.
  rewrite (bind_step _ _ _ _ _ El). now rewrite Hfalse.
Qed.

(** the file after a read, and the memory copy, which a read of the file
    does not touch *)
Lemma load_file_after (w : World) :
  cache_file (snd (load_cache_from_file w)) = file_after_read w.
Proof.
  unfold file_after_read, load_cache_from_file, try_except. cbn [gets bind].
  unfold remove_cache_file.
  destruct (cache_file w) as [c|] eqn:Ef; [| cbn; exact Ef].
  destruct c as [|doc]; cbn [json_load lift bind ret raise modify unreadable andb].
  - cbn. destruct (disk_writable w); cbn; try rewrite Ef; reflexivity.
  - destruct doc as [| | | | | |d];
      cbn [py_get lift bind ret raise modify unreadable andb];
      try (cbn; destruct (disk_writable w); cbn; try rewrite Ef; reflexivity).
    rewrite (bind_step time_time _ w (tick w) _ eq_refl).
    destruct (py_num (field d "timestamp" (PInt 0))) as [t|];
      cbn [lift bind ret raise modify andb].
    + destruct (Qltb (clock w (ticks w) - t) CACHE_DURATION); cbn; exact Ef.
    + cbn. destruct (disk_writable w); cbn; try rewrite Ef; reflexivity.
Qed.

Lemma tier_same_refl (w : World) : processed_tier_same w w.
Proof. unfold processed_tier_same. auto. Qed.

Lemma tier_same_trans (w1 w2 w3 : World) :
  processed_tier_same w1 w2 -> processed_tier_same w2 w3 ->
  processed_tier_same w1 w3.
Proof. unfold processed_tier_same. intuition congruence. Qed.

Lemma tier_same_tick (w : World) : processed_tier_same w (tick w).
Proof. unfold processed_tier_same. cbn. auto. Qed.

Lemma tier_same_log (r : Request) (w : World) :
  processed_tier_same w (log_request r w).
Proof. unfold processed_tier_same. cbn. auto. Qed.

Lemma tier_same_api (v : pyval) (t : option Q) (w : World) :
  processed_tier_same w (with_api_cache v t w).
Proof. unfold processed_tier_same. cbn. auto. Qed.

(** C5 (amended): a read with a limit other than [None] and [0] that is
    served neither from memory nor from the file leaves the memory copy of
    the processed bills and its time as they were, and writes nothing to
    the file: the file is as it was, unless it could not be read and was
    removed. *)
Theorem limited_read_keeps_cache (w : World) (chamber : string)
        (congress z : Z) :
  z <> 0%Z ->
  ~ memory_cache_live w ->
  file_read_misses w ->
  processed_tier_unwritten w
    (snd (get_processed_bills_cached chamber congress (Some z) w)).
Proof.
  intros Hz Hmem Hfile.
  destruct (read_reaches_fetch w chamber congress (Some z) Hmem Hfile)
    as [k [-> ->]].
  assert (Hlim : limit_truthy (Some z) = true).
  { simpl. apply negb_true_iff. now apply Z.eqb_neq. }
  rewrite Hlim. cbn [negb].
  set (w1 := after_memory_check w).
  set (w2 := snd (load_cache_from_file w1)).
  assert (H1 : processed_tier_same w w1).
  { apply (keeps_cache_is_fresh processed_tier_same tier_same_refl tier_same_tick). }
  set (w3 := snd (_ w2)).
  assert (H3 : processed_tier_same w2 w3).
  { unfold w3.
    apply (keeps_limited_fetch processed_tier_same tier_same_refl
             tier_same_trans tier_same_tick tier_same_log tier_same_api). }
  destruct (load_keeps_processed_tier w1) as (Hc2 & Ht2 & _).
  pose proof (load_file_after w1) as Hf2. fold w2 in Hc2, Ht2, Hf2.
  destruct H1 as (Hc1 & Ht1 & Hf1). destruct H3 as (Hc3 & Ht3 & Hf3).
  unfold processed_tier_unwritten.
  split; [congruence |]. split; [congruence |].
  rewrite Hf3, Hf2. unfold file_after_read. rewrite Hf1.
  destruct (cache_file w) as [c|]; [| now left].
  destruct (unreadable c && disk_writable w1) eqn:E; [| now left].
  right. exists c. apply andb_prop in E. destruct E as [E _]. auto.
Qed.

(** Writing on a writable disk, in full. *)
Lemma save_on_writable_disk (w : World) (bills : pyval) :
  disk_writable w = true ->
  save_cache_to_file bills w
  = (Returned tt,
     with_cache_file (Some (JsonDoc (cache_data_of (clock w (ticks w)) bills)))
       (tick w)).
Proof.
  intros Hw. unfold save_cache_to_file, try_except.
  cbn [time_time bind gets tick disk_writable]. now rewrite Hw.
Qed.

(** The other half: a read with no limit in effect ([None] or [0]) that
    reaches the fetch and gets bills stores the processed list in memory,
    with a time, and, on a writable disk, in the file. *)
Lemma unlimited_read_persists (w : World) (chamber : string) (congress : Z)
      (limit : option Z) (api_bills : pyval) (items : list pyval) :
  limit_truthy limit = false ->
  ~ memory_cache_live w ->
  file_read_misses w ->
  disk_writable w = true ->
  fst (fetch_bills_from_api chamber congress 0
         (snd (load_cache_from_file (after_memory_check w))))
  = Returned api_bills ->
  truthy api_bills = true ->
  py_iter api_bills = Some items ->
  let r := get_processed_bills_cached chamber congress limit w in
  let processed := PList (process_from limit 0 items) in
  fst r = Returned processed /\
  processed_bills_cache (snd r) = processed /\
  (exists t, processed_bills_cache_time (snd r) = Some t) /\
  (exists t, cache_file (snd r) = Some (JsonDoc (cache_data_of t processed))).
Proof.
  intros Hlim Hmem Hfile Hdisk Hfetch Htrue Hiter r processed. subst r.
  destruct (read_reaches_fetch w chamber congress limit Hmem Hfile)
    as [k [-> ->]].
  set (w2 := snd (load_cache_from_file (after_memory_check w))) in *.
  assert (Hd2 : disk_writable w2 = disk_writable w).
  { unfold w2, after_memory_check.
    rewrite (same_disk_load _). apply same_disk_check. }
  pose proof (same_disk_fetch chamber congress 0 w2) as Hd3.
  unfold same_disk in Hd3.
  rewrite (bind_step _ _ _ _ _ (run_pair _ _ _ Hfetch)).
  set (w3 := snd (fetch_bills_from_api chamber congress 0 w2)) in *.
  rewrite Htrue, Hiter, Hlim. cbn [lift negb].
  unfold bind, modify, time_time, ret. cbv beta iota.
  rewrite save_on_writable_disk by (cbn; congruence).
  cbn. subst processed. repeat split; eauto.
Qed.

(** ** C6: one vote per user and bill *)

(** An accepted submission updates the user's row when there is one and
    adds a row when there is none. *)
Lemma vote_accepted (b : string) (u : Z) (ip : string) (now : Q) (ty : string)
      (t : Votes.Table) :
  valid_vote_type ty ->
  snd (Votes.api_vote_bill b u ip now (Votes.submission ty) t)
  = match Votes.first_vote b u t with
    | Some _ => Votes.update_first b u ty now t
    | None => Votes.insert_vote b ip ty now u t
    end.
Proof. intros [-> | ->]; reflexivity. Qed.

Lemma first_vote_none_rows (b : string) (u : Z) (t : Votes.Table) :
  Votes.first_vote b u t = None -> Votes.rows_of b u t = [].
Proof.
  unfold Votes.first_vote, Votes.rows_of.
  induction t as [|v t IH]; simpl; [reflexivity |].
  destruct (Votes.by_bill_user b u v); [discriminate | exact IH].
Qed.

Lemma first_vote_some_rows (b : string) (u : Z) (t : Votes.Table) (x : Votes.Vote) :
  Votes.first_vote b u t = Some x -> Votes.rows_of b u t <> [].
Proof.
  unfold Votes.first_vote, Votes.rows_of.
  induction t as [|v t IH]; simpl; [discriminate |].
  destruct (Votes.by_bill_user b u v); [discriminate | exact IH].
Qed.

Lemma by_bill_user_refl (b : string) (u : Z) (v : Votes.Vote) :
  Votes.bill_id v = b -> Votes.user_id v = Some u ->
  Votes.by_bill_user b u v = true.
Proof.
  intros Hb Hu. unfold Votes.by_bill_user.
  now rewrite Hb, Hu, String.eqb_refl, Z.eqb_refl.
Qed.

(** The update rewrites the one row of the pair and no other. *)
Lemma update_first_rows (b : string) (u : Z) (ty : string) (now : Q)
      (t : Votes.Table) :
  List.length (Votes.rows_of b u t) <= 1 ->
  Votes.rows_of b u t <> [] ->
  exists v, Votes.rows_of b u (Votes.update_first b u ty now t) = [v] /\
            Votes.vote_type v = ty.
Proof.
  unfold Votes.rows_of. induction t as [|x t IH]; simpl; [congruence |].
  destruct (Votes.by_bill_user b u x) eqn:E; simpl.
  - intros Hlen _.
    assert (Hrest : filter (Votes.by_bill_user b u) t = [])
      by (destruct (filter (Votes.by_bill_user b u) t); [reflexivity | simpl in Hlen; lia]).
    unfold Votes.by_bill_user in *. cbn [Votes.bill_id Votes.user_id].
    rewrite E, Hrest. eexists. split; reflexivity.
  - rewrite E. exact IH.
Qed.

(** The insertion adds the one row of a pair that had none. *)
Lemma insert_vote_rows (b ip ty : string) (now : Q) (u : Z) (t : Votes.Table) :
  Votes.rows_of b u t = [] ->
  exists v, Votes.rows_of b u (Votes.insert_vote b ip ty now u t) = [v] /\
            Votes.vote_type v = ty.
Proof.
  intros Hnone. unfold Votes.rows_of, Votes.insert_vote in *.
  rewrite filter_app, Hnone. simpl.
  rewrite by_bill_user_refl by reflexivity.
  eexists. split; reflexivity.
Qed.

(** After an accepted submission the pair has exactly one row, with the
    submitted vote type. *)
Lemma one_row_after_vote (b : string) (u : Z) (ip : string) (now : Q)
      (ty : string) (t : Votes.Table) :
  valid_vote_type ty ->
  List.length (Votes.rows_of b u t) <= 1 ->
  exists v,
    Votes.rows_of b u (snd (Votes.api_vote_bill b u ip now (Votes.submission ty) t))
    = [v] /\ Votes.vote_type v = ty.
Proof.
  intros Hty Hlen. rewrite (vote_accepted b u ip now ty t Hty).
  destruct (Votes.first_vote b u t) as [x|] eqn:E.
  - apply update_first_rows; [exact Hlen |].
    exact (first_vote_some_rows b u t x E).
  - apply insert_vote_rows. exact (first_vote_none_rows b u t E).
Qed.

(** C6: on a table that satisfies the uniqueness constraint, after two
    successive accepted submissions by one user on one bill the pair has
    exactly one row, and its vote type is that of the second submission. *)
Theorem second_vote_replaces_first (t : Votes.Table) (b : string) (u : Z)
        (ip1 ip2 : string) (now1 now2 : Q) (ty1 ty2 : string) :
  Votes.unique_vote_per_user t ->
  valid_vote_type ty1 ->
  valid_vote_type ty2 ->
  let t1 := snd (Votes.api_vote_bill b u ip1 now1 (Votes.submission ty1) t) in
  let t2 := snd (Votes.api_vote_bill b u ip2 now2 (Votes.submission ty2) t1) in
  exists v, Votes.rows_of b u t2 = [v] /\ Votes.vote_type v = ty2.
Proof.
  intros Huniq H1 H2 t1 t2.
  destruct (one_row_after_vote b u ip1 now1 ty1 t H1 (Huniq b u)) as [v1 [R1 _]].
  apply one_row_after_vote; [exact H2 |].
  fold t1 in R1. rewrite R1. simpl. lia.
Qed.

(** ** C3: the age of a promoted entry *)

(** A read served from memory is a read of a live entry. *)
Lemma memory_hit_returns_cache (w : World) (chamber : string) (congress : Z)
      (limit : option Z) :
  memory_cache_live w ->
  fst (get_processed_bills_cached chamber congress limit w)
  = Returned (processed_bills_cache w).
Proof.
  intros Hlive. unfold get_processed_bills_cached. cbn [gets bind].
  destruct (cache_is_fresh_spec (processed_bills_cache w)
              (processed_bills_cache_time w) w) as [b [w1 [E [Hb _]]]].
  rewrite (bind_step _ _ _ _ _ E). apply Hb in Hlive. now subst b.
Qed.

(** Promotion: a read that finds memory empty and a file entry written at
    [T], not yet expired, returns the entry's bills and stores them in
    memory under the time of the read, not under [T]. *)
Lemma promotion_restamps_entry (w : World) (T : Q) (bills : pyval)
      (chamber : string) (congress : Z) (limit : option Z) :
  processed_bills_cache w = PNone ->
  cache_file w = Some (JsonDoc (cache_data_of T bills)) ->
  truthy bills = true ->
  (clock w (ticks w) - T < CACHE_DURATION)%Q ->
  let r := get_processed_bills_cached chamber congress limit w in
  fst r = Returned bills /\
  processed_bills_cache (snd r) = bills /\
  processed_bills_cache_time (snd r) = Some (clock w (S (ticks w))).
Proof.
  intros Hmem Hfile Htrue Hage r. subst r.
  unfold get_processed_bills_cached. cbn [gets bind].
  assert (E : cache_is_fresh (processed_bills_cache w)
                (processed_bills_cache_time w) w = (Returned false, w)).
  { rewrite Hmem. unfold cache_is_fresh.
    destruct (processed_bills_cache_time w); reflexivity. }
  rewrite (bind_step _ _ _ _ _ E).
  rewrite (bind_step _ _ _ _ _ (load_written_entry w T bills Hfile)).
  apply Qltb_lt in Hage. rewrite Hage, Htrue.
  repeat split.
Qed.

(** C3 (as the code behaves): a process starts with a cache file written at
    second 1000.  A first read at second 2799 promotes the file entry into
    memory; a second read at second 4000 returns the same bills from memory
    and makes no request, although they were written 3000 seconds before,
    more than the time-to-live: promotion stored the entry under the time
    of the first read. *)
Theorem promoted_entry_outlives_ttl :
  let first := get_processed_bills_cached "both" 118 None Samples.restarted_world in
  let second := get_processed_bills_cached "both" 118 None (snd first) in
  fst first = Returned Samples.stale_bills /\
  processed_bills_cache_time (snd first) = Some (inject_Z 2800) /\
  fst second = Returned Samples.stale_bills /\
  http_log (snd second) = [] /\
  (clock Samples.restarted_world 2 == inject_Z 4000)%Q /\
  (CACHE_DURATION < clock Samples.restarted_world 2 - inject_Z 1000)%Q.
Proof.
  cbv zeta. repeat split; vm_compute; reflexivity.
Qed.

(** * Further properties *)

(** ** The topic classifier *)

(** the keys of the table entries that a test keeps are distinct when the
    keys of the table are *)
Lemma kept_keys_NoDup {K V} (keep : K * V -> bool) (table : list (K * V)) :
  NoDup (map fst table) -> NoDup (map fst (filter keep table)).
Proof.
  intros Hkeys. induction table as [|entry table IH]; simpl; [constructor |].
  simpl in Hkeys. apply NoDup_cons_iff in Hkeys. destruct Hkeys as [Hnew Hold].
  destruct (keep entry); simpl; [| exact (IH Hold)].
  apply NoDup_cons; [| exact (IH Hold)].
  intros Hin. apply Hnew. apply in_map_iff in Hin.
  destruct Hin as [other [Hkey Hin]]. apply filter_In in Hin.
  apply in_map_iff. exists other. tauto.
Qed.

Lemma vocabulary_NoDup : NoDup vocabulary.
Proof.
  unfold vocabulary, TOPIC_KEYWORDS. simpl.
  repeat (constructor; [simpl; intuition discriminate |]). constructor.
Qed.

Lemma keyword_topics_vocabulary (text topic : string) :
  In topic (keyword_topics text) -> In topic vocabulary.
Proof.
  unfold keyword_topics, vocabulary. intros H.
  apply in_map_iff in H. destruct H as [tk [Hf Hin]].
  apply filter_In in Hin. apply in_map_iff. exists tk. tauto.
Qed.

(** the three shapes of a classification *)
Lemma topics_of_text_cases (text : string) :
  (topics_of_text text = keyword_topics text /\ keyword_topics text <> []) \/
  (keyword_topics text = [] /\
   (topics_of_text text = [] \/
    topics_of_text text = ["general_legislation"] \/
    topics_of_text text = ["legislative_reform"])) \/
  topics_of_text text = [].
Proof.
  unfold topics_of_text.
  destruct (negb (PyStr.nonempty text) || (String.length (PyStr.strip text) <? 10));
    [now right; right |].
  destruct (keyword_topics text) as [|t ts] eqn:E.
  - right. left. split; [reflexivity |].
    destruct (any_in ["act"; "law"; "bill"; "legislation"] text); [tauto |].
    destruct (any_in ["amendment"; "modify"; "change"; "update"] text); tauto.
  - left. split; [reflexivity | discriminate].
Qed.

(** X1: the classifier returns distinct topics, each one a topic of the
    keyword table or one of the two catch-all tags. *)
Theorem categorize_bill_topics_wellformed (bill : list (string * pyval)) :
  NoDup (categorize_bill bill) /\
  forall topic, In topic (categorize_bill bill) ->
                In topic vocabulary \/ In topic fallback_tags.
Proof.
  unfold categorize_bill. set (text := bill_text bill).
  destruct (topics_of_text_cases text) as [[E _] | [[_ [E | [E | E]]] | E]];
    rewrite E.
  - split.
    + unfold keyword_topics. apply kept_keys_NoDup. exact vocabulary_NoDup.
    + intros topic H. left. exact (keyword_topics_vocabulary text topic H).
  - split; [constructor | intros ? []].
  - split; [repeat constructor; simpl; tauto |].
    intros topic [<- | []]. right. simpl. tauto.
  - split; [repeat constructor; simpl; tauto |].
    intros topic [<- | []]. right. simpl. tauto.
  - split; [constructor | intros ? []].
Qed.

Lemma fallback_not_in_vocabulary (topic : string) :
  In topic fallback_tags -> ~ In topic vocabulary.
Proof.
  unfold fallback_tags, vocabulary, TOPIC_KEYWORDS. simpl.
  intros [<- | [<- | []]]; intuition discriminate.
Qed.

Lemma fallback_alone (bill : list (string * pyval)) (topic : string) :
  In topic fallback_tags ->
  In topic (categorize_bill bill) ->
  categorize_bill bill = [topic] /\ keyword_topics (bill_text bill) = [].
Proof.
  intros Hfb Hin. unfold categorize_bill in *. set (text := bill_text bill) in *.
  destruct (topics_of_text_cases text) as [[E _] | [[K [E | [E | E]]] | E]];
    rewrite E in *.
  - exfalso. apply (fallback_not_in_vocabulary topic Hfb).
    exact (keyword_topics_vocabulary text topic Hin).
  - destruct Hin.
  - destruct Hin as [<- | []]. now split.
  - destruct Hin as [<- | []]. now split.
  - destruct Hin.
Qed.

(** X2: a catch-all tag is never mixed with keyword topics: when the
    classifier returns one, it is the only topic returned and no keyword
    of the table occurs in the text. *)
Theorem fallback_tag_stands_alone (bill : list (string * pyval))
        (topic : string) :
  In topic fallback_tags ->
  In topic (categorize_bill bill) ->
  categorize_bill bill = [topic] /\ keyword_topics (bill_text bill) = [].
Proof. exact (fallback_alone bill topic). Qed.

Lemma lower_char_idempotent (c : ascii) :
  PyStr.lower_char (PyStr.lower_char c) = PyStr.lower_char c.
Proof. destruct c as [[] [] [] [] [] [] [] []]; reflexivity. Qed.

Lemma lower_idempotent (s : string) : PyStr.lower (PyStr.lower s) = PyStr.lower s.
Proof.
  induction s as [|c s IH]; simpl; [reflexivity |].
  now rewrite lower_char_idempotent, IH.
Qed.

Lemma bill_text_strings (title summary : string) :
  bill_text [("title", PStr title); ("summary", PStr summary)]
  = (PyStr.lower title ++ " " ++ PyStr.lower summary)%string.
Proof.
  change (bill_text [("title", PStr title); ("summary", PStr summary)])
    with (PyStr.lower (title ++ " " ++ summary)).
  now rewrite !lower_app.
Qed.

(** X3: the classification does not depend on letter case: titles that
    agree after lower-casing, with summaries that do, get the same topics. *)
Theorem categorize_bill_ignores_case (title title' summary summary' : string) :
  PyStr.lower title = PyStr.lower title' ->
  PyStr.lower summary = PyStr.lower summary' ->
  categorize_bill [("title", PStr title); ("summary", PStr summary)]
  = categorize_bill [("title", PStr title'); ("summary", PStr summary')].
Proof.
  intros Ht Hs. unfold categorize_bill.
  now rewrite !bill_text_strings, Ht, Hs.
Qed.

(** ** Counting requests *)

Lemma issues_same_log {A} (m : M A) :
  (forall w, http_log (snd (m w)) = http_log w) -> issues_at_most 0 m.
Proof.
  intros H w. exists []. rewrite app_nil_r. split; [apply H | reflexivity].
Qed.

Lemma issues_ret {A} (a : A) : issues_at_most 0 (ret a).
Proof. now apply issues_same_log. Qed.

Lemma issues_raise {A} : issues_at_most 0 (@raise A).
Proof. now apply issues_same_log. Qed.

Lemma issues_lift {A} (o : option A) : issues_at_most 0 (lift o).
Proof. destruct o; [apply issues_ret | apply issues_raise]. Qed.

Lemma issues_gets {A} (f : World -> A) : issues_at_most 0 (gets f).
Proof. now apply issues_same_log. Qed.

Lemma issues_time : issues_at_most 0 time_time.
Proof. now apply issues_same_log. Qed.

Lemma issues_modify (f : World -> World) :
  (forall w, http_log (f w) = http_log w) -> issues_at_most 0 (modify f).
Proof. intros H. apply issues_same_log. exact H. Qed.

Lemma issues_requests_get (r : Request) : issues_at_most 1 (requests_get r).
Proof.
  intros w. exists [r]. unfold requests_get.
  destruct (endpoint w (List.length (http_log w)) r); simpl; auto.
Qed.

Lemma issues_weaken {A} (n n' : nat) (m : M A) :
  issues_at_most n m -> n <= n' -> issues_at_most n' m.
Proof.
  intros H Hle w. destruct (H w) as [rs [E L]]. exists rs. split; [exact E | lia].
Qed.

Lemma issues_bind {A B} (n k t : nat) (m : M A) (f : A -> M B) :
  issues_at_most n m -> (forall a, issues_at_most k (f a)) -> n + k <= t ->
  issues_at_most t (bind m f).
Proof.
  intros Hm Hf Hle w. unfold bind. destruct (Hm w) as [rs [E L]].
  destruct (m w) as [[a|] w1]; cbn [snd] in *.
  - destruct (Hf a w1) as [rs' [E' L']]. exists (rs ++ rs').
    rewrite E', E, <- app_assoc, List.length_app. split; [reflexivity | lia].
  - exists rs. split; [exact E | lia].
Qed.

Lemma issues_try {A} (n k t : nat) (m h : M A) :
  issues_at_most n m -> issues_at_most k h -> n + k <= t ->
  issues_at_most t (try_except m h).
Proof.
  intros Hm Hh Hle w. unfold try_except. destruct (Hm w) as [rs [E L]].
  destruct (m w) as [[a|] w1]; cbn [snd] in *.
  - exists rs. split; [exact E | lia].
  - destruct (Hh w1) as [rs' [E' L']]. exists (rs ++ rs').
    rewrite E', E, <- app_assoc, List.length_app. split; [reflexivity | lia].
Qed.

Lemma issues_if {A} (n : nat) (b : bool) (m1 m2 : M A) :
  issues_at_most n m1 -> issues_at_most n m2 ->
  issues_at_most n (if b then m1 else m2).
Proof. now destruct b. Qed.

Lemma issues_bind0 {A B} (m : M A) (f : A -> M B) :
  issues_at_most 0 m -> (forall a, issues_at_most 0 (f a)) ->
  issues_at_most 0 (bind m f).
Proof. intros Hm Hf. now apply (issues_bind 0 0 0). Qed.

Lemma issues_try0 {A} (m h : M A) :
  issues_at_most 0 m -> issues_at_most 0 h ->
  issues_at_most 0 (try_except m h).
Proof. intros Hm Hh. now apply (issues_try 0 0 0). Qed.

(** steps that issue nothing *)
Ltac quiet :=
  repeat first
    [ apply issues_ret | apply issues_raise | apply issues_lift
    | apply issues_gets | apply issues_time
    | apply issues_if
    | apply issues_try0
    | apply issues_bind0; [| intros ?] ].

Lemma issued_length {A} (n : nat) (m : M A) (w : World) :
  issues_at_most n m -> List.length (requests_issued m w) <= n.
Proof.
  intros H. destruct (H w) as [rs [E L]]. unfold requests_issued.
  rewrite E, skipn_app, skipn_all, Nat.sub_diag. simpl. exact L.
Qed.

(** ** The two normalisation paths *)

Lemma never_raises_try_ret {A} (m : M A) (a : A) :
  never_raises (try_except m (ret a)).
Proof.
  intros w. destruct (try_except_ret_total m a w) as [b [w' E]].
  exists b. now rewrite E.
Qed.

Ltac after_quiet_step :=
  apply (issues_bind 0 1 1); [quiet | intros ? | lia].

Lemma issues_fetch_sponsor (congress_bill introduced_date : pyval) :
  issues_at_most 1 (fetch_sponsor congress_bill introduced_date).
Proof.
  unfold fetch_sponsor. do 4 after_quiet_step.
  apply issues_if; [| apply (issues_weaken 0); [quiet | lia]].
  apply (issues_bind 1 0 1); [apply issues_requests_get | intros ? | lia].
  unfold response_json. quiet.
Qed.

(** X4: the detailed path never raises and asks the API at most once for
    a bill. *)
Theorem process_congress_bill_one_request (congress_bill : pyval) :
  never_raises (process_congress_bill congress_bill) /\
  issues_at_most 1 (process_congress_bill congress_bill).
Proof.
  split; [apply never_raises_try_ret |].
  unfold process_congress_bill.
  apply (issues_try 1 0 1); [| quiet | lia].
  do 2 after_quiet_step.
  apply (issues_bind 1 0 1); [| intros ?; quiet | lia].
  apply (issues_try 1 0 1); [apply issues_fetch_sponsor | quiet | lia].
Qed.

Lemma detailed_ill_typed (d : list (string * pyval)) (w : World) :
  py_lower (field d "type" (PStr EmptyString)) = None \/
  py_lower (field d "originChamber" (PStr EmptyString)) = None ->
  fst (process_congress_bill (PDict d) w) = Returned None.
Proof.
  intros H. unfold process_congress_bill.
  unfold try_except at 1. cbn [py_get]. cbn [lift bind ret].
  match goal with
  | |- context [try_except ?m (ret ?a)] =>
      destruct (try_except_ret_total m a w) as [found [w1 E]];
      rewrite (bind_step _ _ _ _ _ E)
  end.
  destruct (latest_action_status_dict d) as [status Hs]. rewrite Hs.
  cbn [lift bind ret].
  destruct (py_lower (field d "originChamber" (PStr EmptyString))) as [ch|];
    [| reflexivity].
  destruct H as [H | H]; [| discriminate].
  cbn [lift bind ret]. rewrite H. reflexivity.
Qed.

Lemma py_lower_str (v : pyval) (s : string) :
  py_lower v = Some s -> exists raw, v = PStr raw.
Proof. destruct v; simpl; intros H; try discriminate. eauto. Qed.

(** X5: for every record, in every world, the two normalisation paths give
    the same identifier, or both skip the record. *)
Theorem paths_agree_on_identifier (congress_bill : pyval) (w : World) :
  detailed_bill_id congress_bill w
  = bill_id_of (process_congress_bill_lightweight congress_bill).
Proof.
  destruct congress_bill as [| b | z | q | s | l | d]; try reflexivity.
  destruct (py_lower (field d "type" (PStr EmptyString))) as [ty|] eqn:Et.
  - destruct (py_lower (field d "originChamber" (PStr EmptyString)))
      as [ch|] eqn:Ec.
    + destruct (py_lower_str _ _ Et) as [ty0 Hty].
      destruct (py_lower_str _ _ Ec) as [ch0 Hch].
      rewrite (detailed_bill_id_eq d ty0 ch0 Hty Hch w).
      now rewrite (lightweight_bill_id d ty0 ch0 Hty Hch).
    + unfold detailed_bill_id.
      rewrite (detailed_ill_typed d w (or_intror Ec)).
      now rewrite (ill_typed_record_skipped d (or_intror Ec)).
  - unfold detailed_bill_id.
    rewrite (detailed_ill_typed d w (or_introl Et)).
    now rewrite (ill_typed_record_skipped d (or_introl Et)).
Qed.

(** X6: the detailed path never assigns a catch-all tag: the placeholder
    summary always matches a keyword topic. *)
Theorem detailed_path_never_falls_back (congress_bill processed : pyval)
        (w w' : World) (topic : string) :
  process_congress_bill congress_bill w = (Returned (Some processed), w') ->
  In topic fallback_tags ->
  ~ In (PStr topic) (topics_of processed).
Proof.
  unfold process_congress_bill. intros H Hfb Hin.
  apply try_except_returned in H. destruct H as [H | [w1 [_ H]]];
    [| unfold ret in H; inversion H].
  repeat (apply bind_returned in H; destruct H as [? [? [? H]]]).
  unfold ret in H. inversion H; subst.
  match goal with
  | Hm : lift (make_processed_bill _ _ ?title _ _ _ _ _) _ = _ |- _ =>
      apply lift_returned in Hm; destruct Hm as [Hm _];
      apply make_processed_bill_fields in Hm; destruct Hm as [_ Ht];
      pose proof (categorize_placeholder_technology title) as Htech
  end.
  rewrite Ht in Hin. apply in_map_iff in Hin.
  destruct Hin as [t [Et Hin]]. inversion Et; subst t.
  destruct (fallback_alone _ topic Hfb Hin) as [Eq _].
  rewrite Eq in Htech. destruct Htech as [Htech | []].
  subst topic. simpl in Hfb. intuition discriminate.
Qed.

(** ** The raw fetch *)

Lemma issues_cache_is_fresh (cache : pyval) (cache_time : option Q) :
  issues_at_most 0 (cache_is_fresh cache cache_time).
Proof. unfold cache_is_fresh. destruct cache_time; quiet. Qed.

Lemma never_raises_cache_is_fresh (cache : pyval) (cache_time : option Q) :
  never_raises (cache_is_fresh cache cache_time).
Proof.
  intros w. destruct (cache_is_fresh_spec cache cache_time w) as [b [w1 [E _]]].
  exists b. now rewrite E.
Qed.

Lemma issues_fetch_into (bills : list pyval) (r : Request) :
  issues_at_most 1 (fetch_into bills r).
Proof.
  unfold fetch_into. after_quiet_step.
  apply (issues_bind 1 0 1); [apply issues_requests_get | intros ? | lia].
  unfold response_json. quiet.
Qed.

Lemma issues_fetch_bills_from_api (chamber : string) (congress offset : Z) :
  issues_at_most 2 (fetch_bills_from_api chamber congress offset).
Proof.
  unfold fetch_bills_from_api.
  apply (issues_bind 0 2 2); [quiet | intros ? | lia].
  apply (issues_bind 0 2 2); [quiet | intros ? | lia].
  apply (issues_bind 0 2 2); [apply issues_cache_is_fresh | intros ? | lia].
  apply issues_if; [apply (issues_weaken 0); [quiet | lia] |].
  apply (issues_try 2 0 2); [| quiet | lia].
  apply (issues_bind 0 2 2); [quiet | intros ? | lia].
  apply issues_if.
  - apply (issues_bind 1 1 2); [apply issues_fetch_into | intros ? | lia].
    apply (issues_bind 1 0 1); [apply issues_fetch_into | intros ? | lia].
    apply issues_bind0; [quiet | intros ?].
    apply issues_bind0; [now apply issues_modify | intros ?]. quiet.
  - apply (issues_bind 1 0 2); [apply issues_requests_get | intros ? | lia].
    apply issues_if; [| quiet]. unfold response_json.
    apply issues_bind0; [quiet | intros ?].
    apply issues_bind0; [quiet | intros ?].
    apply issues_bind0; [quiet | intros ?].
    apply issues_bind0; [now apply issues_modify | intros ?]. quiet.
Qed.

Lemma never_raises_fetch_bills_from_api (chamber : string) (congress offset : Z) :
  never_raises (fetch_bills_from_api chamber congress offset).
Proof.
  intros w. unfold fetch_bills_from_api. cbn [gets bind].
  destruct (cache_is_fresh_spec (api_bills_cache w) (api_bills_cache_time w) w)
    as [b [w1 [E _]]].
  rewrite (bind_step _ _ _ _ _ E). destruct b.
  - eexists. reflexivity.
  - apply never_raises_try_ret.
Qed.

(** X7: the raw fetch never raises, whatever the endpoint does, and issues
    at most two requests. *)
Theorem fetch_bills_from_api_total (chamber : string) (congress offset : Z)
        (w : World) :
  (exists bills, fst (fetch_bills_from_api chamber congress offset w)
                 = Returned bills) /\
  List.length (requests_issued (fetch_bills_from_api chamber congress offset) w)
  <= 2.
Proof.
  split.
  - apply never_raises_fetch_bills_from_api.
  - apply issued_length. apply issues_fetch_bills_from_api.
Qed.

(** the world after the opening check of a miss: same log, endpoint and
    raw-bill cache *)
Lemma api_miss_world (w : World) :
  ~ api_cache_live w ->
  exists w1,
    cache_is_fresh (api_bills_cache w) (api_bills_cache_time w) w
    = (Returned false, w1) /\
    http_log w1 = http_log w /\ endpoint w1 = endpoint w /\
    api_bills_cache w1 = api_bills_cache w /\
    api_bills_cache_time w1 = api_bills_cache_time w.
Proof.
  intros Hmiss.
  destruct (cache_is_fresh_spec (api_bills_cache w) (api_bills_cache_time w) w)
    as [b [w1 [E [Hb Hw]]]].
  rewrite (not_true_false b _ Hb Hmiss) in E. exists w1.
  split; [exact E |]. destruct Hw as [-> | ->]; repeat split.
Qed.

(** X8: when the first request of the 'both' branch fails to connect, the
    fetch returns the empty list after that one request and leaves the
    raw-bill cache as it was. *)
Theorem fetch_both_connection_error (w : World) (congress offset : Z) :
  ~ api_cache_live w ->
  endpoint w (List.length (http_log w)) (house_request offset) = ConnectionError ->
  let r := fetch_bills_from_api "both" congress offset w in
  fst r = Returned (PList []) /\
  requests_issued (fetch_bills_from_api "both" congress offset) w
  = [house_request offset] /\
  api_bills_cache (snd r) = api_bills_cache w /\
  api_bills_cache_time (snd r) = api_bills_cache_time w.
Proof.
  intros Hmiss Herr r. subst r. unfold requests_issued.
  unfold fetch_bills_from_api. cbn [gets bind].
  destruct (api_miss_world w Hmiss) as [w1 [E [Hl [He [Hc Ht]]]]].
  rewrite (bind_step _ _ _ _ _ E). cbv iota.
  unfold try_except. rewrite String.eqb_refl.
  rewrite (bind_step time_time _ w1 (tick w1) _ eq_refl).
  assert (Hraise : fetch_into [] (house_request offset) (tick w1)
                   = (Raised, log_request (house_request offset) (tick (tick w1)))).
  { unfold fetch_into.
    rewrite (bind_step time_time _ (tick w1) (tick (tick w1)) _ eq_refl).
    apply bind_raised. unfold requests_get. cbn [tick http_log endpoint].
    now rewrite He, Hl, Herr. }
  rewrite (bind_raised _ _ _ _ Hraise).
  cbn [ret fst snd log_request tick http_log api_bills_cache api_bills_cache_time].
  rewrite Hl, Hc, Ht, skipn_app, skipn_all, Nat.sub_diag. repeat split.
Qed.

(** The 'both' branch after a miss fills the raw-bill cache with what it
    returns, under a clock reading. *)
Lemma fetch_both_fills_cache (w : World) (congress offset : Z)
      (house senate : list pyval) :
  ~ api_cache_live w ->
  result_list (endpoint w (List.length (http_log w)) (house_request offset))
  = Some house ->
  result_list (endpoint w (S (List.length (http_log w))) (senate_request offset))
  = Some senate ->
  let w' := snd (fetch_bills_from_api "both" congress offset w) in
  api_bills_cache w' = PList (house ++ senate) /\
  exists t, api_bills_cache_time w' = Some t.
Proof.
  intros Hmiss Hh Hs w'. subst w'.
  unfold fetch_bills_from_api. cbn [gets bind].
  destruct (api_miss_world w Hmiss) as [w1 [E [Hl [He _]]]].
  rewrite (bind_step _ _ _ _ _ E). cbv iota.
  rewrite <- Hl, <- He in Hh, Hs.
  unfold try_except. rewrite String.eqb_refl.
  rewrite (bind_step time_time _ w1 (tick w1) _ eq_refl).
  destruct (fetch_into_answered [] house (house_request offset) (tick w1) Hh)
    as [wa [Ea [La Pa]]].
  rewrite (bind_step _ _ _ _ _ Ea).
  assert (Hs' : result_list
                  (endpoint wa (List.length (http_log wa)) (senate_request offset))
                = Some senate).
  { rewrite Pa, La. cbn [tick http_log endpoint].
    rewrite List.length_app. simpl List.length. rewrite Nat.add_1_r. exact Hs. }
  destruct (fetch_into_answered ([] ++ house) senate (senate_request offset) wa Hs')
    as [wb [Eb _]].
  rewrite (bind_step _ _ _ _ _ Eb).
  cbn. split; [reflexivity | eauto].
Qed.

(** X9: the raw-bill cache is not keyed by chamber or offset: once a
    'both' fetch has filled it, a fetch for any chamber and any offset
    made while the entry is live returns the same list and issues no
    request. *)
Theorem raw_cache_ignores_chamber_and_offset (w : World) (congress offset : Z)
        (house senate : list pyval)
        (chamber' : string) (congress' offset' : Z) :
  ~ api_cache_live w ->
  result_list (endpoint w (List.length (http_log w)) (house_request offset))
  = Some house ->
  result_list (endpoint w (S (List.length (http_log w))) (senate_request offset))
  = Some senate ->
  let w' := snd (fetch_bills_from_api "both" congress offset w) in
  api_cache_live w' ->
  fst (fetch_bills_from_api chamber' congress' offset' w')
  = Returned (PList (house ++ senate)) /\
  requests_issued (fetch_bills_from_api chamber' congress' offset') w' = [].
Proof.
  intros Hmiss Hh Hs w' Hlive.
  destruct (fetch_both_fills_cache w congress offset house senate Hmiss Hh Hs)
    as [Hc _].
  fold w' in Hc. rewrite <- Hc.
  exact (fetch_on_live_cache w' chamber' congress' offset' Hlive).
Qed.

(** X10: a 'both' fetch that finds no bill does not leave a live entry:
    the empty list it stores is false, so the next fetch asks the API
    again. *)
Theorem empty_fetch_is_not_reused (w : World) (congress offset : Z) :
  ~ api_cache_live w ->
  result_list (endpoint w (List.length (http_log w)) (house_request offset))
  = Some [] ->
  result_list (endpoint w (S (List.length (http_log w))) (senate_request offset))
  = Some [] ->
  ~ api_cache_live (snd (fetch_bills_from_api "both" congress offset w)).
Proof.
  intros Hmiss Hh Hs [Htrue _].
  destruct (fetch_both_fills_cache w congress offset [] [] Hmiss Hh Hs)
    as [Hc _].
  rewrite Hc in Htrue. discriminate.
Qed.

(** X11: for a single chamber, an answer whose status is not 200 gives the
    empty list after one request, which carries the chamber, and leaves
    the raw-bill cache as it was. *)
Theorem fetch_chamber_error_status (w : World) (chamber : string)
        (congress offset status : Z) (body : option pyval) :
  ~ api_cache_live w ->
  chamber <> "both" ->
  endpoint w (List.length (http_log w)) (chamber_request chamber offset)
  = Response status body ->
  status <> 200%Z ->
  let r := fetch_bills_from_api chamber congress offset w in
  fst r = Returned (PList []) /\
  requests_issued (fetch_bills_from_api chamber congress offset) w
  = [chamber_request chamber offset] /\
  api_bills_cache (snd r) = api_bills_cache w /\
  api_bills_cache_time (snd r) = api_bills_cache_time w.
Proof.
  intros Hmiss Hch Hresp Hstatus r. subst r. unfold requests_issued.
  unfold fetch_bills_from_api. cbn [gets bind].
  destruct (api_miss_world w Hmiss) as [w1 [E [Hl [He [Hc Ht]]]]].
  rewrite (bind_step _ _ _ _ _ E). cbv iota.
  unfold try_except.
  apply String.eqb_neq in Hch. rewrite Hch.
  rewrite (bind_step time_time _ w1 (tick w1) _ eq_refl).
  assert (Hget : requests_get (chamber_request chamber offset) (tick w1)
                 = (Returned (status, body),
                    log_request (chamber_request chamber offset) (tick w1))).
  { unfold requests_get. cbn [tick http_log endpoint].
    now rewrite He, Hl, Hresp. }
  rewrite (bind_step _ _ _ _ _ Hget). cbn [fst snd].
  apply Z.eqb_neq in Hstatus. rewrite Hstatus.
  cbn [ret fst snd log_request tick http_log api_bills_cache api_bills_cache_time].
  rewrite Hl, Hc, Ht, skipn_app, skipn_all, Nat.sub_diag. repeat split.
Qed.

(** ** The cache file *)

(** X12: reading the cache file never raises, and what it returns, unless
    it is [None], is the [bills] entry of a JSON dict in the file whose
    timestamp is a number less than [CACHE_DURATION] before the clock
    reading: nothing is ever returned from an expired or unreadable file. *)
Theorem load_returns_only_fresh (w : World) :
  exists v,
    fst (load_cache_from_file w) = Returned v /\
    (v <> PNone ->
     exists d t,
       cache_file w = Some (JsonDoc (PDict d)) /\
       py_num (field d "timestamp" (PInt 0)) = Some t /\
       (clock w (ticks w) - t < CACHE_DURATION)%Q /\
       v = field d "bills" (PList [])).
Proof.
  unfold load_cache_from_file, try_except. cbn [gets bind].
  destruct (cache_file w) as [[|doc]|] eqn:Ef; cbn [json_load lift bind ret raise modify];
    try (exists PNone; split; [reflexivity | congruence]).
  destruct doc as [| | | | | |d]; cbn [py_get lift bind ret raise modify];
    try (exists PNone; split; [reflexivity | congruence]).
  rewrite (bind_step time_time _ w (tick w) _ eq_refl).
  destruct (py_num (field d "timestamp" (PInt 0))) as [t|] eqn:Et;
    cbn [lift bind ret raise modify];
    [| exists PNone; split; [reflexivity | congruence]].
  destruct (Qltb (clock w (ticks w) - t) CACHE_DURATION) eqn:Eq;
    cbn [lift bind ret raise modify];
    [| exists PNone; split; [reflexivity | congruence]].
  exists (field d "bills" (PList [])). split; [reflexivity |].
  intros _. exists d, t. apply Qltb_lt in Eq. now repeat split.
Qed.

(** X13: reading disposes of the file exactly when it cannot be read and
    the disk allows it: an unreadable file is removed, an expired one
    stays. *)
Theorem load_removes_only_unreadable (w : World) (c : FileContent) :
  cache_file w = Some c ->
  cache_file (snd (load_cache_from_file w))
  = (if unreadable c && disk_writable w then None else Some c) /\
  (unreadable c = true -> fst (load_cache_from_file w) = Returned PNone).
Proof.
  intros Ef. unfold load_cache_from_file, try_except. cbn [gets bind].
  rewrite Ef. unfold remove_cache_file.
  destruct c as [|doc]; cbn [json_load lift bind ret raise modify unreadable andb].
  - cbn. destruct (disk_writable w); cbn; try rewrite Ef; auto.
  - destruct doc as [| | | | | |d];
      cbn [py_get lift bind ret raise modify unreadable andb];
      try (cbn; destruct (disk_writable w); cbn; try rewrite Ef; now auto).
    rewrite (bind_step time_time _ w (tick w) _ eq_refl).
    destruct (py_num (field d "timestamp" (PInt 0))) as [t|];
      cbn [lift bind ret raise modify andb].
    + destruct (Qltb (clock w (ticks w) - t) CACHE_DURATION);
        cbn; rewrite Ef; split; try reflexivity; discriminate.
    + cbn. destruct (disk_writable w); cbn; try rewrite Ef; auto.
Qed.

(** an int timestamp too large for a float is a case of the unreadable
    file: the subtraction raises OverflowError, and the handler removes the
    file *)
Lemma load_discards_overflowing_timestamp (w : World) (bills : pyval) :
  cache_file w
  = Some (JsonDoc (PDict [("timestamp", PInt (2 ^ 1024)); ("bills", bills)])) ->
  disk_writable w = true ->
  fst (load_cache_from_file w) = Returned PNone /\
  cache_file (snd (load_cache_from_file w)) = None.
Proof.
  intros Hf Hd. split.
  - unfold load_cache_from_file, try_except. cbn [gets bind]. rewrite Hf.
    cbn [json_load lift bind ret py_get].
    rewrite (bind_step time_time _ w (tick w) _ eq_refl).
    reflexivity.
  - rewrite load_file_after. unfold file_after_read. rewrite Hf, Hd.
    reflexivity.
Qed.

(** ** Reads of the processed bills *)

(** X14: a read served from memory returns the memory copy, reads the
    clock once and does nothing else: no request, no file access, no
    write. *)
Theorem memory_hit_only_reads_clock (w : World) (chamber : string)
        (congress : Z) (limit : option Z) :
  memory_cache_live w ->
  get_processed_bills_cached chamber congress limit w
  = (Returned (processed_bills_cache w), tick w).
Proof.
  intros [Htrue [t [Et [Hnz Hage]]]].
  unfold get_processed_bills_cached. cbn [gets bind].
  unfold cache_is_fresh. rewrite Et, Htrue.
  apply time_truthy_Some in Hnz. rewrite Hnz. cbn [andb].
  apply Qltb_lt in Hage. cbn [bind time_time ret]. now rewrite Hage.
Qed.

(** the whole run of a promotion *)
Lemma promotion_run (w : World) (T : Q) (bills : pyval)
      (chamber : string) (congress : Z) (limit : option Z) :
  processed_bills_cache w = PNone ->
  cache_file w = Some (JsonDoc (cache_data_of T bills)) ->
  truthy bills = true ->
  (clock w (ticks w) - T < CACHE_DURATION)%Q ->
  get_processed_bills_cached chamber congress limit w
  = (Returned bills,
     with_processed_cache_time (Some (clock w (S (ticks w))))
       (tick (with_processed_cache bills (tick w)))).
Proof.
  intros Hmem Hfile Htrue Hage.
  unfold get_processed_bills_cached. cbn [gets bind].
  assert (E : cache_is_fresh (processed_bills_cache w)
                (processed_bills_cache_time w) w = (Returned false, w)).
  { rewrite Hmem. unfold cache_is_fresh.
    destruct (processed_bills_cache_time w); reflexivity. }
  rewrite (bind_step _ _ _ _ _ E).
  rewrite (bind_step _ _ _ _ _ (load_written_entry w T bills Hfile)).
  apply Qltb_lt in Hage. rewrite Hage, Htrue. reflexivity.
Qed.

(** X15: clearing the caches does not clear the cache file: the read that
    follows is served from a file entry that has not expired, and makes no
    request. *)
Theorem clear_leaves_file_tier (w : World) (T : Q) (bills : pyval)
        (chamber : string) (congress : Z) (limit : option Z) :
  cache_file w = Some (JsonDoc (cache_data_of T bills)) ->
  truthy bills = true ->
  (clock w (ticks w) - T < CACHE_DURATION)%Q ->
  let w0 := snd (clear_bills_cache w) in
  fst (get_processed_bills_cached chamber congress limit w0) = Returned bills /\
  requests_issued (get_processed_bills_cached chamber congress limit) w0 = [].
Proof.
  intros Hfile Htrue Hage w0. unfold requests_issued.
  rewrite (promotion_run w0 T bills chamber congress limit);
    try assumption; try reflexivity.
  cbn. split; [reflexivity | apply skipn_all].
Qed.

(** X16: with a limit other than 0 the loop keeps at most [limit] bills
    (none for a negative limit), and every bill it keeps is the
    normalisation of a fetched record. *)
Theorem process_from_bounded (z : Z) (items : list pyval) :
  z <> 0%Z ->
  (Z.of_nat (List.length (process_from (Some z) 0 items)) <= Z.max z 0)%Z /\
  forall processed, In processed (process_from (Some z) 0 items) ->
    exists bill, In bill items /\
                 process_congress_bill_lightweight bill = Some processed.
Proof.
  intros Hz.
  assert (Hlen : forall items i,
             (Z.of_nat (List.length (process_from (Some z) i items))
              <= Z.max (z - Z.of_nat i) 0)%Z).
  { clear items. induction items as [|bill rest IH]; intros i; simpl; [lia |].
    apply Z.eqb_neq in Hz. rewrite Hz. cbn [negb andb].
    destruct (z <=? Z.of_nat i)%Z eqn:E; [simpl; lia |].
    apply Z.leb_gt in E. specialize (IH (S i)).
    destruct (process_congress_bill_lightweight bill) as [p|]; [| lia].
    destruct (truthy p); simpl List.length; lia. }
  assert (Hin : forall items i processed,
             In processed (process_from (Some z) i items) ->
             exists bill, In bill items /\
                          process_congress_bill_lightweight bill = Some processed).
  { clear items Hlen. induction items as [|bill rest IH]; intros i processed;
      cbn [process_from In]; [tauto |].
    destruct (limit_reached (Some z) i); [intros [] |].
    destruct (process_congress_bill_lightweight bill) as [p|] eqn:Ep.
    - destruct (truthy p).
      + intros [<- | H]; [eauto |].
        destruct (IH _ _ H) as [b [Hb Eb]]. eauto.
      + intros H. destruct (IH _ _ H) as [b [Hb Eb]]. eauto.
    - intros H. destruct (IH _ _ H) as [b [Hb Eb]]. eauto. }
  split.
  - specialize (Hlen items 0). simpl Z.of_nat in Hlen. lia.
  - intros processed. apply Hin.
Qed.

(** X17: a fetch that brings nothing back is not cached: the read returns
    the empty list and writes neither tier, with or without a limit. *)
Theorem empty_fetch_is_not_cached (w : World) (chamber : string) (congress : Z)
        (limit : option Z) (api_bills : pyval) :
  ~ memory_cache_live w ->
  file_read_misses w ->
  fst (fetch_bills_from_api chamber congress 0
         (snd (load_cache_from_file (after_memory_check w))))
  = Returned api_bills ->
  truthy api_bills = false ->
  let r := get_processed_bills_cached chamber congress limit w in
  fst r = Returned (PList []) /\ processed_tier_kept w (snd r).
Proof.
  intros Hmem Hfile Hfetch Hfalse r. subst r.
  destruct (read_reaches_fetch w chamber congress limit Hmem Hfile)
    as [k [-> ->]].
  rewrite (bind_step _ _ _ _ _ (run_pair _ _ _ Hfetch)).
  rewrite Hfalse. cbn [ret fst snd]. split; [reflexivity |].
  eapply kept_trans.
  - apply (keeps_cache_is_fresh processed_tier_kept); kept_frame.
  - eapply kept_trans.
    + apply load_keeps_processed_tier.
    + apply fetch_keeps_processed_tier.
Qed.

(** ** The statistics read *)

Lemma state_kept_refl (w : World) : state_kept w w.
Proof. unfold state_kept. tauto. Qed.

Lemma state_kept_trans (w1 w2 w3 : World) :
  state_kept w1 w2 -> state_kept w2 w3 -> state_kept w1 w3.
Proof. unfold state_kept. intuition congruence. Qed.

Lemma state_kept_log (r : Request) (w : World) : state_kept w (log_request r w).
Proof. unfold state_kept. cbn. tauto. Qed.

Ltac state_kept_steps :=
  repeat first
    [ apply (keeps_ret state_kept state_kept_refl)
    | apply (keeps_lift state_kept state_kept_refl)
    | apply (keeps_requests_get state_kept state_kept_log)
    | apply keeps_if
    | apply (keeps_try state_kept state_kept_trans)
    | apply (keeps_bind state_kept state_kept_trans); [| intros ?] ].

Lemma issues_chamber_count (response : Z * option pyval) :
  issues_at_most 0 (chamber_count response).
Proof. unfold chamber_count, response_json. quiet. Qed.

Lemma same_surroundings_refl (w : World) : same_surroundings w w.
Proof. unfold same_surroundings. auto. Qed.

Lemma blind_ret {A} (a : A) : cache_blind (ret a).
Proof. intros w1 w2 H. now split. Qed.

Lemma blind_raise {A} : cache_blind (@raise A).
Proof. intros w1 w2 H. now split. Qed.

Lemma blind_lift {A} (o : option A) : cache_blind (lift o).
Proof. destruct o; [apply blind_ret | apply blind_raise]. Qed.

Lemma blind_requests_get (r : Request) : cache_blind (requests_get r).
Proof.
  intros w1 w2 (Hc & Ht & He & Hl). unfold requests_get.
  rewrite He, Hl.
  destruct (endpoint w2 (List.length (http_log w2)) r);
    (split; [reflexivity |]); unfold same_surroundings; cbn;
    rewrite Hl; auto.
Qed.

Lemma blind_bind {A B} (m : M A) (k : A -> M B) :
  cache_blind m -> (forall a, cache_blind (k a)) -> cache_blind (bind m k).
Proof.
  intros Hm Hk w1 w2 H. unfold bind.
  destruct (Hm w1 w2 H) as [E S].
  destruct (m w1) as [[a|] w1'], (m w2) as [[a'|] w2'];
    cbn [fst snd] in E, S; try discriminate.
  - inversion E; subst a'. now apply Hk.
  - now split.
Qed.

Lemma blind_try {A} (m h : M A) :
  cache_blind m -> cache_blind h -> cache_blind (try_except m h).
Proof.
  intros Hm Hh w1 w2 H. unfold try_except.
  destruct (Hm w1 w2 H) as [E S].
  destruct (m w1) as [[a|] w1'], (m w2) as [[a'|] w2'];
    cbn [fst snd] in E, S; try discriminate.
  - now split.
  - now apply Hh.
Qed.

Lemma blind_if {A} (b : bool) (m1 m2 : M A) :
  cache_blind m1 -> cache_blind m2 -> cache_blind (if b then m1 else m2).
Proof. now destruct b. Qed.

Ltac blind_steps :=
  repeat first
    [ apply blind_ret
    | apply blind_lift
    | apply blind_requests_get
    | apply blind_if
    | apply blind_try
    | apply blind_bind; [| intros ?] ].

Lemma stats_read_cache_blind (chamber : string) (congress : Z)
      (limit : option Z) :
  cache_blind (get_processed_bills_cached_with_stats chamber congress limit).
Proof.
  unfold get_processed_bills_cached_with_stats, chamber_count, response_json.
  blind_steps.
Qed.

(** X18: the statistics read never raises, issues at most three requests,
    and, for all its name, neither reads nor writes any cache: the raw
    bills, the processed bills and the cache file are left as they were,
    and the result and the requests are the same in every world that has
    the same clock, endpoint and request log, whatever its caches hold. *)
Theorem stats_read_keeps_caches (chamber : string) (congress : Z)
        (limit : option Z) (w : World) :
  let read := get_processed_bills_cached_with_stats chamber congress limit in
  (exists result, fst (read w) = Returned result) /\
  state_kept w (snd (read w)) /\
  List.length (requests_issued read w) <= 3 /\
  forall w2, same_surroundings w w2 ->
             fst (read w2) = fst (read w) /\
             requests_issued read w2 = requests_issued read w.
Proof.
  cbv zeta. split; [| split; [| split]].
  - apply (never_raises_try_ret _ _ w).
  - cut (keeps state_kept
           (get_processed_bills_cached_with_stats chamber congress limit));
      [intros K; apply K |].
    unfold get_processed_bills_cached_with_stats, chamber_count, response_json.
    state_kept_steps.
  - apply issued_length.
    unfold get_processed_bills_cached_with_stats.
    apply (issues_try 3 0 3); [| quiet | lia].
    apply (issues_bind 1 2 3); [apply issues_requests_get | intros ? | lia].
    apply issues_if; [| apply (issues_weaken 0); [quiet | lia]].
    unfold response_json. do 2 (apply (issues_bind 0 2 2); [quiet | intros ? | lia]).
    apply (issues_bind 1 1 2); [apply issues_requests_get | intros ? | lia].
    apply (issues_bind 1 0 1); [apply issues_requests_get | intros ? | lia].
    pose proof issues_chamber_count. quiet.
  - intros w2 Hsame.
    destruct (stats_read_cache_blind chamber congress limit w w2 Hsame)
      as [Hres (_ & _ & _ & Hlog)].
    split; [now symmetry |].
    unfold requests_issued. destruct Hsame as (_ & _ & _ & Hl0).
    now rewrite <- Hl0, <- Hlog.
Qed.

(** X19: when the first answer of the statistics read has a status other
    than 200, the read stops after that one request and returns no bill
    and zero counts. *)
Theorem stats_read_error_status (chamber : string) (congress : Z)
        (limit : option Z) (w : World) (status : Z) (body : option pyval) :
  endpoint w (List.length (http_log w)) (stats_request limit)
  = Response status body ->
  status <> 200%Z ->
  fst (get_processed_bills_cached_with_stats chamber congress limit w)
  = Returned (PList [], no_stats) /\
  requests_issued (get_processed_bills_cached_with_stats chamber congress limit) w
  = [stats_request limit].
Proof.
  intros Hresp Hstatus. unfold requests_issued.
  unfold get_processed_bills_cached_with_stats, try_except.
  assert (Hget : requests_get (stats_request limit) w
                 = (Returned (status, body), log_request (stats_request limit) w)).
  { unfold requests_get. now rewrite Hresp. }
  rewrite (bind_step _ _ _ _ _ Hget). cbn [fst snd].
  apply Z.eqb_neq in Hstatus. rewrite Hstatus.
  cbn [ret fst snd log_request http_log].
  rewrite skipn_app, skipn_all, Nat.sub_diag. now split.
Qed.

(** ** The detail page *)

Lemma assoc_set_other (k k' : string) (v : pyval) (d : list (string * pyval)) :
  k <> k' -> assoc k (assoc_set k' v d) = assoc k d.
Proof.
  intros Hne. induction d as [|[k0 v0] d IH]; simpl.
  - apply String.eqb_neq in Hne. now rewrite Hne.
  - destruct (String.eqb k' k0) eqn:E; simpl.
    + apply String.eqb_eq in E. subst k0.
      apply String.eqb_neq in Hne. now rewrite Hne.
    + now rewrite IH.
Qed.

Lemma enriched_refl (items : list (string * pyval)) :
  enriched (PDict items) (PDict items).
Proof. exists items, items. auto. Qed.

Lemma sponsor_update_frame (items l : list (string * pyval)) (sponsors : pyval) :
  (if truthy sponsors then
     let? n := py_len sponsors in
     if 0 <? n then
       let? primary_sponsor := py_index0 sponsors in
       let? name := py_get primary_sponsor "fullName"
                      (PStr "Sponsor information not available") in
       Some (assoc_set "sponsor" name items)
     else Some items
   else Some items) = Some l ->
  forall k, k <> "sponsor" -> assoc k l = assoc k items.
Proof.
  intros H k Hk.
  repeat match type of H with
         | context [match ?x with _ => _ end] => destruct x; try discriminate
         end;
    inversion H; subst; try reflexivity.
  now apply assoc_set_other.
Qed.

Lemma with_details_enriched (items : list (string * pyval))
      (bill_detail out : pyval) :
  DetailPage.with_details (PDict items) bill_detail = Some out ->
  enriched (PDict items) out.
Proof.
  unfold DetailPage.with_details. intros H.
  repeat match type of H with
         | context [match ?x with _ => _ end] => destruct x eqn:?; try discriminate
         end;
    inversion H; subst; exists items; eexists;
    (split; [reflexivity | split; [reflexivity |]]);
    intros k Hk; unfold detail_keys in Hk; simpl in Hk;
    repeat rewrite assoc_set_other
      by (intros Hx; apply Hk; rewrite Hx; intuition);
    match goal with
    | Hs : _ = Some ?l |- assoc _ ?l = _ =>
        apply (sponsor_update_frame _ _ _ Hs);
        intros Hx; apply Hk; rewrite Hx; intuition
    end.
Qed.

Lemma detail_of_enriched (items : list (string * pyval)) (out : pyval)
      (w w' : World) :
  DetailPage.detail_of (PDict items) w = (Returned out, w') ->
  enriched (PDict items) out.
Proof.
  unfold DetailPage.detail_of. cbn [py_get lift bind ret]. intros H.
  destruct (negb (truthy (field items "bill_id" (PStr EmptyString))));
    [inversion H; apply enriched_refl |].
  destruct (field items "bill_id" (PStr EmptyString)) as [| | | |id| |];
    try discriminate.
  destruct (PyStr.split "-"%char id) as [|a [|b rest]];
    try (inversion H; apply enriched_refl).
  destruct (BillId.parse_type_number_page a) as [[ty num]|];
    [| inversion H; apply enriched_refl].
  apply bind_returned in H. destruct H as [t0 [w1 [_ H]]].
  apply bind_returned in H. destruct H as [resp [w2 [_ H]]].
  apply bind_returned in H. destruct H as [t1 [w3 [_ H]]].
  destruct (fst resp =? 200)%Z; [| inversion H; apply enriched_refl].
  apply bind_returned in H. destruct H as [data [w4 [_ H]]].
  apply bind_returned in H. destruct H as [detail [w5 [_ H]]].
  apply lift_returned in H. destruct H as [H _].
  exact (with_details_enriched items detail out H).
Qed.

(** One turn of the loop on a dict: it returns, and what it returns is the
    bill with at most the detail keys rewritten. *)
Lemma detail_step_dict (items : list (string * pyval)) (w : World) :
  exists out w',
    DetailPage.detail_step (PDict items) w = (Returned out, w') /\
    enriched (PDict items) out.
Proof.
  unfold DetailPage.detail_step, try_except.
  destruct (DetailPage.detail_of (PDict items) w) as [[out|] w'] eqn:E.
  - exists out, w'. split; [reflexivity |].
    exact (detail_of_enriched items out w w' E).
  - exists (PDict items), w'. split; [reflexivity | apply enriched_refl].
Qed.

Lemma detail_page_run (bills : list pyval) :
  Forall (fun bill => is_dict bill = true) bills ->
  forall w, exists out,
    fst (DetailPage.get_detailed_bills_for_page bills w) = Returned out /\
    Forall2 enriched bills out.
Proof.
  induction 1 as [|bill rest Hd _ IH]; intros w.
  - exists []. split; [reflexivity | constructor].
  - destruct bill as [| | | | | |items]; try discriminate.
    destruct (detail_step_dict items w) as [out [w1 [E He]]].
    destruct (IH w1) as [outs [Eo Hf]].
    exists (out :: outs). cbn [DetailPage.get_detailed_bills_for_page].
    rewrite (bind_step _ _ _ _ _ E).
    rewrite (bind_step _ _ _ _ _ (run_pair _ _ _ Eo)).
    split; [reflexivity | now constructor].
Qed.

Lemma issues_detail_step (bill : pyval) :
  issues_at_most 1 (DetailPage.detail_step bill).
Proof.
  unfold DetailPage.detail_step.
  apply (issues_try 1 0 1); [| quiet | lia].
  unfold DetailPage.detail_of. after_quiet_step.
  apply issues_if; [apply (issues_weaken 0); [quiet | lia] |].
  match goal with |- issues_at_most 1 (match ?a with _ => _ end) => destruct a end;
    try solve [apply (issues_weaken 0); [quiet | lia]].
  destruct (PyStr.split "-"%char s) as [|x [|y rest]];
    try solve [apply (issues_weaken 0); [quiet | lia]].
  destruct (BillId.parse_type_number_page x) as [[ty num]|];
    [| apply (issues_weaken 0); [quiet | lia]].
  after_quiet_step.
  apply (issues_bind 1 0 1); [apply issues_requests_get | intros ? | lia].
  unfold response_json. quiet.
Qed.

Lemma issues_detail_page (bills : list pyval) :
  issues_at_most (List.length bills) (DetailPage.get_detailed_bills_for_page bills).
Proof.
  induction bills as [|bill rest IH]; cbn [DetailPage.get_detailed_bills_for_page].
  - quiet.
  - apply (issues_bind 1 (List.length rest) _);
      [apply issues_detail_step | intros ? | simpl; lia].
    apply (issues_bind (List.length rest) 0 _); [exact IH | intros ?; quiet | lia].
Qed.

(** X20: on a page of dict bills the detail pass never raises and keeps
    every bill: the result has one bill for each bill of the page, and at
    most one request is made for each. *)
Theorem detail_page_keeps_every_bill (bills : list pyval) (w : World) :
  Forall (fun bill => is_dict bill = true) bills ->
  (exists out,
      fst (DetailPage.get_detailed_bills_for_page bills w) = Returned out /\
      List.length out = List.length bills) /\
  List.length (requests_issued (DetailPage.get_detailed_bills_for_page bills) w)
  <= List.length bills.
Proof.
  intros Hd. split.
  - destruct (detail_page_run bills Hd w) as [out [E Hf]].
    exists out. split; [exact E |]. symmetry. exact (Forall2_length Hf).
  - apply issued_length. apply issues_detail_page.
Qed.

(** X21: the detail pass rewrites nothing but the sponsor, the introduced
    date, the status and the latest action: every other entry of every
    bill, its identifier, title and topics among them, comes out as it
    went in, in the same position. *)
Theorem detail_page_rewrites_detail_keys_only (bills : list pyval) (w : World) :
  Forall (fun bill => is_dict bill = true) bills ->
  exists out,
    fst (DetailPage.get_detailed_bills_for_page bills w) = Returned out /\
    Forall2 enriched bills out.
Proof. intros Hd. exact (detail_page_run bills Hd w). Qed.

(** ** Pagination *)

Lemma valid_per_page_cases (per_page : Z) :
  Index.valid_per_page per_page = 10%Z \/
  Index.valid_per_page per_page = 20%Z \/
  Index.valid_per_page per_page = 50%Z.
Proof.
  unfold Index.valid_per_page.
  destruct (per_page =? 10)%Z eqn:E1; [apply Z.eqb_eq in E1; auto |].
  destruct (per_page =? 20)%Z eqn:E2; [apply Z.eqb_eq in E2; auto |].
  destruct (per_page =? 50)%Z eqn:E3; [apply Z.eqb_eq in E3; auto |].
  auto.
Qed.

(** the number of pages is the ceiling of the quotient, and 1 for no bill *)
Lemma total_pages_bounds (n pp : Z) :
  (0 <= n)%Z -> (0 < pp)%Z ->
  (1 <= Index.total_pages n pp)%Z /\
  (n <= Index.total_pages n pp * pp)%Z /\
  (0 < n -> (Index.total_pages n pp - 1) * pp < n)%Z.
Proof.
  intros Hn Hpp. unfold Index.total_pages.
  destruct (0 <? n)%Z eqn:E.
  - apply Z.ltb_lt in E.
    pose proof (Z.div_mod (n + pp - 1) pp ltac:(lia)) as Hdm.
    pose proof (Z.mod_pos_bound (n + pp - 1) pp Hpp) as Hr.
    set (q := ((n + pp - 1) / pp)%Z) in *.
    set (r := ((n + pp - 1) mod pp)%Z) in *.
    assert (1 <= q)%Z by nia.
    repeat split; nia.
  - apply Z.ltb_ge in E. repeat split; nia.
Qed.

Lemma clamp_page_bounds (page pages : Z) :
  (1 <= pages)%Z ->
  (1 <= Index.clamp_page page pages <= pages)%Z /\
  ((1 <= page <= pages)%Z -> Index.clamp_page page pages = page).
Proof.
  intros Hp. unfold Index.clamp_page.
  assert (E : (0 <? pages)%Z = true) by (apply Z.ltb_lt; lia).
  rewrite E. split; lia.
Qed.

(** a slice that starts inside the list is a chunk of it *)
Lemma py_slice_chunk {A} (xs : list A) (start width : Z) :
  (0 <= start <= Z.of_nat (List.length xs))%Z -> (0 < width)%Z ->
  Index.py_slice xs start (start + width)
  = firstn (Z.to_nat width) (skipn (Z.to_nat start) xs).
Proof.
  intros Hs Hw. unfold Index.py_slice, Index.slice_bound.
  set (len := Z.of_nat (List.length xs)) in *.
  assert (E1 : (start <? 0)%Z = false) by (apply Z.ltb_ge; lia).
  assert (E2 : (start + width <? 0)%Z = false) by (apply Z.ltb_ge; lia).
  rewrite E1, E2.
  replace (Z.min start len) with start by lia.
  destruct (Z.le_gt_cases (start + width) len) as [Hin | Hout].
  - replace (Z.min (start + width) len - start)%Z with width by lia.
    reflexivity.
  - replace (Z.min (start + width) len - start)%Z with (len - start)%Z by lia.
    assert (Hlen : List.length (skipn (Z.to_nat start) xs) = Z.to_nat (len - start)).
    { rewrite length_skipn. unfold len. lia. }
    rewrite <- Hlen. rewrite firstn_all.
    symmetry. apply firstn_all2. rewrite Hlen. lia.
Qed.

(** the bills of page [k], for a page number in range *)
Lemma page_bills_chunk {A} (k per_page : Z) (bills : list A) :
  (1 <= k <= Index.page_count (Index.paginate 1 per_page bills))%Z ->
  Index.page_bills (Index.paginate k per_page bills)
  = firstn (Z.to_nat (Index.valid_per_page per_page))
           (skipn (Z.to_nat ((k - 1) * Index.valid_per_page per_page)) bills).
Proof.
  unfold Index.paginate. cbn [Index.page_count Index.page_bills].
  set (pp := Index.valid_per_page per_page).
  set (n := Z.of_nat (List.length bills)).
  assert (Hpp : (0 < pp)%Z)
    by (destruct (valid_per_page_cases per_page) as [E | [E | E]];
        unfold pp; rewrite E; lia).
  assert (Hn : (0 <= n)%Z) by (unfold n; lia).
  destruct (total_pages_bounds n pp Hn Hpp) as [H1 [H2 H3]].
  intros Hk.
  destruct (clamp_page_bounds k (Index.total_pages n pp) H1) as [_ Hid].
  rewrite (Hid Hk). apply py_slice_chunk; [| exact Hpp].
  fold n. destruct (Z.eq_dec n 0) as [-> | Hnz].
  - unfold Index.total_pages in Hk. simpl in Hk. nia.
  - specialize (H3 ltac:(lia)). nia.
Qed.

(** X22: whatever page and page size are asked for, the page shown has a
    size of 10, 20 or 50, a number between 1 and the number of pages, at
    most that many bills, and at least one bill when there is any. *)
Theorem page_within_bounds {A} (page per_page : Z) (bills : list A) :
  let p := Index.paginate page per_page bills in
  In (Index.page_size p) [10; 20; 50]%Z /\
  (1 <= Index.page_number p <= Index.page_count p)%Z /\
  (Z.of_nat (List.length (Index.page_bills p)) <= Index.page_size p)%Z /\
  (bills <> [] -> Index.page_bills p <> []).
Proof.
  cbv zeta.
  set (pp := Index.valid_per_page per_page).
  set (n := Z.of_nat (List.length bills)).
  assert (Hpp : (0 < pp)%Z)
    by (destruct (valid_per_page_cases per_page) as [E | [E | E]];
        unfold pp; rewrite E; lia).
  assert (Hn : (0 <= n)%Z) by (unfold n; lia).
  destruct (total_pages_bounds n pp Hn Hpp) as [H1 [H2 H3]].
  destruct (clamp_page_bounds page (Index.total_pages n pp) H1) as [Hc _].
  set (k := Index.clamp_page page (Index.total_pages n pp)) in *.
  assert (Hk : (1 <= k <= Index.page_count (Index.paginate 1 per_page bills))%Z)
    by exact Hc.
  assert (Hsame : Index.page_bills (Index.paginate page per_page bills)
                  = Index.page_bills (Index.paginate k per_page bills)).
  { unfold Index.paginate. cbn [Index.page_bills]. fold pp n k.
    destruct (clamp_page_bounds k (Index.total_pages n pp) H1) as [_ Hid].
    now rewrite (Hid Hc). }
  split; [| split; [| split]].
  - cbn [Index.paginate Index.page_size]. fold pp. simpl.
    destruct (valid_per_page_cases per_page) as [E | [E | E]];
      unfold pp; rewrite E; auto.
  - exact Hc.
  - rewrite Hsame, (page_bills_chunk k per_page bills Hk).
    cbn [Index.paginate Index.page_size]. fold pp.
    rewrite length_firstn. lia.
  - intros Hne. rewrite Hsame, (page_bills_chunk k per_page bills Hk). fold pp.
    assert (Hpos : (0 < n)%Z)
      by (unfold n; destruct bills; [contradiction | simpl; lia]).
    specialize (H3 Hpos).
    assert (Hlen : 0 < List.length
                         (firstn (Z.to_nat pp)
                                 (skipn (Z.to_nat ((k - 1) * pp)) bills))).
    { rewrite length_firstn, length_skipn. unfold n in *. nia. }
    intros E. rewrite E in Hlen. simpl in Hlen. lia.
Qed.

(** cutting a list into [m] chunks of [n] that cover it *)
Lemma chunks_concat {A} (n : nat) :
  0 < n ->
  forall (m : nat) (xs : list A),
    List.length xs <= m * n ->
    List.concat (map (fun k => firstn n (skipn (k * n) xs)) (seq 0 m)) = xs.
Proof.
  intros Hn. induction m as [|m IH]; intros xs Hlen.
  - destruct xs; [reflexivity | simpl in Hlen; lia].
  - cbn [seq map List.concat]. rewrite <- seq_shift, map_map.
    rewrite (map_ext _ (fun k => firstn n (skipn (k * n) (skipn n xs)))).
    + rewrite IH; [apply firstn_skipn |]. rewrite length_skipn. lia.
    + intros k. rewrite skipn_skipn. f_equal. f_equal. lia.
Qed.

(** X23: the pages cut the list without loss or overlap: put end to end,
    first to last, they are the list again. *)
Theorem pages_partition_bills {A} (per_page : Z) (bills : list A) :
  List.concat (all_pages per_page bills) = bills.
Proof.
  unfold all_pages.
  set (pp := Index.valid_per_page per_page).
  set (pages := Index.page_count (Index.paginate 1 per_page bills)).
  set (n := Z.of_nat (List.length bills)).
  assert (Hpp : (0 < pp)%Z)
    by (destruct (valid_per_page_cases per_page) as [E | [E | E]];
        unfold pp; rewrite E; lia).
  assert (Hn : (0 <= n)%Z) by (unfold n; lia).
  destruct (total_pages_bounds n pp Hn Hpp) as [H1 [H2 _]].
  assert (Hpages : pages = Index.total_pages n pp) by reflexivity.
  rewrite <- seq_shift, map_map.
  rewrite (map_ext_in _
             (fun k => firstn (Z.to_nat pp) (skipn (k * Z.to_nat pp) bills))).
  - apply chunks_concat; [lia |]. unfold n in *. nia.
  - intros k Hk. apply in_seq in Hk.
    rewrite page_bills_chunk by (fold pages; lia).
    fold pp. f_equal. f_equal. nia.
Qed.

(** ** The filters of the index page *)

Lemma comprehension_filter (test : pyval -> option bool) (bills kept : list pyval) :
  Index.comprehension test bills = Some kept ->
  kept = filter (fun bill => test_or_false (test bill)) bills.
Proof.
  revert kept. induction bills as [|bill rest IH]; simpl; intros kept H.
  - now inversion H.
  - destruct (test bill) as [keep|]; [| discriminate].
    destruct (Index.comprehension test rest) as [kept'|]; [| discriminate].
    inversion H; subst. simpl. rewrite (IH kept' eq_refl).
    now destruct keep.
Qed.

Lemma filter_filter {A} (p q : A -> bool) (l : list A) :
  filter q (filter p l) = filter (fun x => p x && q x) l.
Proof.
  induction l as [|x l IH]; simpl; [reflexivity |].
  destruct (p x); simpl; [| exact IH].
  destruct (q x); now rewrite IH.
Qed.

Lemma filter_true {A} (l : list A) : filter (fun _ => true) l = l.
Proof. induction l as [|x l IH]; simpl; [reflexivity | now rewrite IH]. Qed.

(** one stage of the filter chain *)
Lemma filter_stage (on : bool) (test : pyval -> option bool)
      (bills kept : list pyval) :
  (if on then Index.comprehension test bills else Some bills) = Some kept ->
  kept = filter (fun bill => if on then test_or_false (test bill) else true) bills.
Proof.
  destruct on; intros H.
  - now apply comprehension_filter.
  - inversion H. symmetry. apply filter_true.
Qed.

(** X24: when the filters go through, the bills kept are the bills that
    pass every filter that is switched on, in their original order: no
    bill is added, duplicated or moved. *)
Theorem filters_select_in_order (topic_filter chamber_filter search_query : string)
        (all_bills kept : list pyval) :
  Index.apply_filters topic_filter chamber_filter search_query all_bills
  = Some kept ->
  kept = filter (passes topic_filter chamber_filter search_query) all_bills.
Proof.
  unfold Index.apply_filters. intros H.
  destruct (if PyStr.nonempty topic_filter
            then Index.comprehension (Index.has_topic topic_filter) all_bills
            else Some all_bills) as [by_topic|] eqn:E1; [| discriminate].
  destruct (if negb (String.eqb chamber_filter "both")
            then Index.comprehension (Index.in_chamber chamber_filter) by_topic
            else Some by_topic) as [by_chamber|] eqn:E2; [| discriminate].
  apply filter_stage in E1. apply filter_stage in E2. apply filter_stage in H.
  subst. rewrite !filter_filter. apply filter_ext.
  intros bill. unfold passes. now rewrite andb_assoc.
Qed.

(** X25: the search ignores letter case: queries that agree after
    lower-casing select the same bills. *)
Theorem search_ignores_case (topic_filter chamber_filter query query' : string)
        (all_bills : list pyval) :
  PyStr.lower query = PyStr.lower query' ->
  Index.apply_filters topic_filter chamber_filter query all_bills
  = Index.apply_filters topic_filter chamber_filter query' all_bills.
Proof.
  intros H. unfold Index.apply_filters.
  rewrite <- (lower_nonempty query), <- (lower_nonempty query'), H.
  reflexivity.
Qed.

(** ** Comment moderation *)

Lemma first_found_none (words : list string) (text : string) :
  Moderation.first_found words text = None <->
  forall word, In word words -> PyStr.contains word text = false.
Proof.
  induction words as [|w ws IH]; simpl.
  - split; [intros _ ? [] | reflexivity].
  - destruct (PyStr.contains w text) eqn:E.
    + split; [discriminate |]. intros H.
      specialize (H w (or_introl eq_refl)). congruence.
    + rewrite IH. split.
      * intros H word [<- | Hin]; auto.
      * intros H word Hin. apply H. now right.
Qed.

Lemma excessive_caps_spec (content : string) :
  Moderation.excessive_caps content = false <->
  10 * Moderation.count_upper content <= 7 * String.length content.
Proof.
  unfold Moderation.excessive_caps. destruct content as [|c r].
  - simpl. split; [lia | reflexivity].
  - rewrite Nat.ltb_ge. reflexivity.
Qed.

(** X26: a comment is approved exactly when no flagged word occurs in it in
    any letter case, at most seven characters in ten are capitals, it has
    ten characters or more once stripped, and a thousand or fewer in all. *)
Theorem moderate_comment_approves (content : string) :
  fst (Moderation.moderate_comment content) = true <-> acceptable content.
Proof.
  unfold Moderation.moderate_comment, acceptable.
  rewrite <- first_found_none, <- excessive_caps_spec.
  destruct (Moderation.first_found Moderation.inappropriate_words
              (PyStr.lower content)) as [word|].
  - simpl. split; [discriminate | intros [H _]; discriminate].
  - destruct (Moderation.excessive_caps content).
    + simpl. split; [discriminate | intros [_ [H _]]; discriminate].
    + destruct (String.length (PyStr.strip content) <? 10) eqn:E1.
      * apply Nat.ltb_lt in E1. simpl. split; [discriminate | lia].
      * apply Nat.ltb_ge in E1.
        destruct (1000 <? String.length content) eqn:E2.
        -- apply Nat.ltb_lt in E2. simpl. split; [discriminate | lia].
        -- apply Nat.ltb_ge in E2. simpl. tauto.
Qed.

(** ** Votes: rejection, the uniqueness constraint, other users' rows *)

(** what the endpoint does with any body *)
Lemma api_vote_bill_cases (b : string) (u : Z) (ip : string) (now : Q)
      (data : pyval) (t : Votes.Table) :
  match accepted_type data with
  | Some ty =>
      let t' := match Votes.first_vote b u t with
                | Some _ => Votes.update_first b u ty now t
                | None => Votes.insert_vote b ip ty now u t
                end in
      Votes.api_vote_bill b u ip now data t
      = (Votes.Ok200 (Votes.count_votes b "up" t') (Votes.count_votes b "down" t') ty,
         t')
  | None =>
      is_ok (fst (Votes.api_vote_bill b u ip now data t)) = false /\
      snd (Votes.api_vote_bill b u ip now data t) = t
  end.
Proof.
  unfold Votes.api_vote_bill, Votes.api_vote_bill_body, accepted_type.
  destruct data as [| x | z | q | s | l | d]; cbn [truthy negb];
    try (split; reflexivity).
  - destruct x; split; reflexivity.
  - destruct (negb (z =? 0)%Z); split; reflexivity.
  - destruct (negb (Qeq_bool q 0)); split; reflexivity.
  - destruct (PyStr.nonempty s); cbn [negb Votes.py_in Votes.py_item];
      [| split; reflexivity].
    destruct (PyStr.contains "vote_type" s); split; reflexivity.
  - destruct l as [|x l]; cbn [negb Votes.py_in Votes.py_item];
      [split; reflexivity |].
    destruct (existsb (fun v => py_eq_str v "vote_type") (x :: l));
      split; reflexivity.
  - destruct d as [|kv d]; [split; reflexivity |].
    cbn [negb Votes.py_in Votes.py_item].
    destruct (assoc "vote_type" (kv :: d)) as [chosen|]; cbn [negb];
      [| split; reflexivity].
    destruct chosen as [| | | |ty| |]; try (split; reflexivity).
    destruct (String.eqb ty "up" || String.eqb ty "down"); cbn [negb];
      [reflexivity | split; reflexivity].
Qed.

Lemma accepted_type_valid (data : pyval) (ty : string) :
  accepted_type data = Some ty -> valid_vote_type ty.
Proof.
  unfold accepted_type, valid_vote_type.
  destruct data as [| | | | | |d]; try discriminate.
  destruct (assoc "vote_type" d) as [[| | | |s| |]|]; try discriminate.
  destruct (String.eqb s "up") eqn:E1; simpl.
  - intros H. inversion H; subst. left. now apply String.eqb_eq.
  - destruct (String.eqb s "down") eqn:E2; [| discriminate].
    intros H. inversion H; subst. right. now apply String.eqb_eq.
Qed.

(** X27: a vote is accepted exactly when the body is a JSON object whose
    [vote_type] is 'up' or 'down'; any other body is answered with an
    error and leaves the table as it was. *)
Theorem vote_accepted_or_table_unchanged (b : string) (u : Z) (ip : string)
        (now : Q) (data : pyval) (t : Votes.Table) :
  let r := Votes.api_vote_bill b u ip now data t in
  (is_ok (fst r) = true <-> exists ty, accepted_type data = Some ty) /\
  (is_ok (fst r) = false -> snd r = t).
Proof.
  cbv zeta. pose proof (api_vote_bill_cases b u ip now data t) as H.
  destruct (accepted_type data) as [ty|].
  - cbv zeta in H. rewrite H. simpl. split.
    + split; [eauto | reflexivity].
    + discriminate.
  - destruct H as [Hno Hsame]. rewrite Hno. split.
    + split; [discriminate | intros [ty Hty]; discriminate].
    + intros _. exact Hsame.
Qed.

Lemma by_bill_user_iff (b : string) (u : Z) (v : Votes.Vote) :
  Votes.by_bill_user b u v = true <->
  Votes.bill_id v = b /\ Votes.user_id v = Some u.
Proof.
  unfold Votes.by_bill_user. rewrite andb_true_iff, String.eqb_eq.
  destruct (Votes.user_id v) as [x|].
  - rewrite Z.eqb_eq. split; intros [H1 H2]; split; congruence.
  - split; intros [H1 H2]; discriminate.
Qed.

Lemma by_bill_user_other (b b' : string) (u u' : Z) (v : Votes.Vote) :
  (b', u') <> (b, u) ->
  Votes.by_bill_user b u v = true -> Votes.by_bill_user b' u' v = false.
Proof.
  intros Hne Hv. apply by_bill_user_iff in Hv. destruct Hv as [Hb Hu].
  destruct (Votes.by_bill_user b' u' v) eqn:E; [| reflexivity].
  apply by_bill_user_iff in E. destruct E as [Hb' Hu'].
  exfalso. apply Hne. congruence.
Qed.

Lemma update_first_other (b b' : string) (u u' : Z) (ty : string) (now : Q)
      (t : Votes.Table) :
  (b', u') <> (b, u) ->
  Votes.rows_of b' u' (Votes.update_first b u ty now t) = Votes.rows_of b' u' t.
Proof.
  intros Hne. unfold Votes.rows_of. induction t as [|v t IH]; simpl; [reflexivity |].
  destruct (Votes.by_bill_user b u v) eqn:E; simpl.
  - rewrite (by_bill_user_other b b' u u' v Hne E).
    assert (E' : Votes.by_bill_user b u
                   (Votes.mkVote (Votes.id v) (Votes.bill_id v)
                      (Votes.ip_address v) ty now (Votes.user_id v)) = true)
      by exact E.
    now rewrite (by_bill_user_other b b' u u' _ Hne E').
  - now rewrite IH.
Qed.

Lemma insert_vote_other (b b' ip ty : string) (u u' : Z) (now : Q)
      (t : Votes.Table) :
  (b', u') <> (b, u) ->
  Votes.rows_of b' u' (Votes.insert_vote b ip ty now u t) = Votes.rows_of b' u' t.
Proof.
  intros Hne. unfold Votes.rows_of, Votes.insert_vote.
  rewrite filter_app. simpl.
  rewrite (by_bill_user_other b b' u u'
             (Votes.mkVote (Votes.next_id t) b ip ty now (Some u)) Hne
             (by_bill_user_refl b u
                (Votes.mkVote (Votes.next_id t) b ip ty now (Some u))
                eq_refl eq_refl)).
  apply app_nil_r.
Qed.

Lemma vote_other_rows (b b' : string) (u u' : Z) (ip : string) (now : Q)
      (data : pyval) (t : Votes.Table) :
  (b', u') <> (b, u) ->
  Votes.rows_of b' u' (snd (Votes.api_vote_bill b u ip now data t))
  = Votes.rows_of b' u' t.
Proof.
  intros Hne. pose proof (api_vote_bill_cases b u ip now data t) as H.
  destruct (accepted_type data) as [ty|].
  - cbv zeta in H. rewrite H. cbn [snd].
    destruct (Votes.first_vote b u t).
    + now apply update_first_other.
    + now apply insert_vote_other.
  - destruct H as [_ ->]. reflexivity.
Qed.

(** X28: a vote touches the rows of one (bill, user) pair only: the rows
    of every other pair are left exactly as they were, whatever the body
    of the request. *)
Theorem vote_leaves_other_pairs (b b' : string) (u u' : Z) (ip : string)
        (now : Q) (data : pyval) (t : Votes.Table) :
  (b', u') <> (b, u) ->
  Votes.rows_of b' u' (snd (Votes.api_vote_bill b u ip now data t))
  = Votes.rows_of b' u' t.
Proof. exact (vote_other_rows b b' u u' ip now data t). Qed.

(** X29: the endpoint keeps the uniqueness constraint: on a table with at
    most one row for each (bill, user) pair, the table it leaves has at
    most one row for each pair, whatever the body of the request. *)
Theorem vote_keeps_unique_constraint (b : string) (u : Z) (ip : string)
        (now : Q) (data : pyval) (t : Votes.Table) :
  Votes.unique_vote_per_user t ->
  Votes.unique_vote_per_user (snd (Votes.api_vote_bill b u ip now data t)).
Proof.
  intros Huniq b' u'.
  destruct (string_dec b' b) as [Hb | Hb];
    [destruct (Z.eq_dec u' u) as [Hu | Hu] |].
  - subst b' u'.
    pose proof (api_vote_bill_cases b u ip now data t) as H.
    destruct (accepted_type data) as [ty|] eqn:Ea.
    + pose proof (one_row_after_vote b u ip now ty t
                    (accepted_type_valid data ty Ea) (Huniq b u)) as [v [Hv _]].
      rewrite (vote_accepted b u ip now ty t (accepted_type_valid data ty Ea)) in Hv.
      cbv zeta in H. rewrite H. cbn [snd]. rewrite Hv. simpl. lia.
    + destruct H as [_ ->]. apply Huniq.
  - rewrite vote_other_rows by congruence. apply Huniq.
  - rewrite vote_other_rows by congruence. apply Huniq.
Qed.

Lemma update_first_length (b : string) (u : Z) (ty : string) (now : Q)
      (t : Votes.Table) :
  List.length (Votes.update_first b u ty now t) = List.length t.
Proof.
  induction t as [|v t IH]; simpl; [reflexivity |].
  destruct (Votes.by_bill_user b u v); simpl; congruence.
Qed.

(** X30: a vote adds at most one row, and none when the user already has
    a row for the bill: a changed vote replaces and never accumulates. *)
Theorem vote_adds_at_most_one_row (b : string) (u : Z) (ip : string)
        (now : Q) (data : pyval) (t : Votes.Table) :
  let t' := snd (Votes.api_vote_bill b u ip now data t) in
  List.length t <= List.length t' <= S (List.length t) /\
  (Votes.first_vote b u t <> None -> List.length t' = List.length t).
Proof.
  cbv zeta. pose proof (api_vote_bill_cases b u ip now data t) as H.
  destruct (accepted_type data) as [ty|].
  - cbv zeta in H. rewrite H. cbn [snd].
    destruct (Votes.first_vote b u t).
    + rewrite update_first_length. split; [lia | reflexivity].
    + unfold Votes.insert_vote. rewrite List.length_app. simpl.
      split; [lia | congruence].
  - destruct H as [_ ->]. split; [lia | reflexivity].
Qed.

End Model.

(** * The claims at sample inputs *)

Import Samples.

(** C2, as stated, fails on a live raw-bill cache: with chamber 'both' the
    fetch returns the cached bills and issues no request at all. *)
Lemma fetch_both_live_cache_issues_nothing :
  fst (fetch_bills_from_api "both" 118 0 warm_world) = Returned (PList [house_bill]) /\
  requests_issued (fetch_bills_from_api "both" 118 0) warm_world = [] /\
  List.length (requests_issued (fetch_bills_from_api "both" 118 0) warm_world) <> 2.
Proof.
  repeat split; try (vm_compute; reflexivity).
  vm_compute. discriminate.
Qed.

(** C2 (amended) on a cold start: two requests, and the two pages in call
    order. *)
Lemma fetch_both_on_cache_miss_witness :
  fst (fetch_bills_from_api "both" 118 0 cold_world)
  = Returned (PList ([house_bill] ++ [house_bill])) /\
  requests_issued (fetch_bills_from_api "both" 118 0) cold_world
  = [house_request 0; senate_request 0].
Proof.
  apply (fetch_both_on_cache_miss cold_world 118 0 [house_bill] [house_bill]).
  - intros [H _]. vm_compute in H. discriminate.
  - reflexivity.
  - reflexivity.
Defined.

(** C4 at an entry written at second 1000: read at 2799 and at 2801. *)
Lemma ttl_boundary_witness :
  CACHE_DURATION = 1800%Q /\
  fst (load_cache_from_file (world_reading_at 2799)) = Returned stale_bills /\
  fst (load_cache_from_file (world_reading_at 2801)) = Returned PNone.
Proof.
  apply (ttl_boundary (world_reading_at 2799) (world_reading_at 2801)
           (inject_Z 1000) stale_bills).
  - reflexivity.
  - reflexivity.
  - vm_compute. reflexivity.
  - vm_compute. reflexivity.
Defined.

(** C5, as stated, fails at the limit 0, which is not null: the read
    processes every bill and writes both tiers. *)
Lemma zero_limit_writes_cache :
  let w' := snd (get_processed_bills_cached sample_repr "both" 118 (Some 0%Z)
                   cold_world) in
  http_log w' <> [] /\
  processed_bills_cache w' <> processed_bills_cache cold_world /\
  processed_bills_cache_time w' <> processed_bills_cache_time cold_world /\
  cache_file w' <> cache_file cold_world.
Proof.
  cbv zeta. repeat split; vm_compute; discriminate.
Qed.

(** C5 (amended) with limit 5, where the cache file is not JSON. *)
Lemma limited_read_keeps_cache_witness :
  processed_tier_unwritten corrupt_file_world
    (snd (get_processed_bills_cached sample_repr "both" 118 (Some 5%Z)
            corrupt_file_world)).
Proof.
  apply (limited_read_keeps_cache sample_repr corrupt_file_world "both" 118 5).
  - discriminate.
  - intros [H _]. vm_compute in H. discriminate.
  - exists PNone. split; reflexivity.
Defined.

(** C6 on an empty table: up, then down. *)
Lemma second_vote_replaces_first_witness :
  exists v,
    Votes.rows_of "hr12-118" 7
      (snd (Votes.api_vote_bill "hr12-118" 7 "10.0.0.2" 2 (Votes.submission "down")
              (snd (Votes.api_vote_bill "hr12-118" 7 "10.0.0.1" 1
                      (Votes.submission "up") []))))
    = [v] /\ Votes.vote_type v = "down".
Proof.
  apply (second_vote_replaces_first [] "hr12-118" 7 "10.0.0.1" "10.0.0.2" 1 2
           "up" "down").
  - intros b u. simpl. lia.
  - left. reflexivity.
  - right. reflexivity.
Defined.

(** C7, as stated, fails on a record whose type is null: both paths return
    no bill, hence no identifier. *)
Lemma null_type_record_skipped :
  process_congress_bill_lightweight sample_repr null_type_bill = None /\
  fst (process_congress_bill sample_repr null_type_bill cold_world)
  = Returned None.
Proof. split; vm_compute; reflexivity. Qed.

(** C7 (amended) at the empty record and at a complete one. *)
Lemma normalized_bill_id_witness :
  (bill_id_of (process_congress_bill_lightweight sample_repr (PDict []))
   = Some "unknown-118" /\
   detailed_bill_id sample_repr (PDict []) cold_world = Some "unknown-118") /\
  (bill_id_of (process_congress_bill_lightweight sample_repr house_bill)
   = Some "hr12-118" /\
   detailed_bill_id sample_repr house_bill cold_world = Some "hr12-118").
Proof.
  split.
  - apply (proj1 (normalized_bill_id sample_repr [] EmptyString EmptyString
                    cold_world eq_refl eq_refl)).
    left. reflexivity.
  - apply (proj2 (normalized_bill_id sample_repr
                    [("title", PStr "Climate Change Mitigation Act");
                     ("type", PStr "HR");
                     ("number", PStr "12");
                     ("originChamber", PStr "House");
                     ("congress", PInt 118);
                     ("latestAction", PDict [("text", PStr "Referred to committee")])]
                    "HR" "House" cold_world eq_refl eq_refl)).
    repeat split; discriminate.
Defined.

(** C8 at the empty title and the empty summary. *)
Lemma categorize_bill_short_text_witness :
  categorize_bill sample_repr
    [("title", PStr EmptyString); ("summary", PStr EmptyString)] = [].
Proof.
  apply (categorize_bill_short_text sample_repr EmptyString EmptyString).
  vm_compute. lia.
Defined.

(** C9 on a cold start: write, then read one second later. *)
Lemma cache_file_round_trip_witness :
  fst (load_cache_from_file (snd (save_cache_to_file stale_bills cold_world)))
  = Returned stale_bills.
Proof.
  apply (cache_file_round_trip cold_world
           (snd (save_cache_to_file stale_bills cold_world)) stale_bills).
  - reflexivity.
  - reflexivity.
  - vm_compute. reflexivity.
Defined.

(** C10 at a House bill whose title names no technology. *)
Lemma detailed_path_tags_technology_witness :
  exists processed,
    fst (process_congress_bill sample_repr house_bill cold_world)
    = Returned (Some processed) /\
    In (PStr "technology") (topics_of processed).
Proof.
  eexists. split.
  - vm_compute. reflexivity.
  - eapply (detailed_path_tags_technology sample_repr house_bill _ cold_world
              (snd (process_congress_bill sample_repr house_bill cold_world))).
    apply run_pair. vm_compute. reflexivity.
Defined.

(** * The further properties at sample inputs *)

(** X2 at a bill that only says it is a bill. *)
Lemma fallback_tag_stands_alone_witness :
  categorize_bill sample_repr post_office_bill = ["general_legislation"] /\
  keyword_topics (bill_text sample_repr post_office_bill) = [].
Proof.
  apply (fallback_tag_stands_alone sample_repr post_office_bill
           "general_legislation").
  - simpl. tauto.
  - vm_compute. tauto.
Defined.

(** X3 at a title in capitals. *)
Lemma categorize_bill_ignores_case_witness :
  categorize_bill sample_repr
    [("title", PStr "CLIMATE CHANGE ACT"); ("summary", PStr EmptyString)]
  = categorize_bill sample_repr
      [("title", PStr "climate change act"); ("summary", PStr EmptyString)].
Proof.
  apply (categorize_bill_ignores_case sample_repr); reflexivity.
Defined.

(** X6 at a House bill. *)
Lemma detailed_path_never_falls_back_witness :
  exists processed,
    fst (process_congress_bill sample_repr house_bill cold_world)
    = Returned (Some processed) /\
    ~ In (PStr "general_legislation") (topics_of processed).
Proof.
  eexists. split.
  - vm_compute. reflexivity.
  - eapply (detailed_path_never_falls_back sample_repr house_bill _ cold_world
              (snd (process_congress_bill sample_repr house_bill cold_world))).
    + apply run_pair. vm_compute. reflexivity.
    + simpl. tauto.
Defined.

(** X8 when the API cannot be reached. *)
Lemma fetch_both_connection_error_witness :
  fst (fetch_bills_from_api "both" 118 0 (world_with_endpoint offline_endpoint))
  = Returned (PList []) /\
  requests_issued (fetch_bills_from_api "both" 118 0)
    (world_with_endpoint offline_endpoint) = [house_request 0] /\
  api_bills_cache
    (snd (fetch_bills_from_api "both" 118 0 (world_with_endpoint offline_endpoint)))
  = PNone /\
  api_bills_cache_time
    (snd (fetch_bills_from_api "both" 118 0 (world_with_endpoint offline_endpoint)))
  = None.
Proof.
  apply (fetch_both_connection_error (world_with_endpoint offline_endpoint) 118 0).
  - intros [H _]. vm_compute in H. discriminate.
  - reflexivity.
Defined.

(** X9 on a cold start: the page fetched for 'both' is what a fetch for the
    Senate at offset 50 gets back. *)
Lemma raw_cache_ignores_chamber_and_offset_witness :
  fst (fetch_bills_from_api "senate" 118 50
         (snd (fetch_bills_from_api "both" 118 0 cold_world)))
  = Returned (PList ([house_bill] ++ [house_bill])) /\
  requests_issued (fetch_bills_from_api "senate" 118 50)
    (snd (fetch_bills_from_api "both" 118 0 cold_world)) = [].
Proof.
  apply (raw_cache_ignores_chamber_and_offset cold_world 118 0
           [house_bill] [house_bill] "senate" 118 50).
  - intros [H _]. vm_compute in H. discriminate.
  - reflexivity.
  - reflexivity.
  - split; [vm_compute; reflexivity |].
    exists (inject_Z 1000005). split; [vm_compute; reflexivity |].
    split; [intros H; vm_compute in H; discriminate | vm_compute; reflexivity].
Defined.

(** X10 when both pages are empty. *)
Lemma empty_fetch_is_not_reused_witness :
  ~ api_cache_live
      (snd (fetch_bills_from_api "both" 118 0 (world_with_endpoint empty_endpoint))).
Proof.
  apply (empty_fetch_is_not_reused (world_with_endpoint empty_endpoint) 118 0).
  - intros [H _]. vm_compute in H. discriminate.
  - reflexivity.
  - reflexivity.
Defined.

(** X11 when the API answers 500. *)
Lemma fetch_chamber_error_status_witness :
  fst (fetch_bills_from_api "house" 118 0 (world_with_endpoint failing_endpoint))
  = Returned (PList []) /\
  requests_issued (fetch_bills_from_api "house" 118 0)
    (world_with_endpoint failing_endpoint) = [chamber_request "house" 0] /\
  api_bills_cache
    (snd (fetch_bills_from_api "house" 118 0 (world_with_endpoint failing_endpoint)))
  = PNone /\
  api_bills_cache_time
    (snd (fetch_bills_from_api "house" 118 0 (world_with_endpoint failing_endpoint)))
  = None.
Proof.
  apply (fetch_chamber_error_status (world_with_endpoint failing_endpoint)
           "house" 118 0 500 None).
  - intros [H _]. vm_compute in H. discriminate.
  - discriminate.
  - reflexivity.
  - discriminate.
Defined.

(** X13 at a file that is not JSON. *)
Lemma load_removes_only_unreadable_witness :
  cache_file (snd (load_cache_from_file corrupt_file_world)) = None /\
  (true = true -> fst (load_cache_from_file corrupt_file_world) = Returned PNone).
Proof.
  apply (load_removes_only_unreadable corrupt_file_world NotJson). reflexivity.
Defined.

(** X14 at a memory copy that is a thousand seconds old. *)
Lemma memory_hit_only_reads_clock_witness :
  get_processed_bills_cached sample_repr "both" 118 None memory_warm_world
  = (Returned stale_bills, tick memory_warm_world).
Proof.
  apply (memory_hit_only_reads_clock sample_repr memory_warm_world "both" 118 None).
  split; [reflexivity |].
  exists (inject_Z 999000). split; [reflexivity |].
  split; [intros H; vm_compute in H; discriminate | vm_compute; reflexivity].
Defined.

(** X15 at a file entry written at second 1000, cleared and read at 2799. *)
Lemma clear_leaves_file_tier_witness :
  fst (get_processed_bills_cached sample_repr "both" 118 None
         (snd (clear_bills_cache (world_reading_at 2799))))
  = Returned stale_bills /\
  requests_issued (get_processed_bills_cached sample_repr "both" 118 None)
    (snd (clear_bills_cache (world_reading_at 2799))) = [].
Proof.
  apply (clear_leaves_file_tier sample_repr (world_reading_at 2799)
           (inject_Z 1000) stale_bills "both" 118 None).
  - reflexivity.
  - reflexivity.
  - vm_compute. reflexivity.
Defined.


(** X16 at a limit of one over two records. *)
Lemma process_from_bounded_witness :
  (Z.of_nat (List.length
               (process_from sample_repr (Some 1%Z) 0 [house_bill; house_bill]))
   <= Z.max 1 0)%Z /\
  forall processed,
    In processed (process_from sample_repr (Some 1%Z) 0 [house_bill; house_bill]) ->
    exists bill, In bill [house_bill; house_bill] /\
                 process_congress_bill_lightweight sample_repr bill
                 = Some processed.
Proof.
  apply (process_from_bounded sample_repr 1 [house_bill; house_bill]).
  discriminate.
Defined.

(** X17 on a cold start against empty pages. *)
Lemma empty_fetch_is_not_cached_witness :
  fst (get_processed_bills_cached sample_repr "both" 118 None
         (world_with_endpoint empty_endpoint))
  = Returned (PList []) /\
  processed_tier_kept (world_with_endpoint empty_endpoint)
    (snd (get_processed_bills_cached sample_repr "both" 118 None
            (world_with_endpoint empty_endpoint))).
Proof.
  apply (empty_fetch_is_not_cached sample_repr (world_with_endpoint empty_endpoint)
           "both" 118 None (PList [])).
  - intros [H _]. vm_compute in H. discriminate.
  - exists PNone. split; reflexivity.
  - vm_compute. reflexivity.
  - reflexivity.
Defined.

(** X19 when the API answers 500. *)
Lemma stats_read_error_status_witness :
  fst (get_processed_bills_cached_with_stats sample_repr "both" 118 None
         (world_with_endpoint failing_endpoint))
  = Returned (PList [], no_stats) /\
  requests_issued
    (get_processed_bills_cached_with_stats sample_repr "both" 118 None)
    (world_with_endpoint failing_endpoint)
  = [stats_request None].
Proof.
  apply (stats_read_error_status sample_repr "both" 118 None
           (world_with_endpoint failing_endpoint) 500 None).
  - reflexivity.
  - discriminate.
Defined.

(** X20 at a page of two cached bills. *)
Lemma detail_page_keeps_every_bill_witness :
  (exists out,
      fst (DetailPage.get_detailed_bills_for_page [climate_bill; budget_bill]
             cold_world) = Returned out /\
      List.length out = 2) /\
  List.length
    (requests_issued
       (DetailPage.get_detailed_bills_for_page [climate_bill; budget_bill])
       cold_world) <= 2.
Proof.
  apply (detail_page_keeps_every_bill sample_repr [climate_bill; budget_bill]
           cold_world).
  repeat constructor.
Defined.

(** X21 at the same page. *)
Lemma detail_page_rewrites_detail_keys_only_witness :
  exists out,
    fst (DetailPage.get_detailed_bills_for_page [climate_bill; budget_bill]
           cold_world) = Returned out /\
    Forall2 enriched [climate_bill; budget_bill] out.
Proof.
  apply (detail_page_rewrites_detail_keys_only sample_repr
           [climate_bill; budget_bill] cold_world).
  repeat constructor.
Defined.

(** X24 with all three filters set. *)
Lemma filters_select_in_order_witness :
  [climate_bill]
  = filter (passes "environment" "house" "climate") [climate_bill; budget_bill].
Proof.
  apply (filters_select_in_order "environment" "house" "climate"
           [climate_bill; budget_bill] [climate_bill]).
  vm_compute. reflexivity.
Defined.

(** X25 at a query in capitals. *)
Lemma search_ignores_case_witness :
  Index.apply_filters EmptyString "both" "CLIMATE" [climate_bill; budget_bill]
  = Index.apply_filters EmptyString "both" "climate" [climate_bill; budget_bill].
Proof.
  apply (search_ignores_case EmptyString "both" "CLIMATE" "climate"
           [climate_bill; budget_bill]).
  reflexivity.
Defined.

(** X28: user 7 votes on hr12-118, the row of user 3 on s7-118 stays. *)
Lemma vote_leaves_other_pairs_witness :
  Votes.rows_of "s7-118" 3
    (snd (Votes.api_vote_bill "hr12-118" 7 "10.0.0.1" 6 (Votes.submission "up")
            one_vote_table))
  = Votes.rows_of "s7-118" 3 one_vote_table.
Proof.
  apply (vote_leaves_other_pairs "hr12-118" "s7-118" 7 3 "10.0.0.1" 6
           (Votes.submission "up") one_vote_table).
  discriminate.
Defined.

(** X29 from a table of one row. *)
Lemma vote_keeps_unique_constraint_witness :
  Votes.unique_vote_per_user
    (snd (Votes.api_vote_bill "hr12-118" 7 "10.0.0.1" 6 (Votes.submission "up")
            one_vote_table)).
Proof.
  apply (vote_keeps_unique_constraint "hr12-118" 7 "10.0.0.1" 6
           (Votes.submission "up") one_vote_table).
  intros b u. unfold Votes.rows_of, one_vote_table. cbn [filter].
  destruct (Votes.by_bill_user b u _); simpl; lia.
Defined.

(** The statistics read is blind to the caches; the cached read is
    not: from a cold start and from a warm memory copy, in the same
    surroundings, it returns different bills. *)
Lemma cached_read_is_not_cache_blind :
  ~ cache_blind (get_processed_bills_cached sample_repr "both" 118 None).
Proof.
  intros H.
  destruct (H cold_world memory_warm_world) as [E _].
  - repeat split.
  - vm_compute in E. discriminate.
Qed.
